(** * Luxe Salon backend: booking lifecycle and availability engine

    A shallow embedding of [src/routes/bookings.js] (the booking routes and
    the service routes that follow them in that file), [src/models/Booking.js]
    and [src/models/Service.js], and the properties of the booking state
    machine and of the slot computation proved over it.

    Conventions of the embedding:
    - a JavaScript string is a [string]; its characters are code units
      below 256;
    - a [Date] is its time value, a [Z] of milliseconds since the epoch;
      [None] stands for [Invalid Date];
    - a MongoDB collection is a [gmap] from [_id] to document;
    - functions of express-validator, of the JavaScript runtime and of the
      clock are fields of the class [Runtime] or of the record [Env];
    - the validators of the Mongoose schemas are computed from the document
      and the clock; what the store answers to a write, and to the
      [populate] after it, is a field of [Env]. *)

From Stdlib Require Import ZArith QArith Ascii String List Bool Lia.
From stdpp Require Import base option list gmap strings pretty sorting.

Local Open Scope string_scope.
Local Open Scope list_scope.
Local Open Scope Z_scope.

(** ** Strings *)

Module Str.

(** [String.prototype.length]. *)
Definition len (s : string) : Z := Z.of_nat (String.length s).

(** The white space of the regular expression class [\s], on code units
    below 256: TAB, LF, VT, FF, CR, SPACE and NBSP. *)
Definition is_white (c : ascii) : bool :=
  let n := nat_of_ascii c in
  ((9 <=? n)%nat && (n <=? 13)%nat) || (n =? 32)%nat || (n =? 160)%nat.

Fixpoint ltrim (s : string) : string :=
  match s with
  | String c s' => if is_white c then ltrim s' else s
  | EmptyString => EmptyString
  end.

Fixpoint rtrim (s : string) : string :=
  match s with
  | String c s' =>
      match rtrim s' with
      | EmptyString => if is_white c then EmptyString else String c EmptyString
      | t => String c t
      end
  | EmptyString => EmptyString
  end.

(** validator.js [trim(str)] with no [chars]: [rtrim(ltrim(str))]. *)
Definition trim (s : string) : string := rtrim (ltrim s).

(** [String.prototype.padStart(n, c)] for a one-character filler. *)
Definition padStart (n : nat) (c : ascii) (s : string) : string :=
  string_of_list_ascii (repeat c (n - String.length s)) ++ s.

(** [Array.prototype.includes] on an array of strings. *)
Definition includes (l : list string) (s : string) : bool :=
  existsb (String.eqb s) l.

End Str.

(** ** Regular expressions

    The fragment of JavaScript regular expressions the validators use:
    character classes, concatenation, alternation, [?] and [*].  A pattern
    between [^] and [$] (no flags) has to match the whole subject, which is
    what [test] decides, by derivatives. *)

Module RegExp.

Inductive re : Type :=
| Void : re
| Eps : re
| Class (p : ascii → bool) : re
| Cat (r1 r2 : re) : re
| Alt (r1 r2 : re) : re
| Star (r : re) : re.

(** [r?] *)
Definition Opt (r : re) : re := Alt r Eps.

(** A literal character, [[abc]] and [[a-z]]. *)
Definition Chr (c : ascii) : re := Class (Ascii.eqb c).
Definition OneOf (cs : string) : re :=
  Class (λ c, existsb (Ascii.eqb c) (list_ascii_of_string cs)).
Definition Range (lo hi : ascii) : re :=
  Class (λ c, (nat_of_ascii lo <=? nat_of_ascii c)%nat
              && (nat_of_ascii c <=? nat_of_ascii hi)%nat).

Fixpoint nullable (r : re) : bool :=
  match r with
  | Void => false
  | Eps => true
  | Class _ => false
  | Cat r1 r2 => nullable r1 && nullable r2
  | Alt r1 r2 => nullable r1 || nullable r2
  | Star _ => true
  end.

Fixpoint deriv (c : ascii) (r : re) : re :=
  match r with
  | Void => Void
  | Eps => Void
  | Class p => if p c then Eps else Void
  | Cat r1 r2 =>
      if nullable r1 then Alt (Cat (deriv c r1) r2) (deriv c r2)
      else Cat (deriv c r1) r2
  | Alt r1 r2 => Alt (deriv c r1) (deriv c r2)
  | Star r1 => Cat (deriv c r1) (Star r1)
  end.

Fixpoint matches (r : re) (s : list ascii) : bool :=
  match s with
  | [] => nullable r
  | c :: s' => matches (deriv c r) s'
  end.

(** [/^r$/.test(s)] *)
Definition test (r : re) (s : string) : bool :=
  matches r (list_ascii_of_string s).

(** The words of a regular expression. *)
Inductive lang : re → list ascii → Prop :=
| lang_eps : lang Eps []
| lang_class p c : p c = true → lang (Class p) [c]
| lang_cat r1 r2 s1 s2 : lang r1 s1 → lang r2 s2 → lang (Cat r1 r2) (s1 ++ s2)
| lang_alt_l r1 r2 s : lang r1 s → lang (Alt r1 r2) s
| lang_alt_r r1 r2 s : lang r2 s → lang (Alt r1 r2) s
| lang_star_nil r : lang (Star r) []
| lang_star_app r s1 s2 :
    lang r s1 → lang (Star r) s2 → lang (Star r) (s1 ++ s2).

End RegExp.

(** ** Time-of-day strings *)

Import RegExp.

(** The pattern of [validateBooking]'s [appointmentTime] rule:
    [/^([01]?[0-9]|2[0-3]):[0-5][0-9]$/]. *)
Definition timePattern : re :=
  Cat (Alt (Cat (Opt (OneOf "01")) (Range "0" "9"))
           (Cat (Chr "2") (Range "0" "3")))
      (Cat (Chr ":") (Cat (Range "0" "5") (Range "0" "9"))).

(** The class [\w]: letters, digits and the underscore. *)
Definition isWord (c : ascii) : bool :=
  let n := nat_of_ascii c in
  ((48 <=? n)%nat && (n <=? 57)%nat)
  || ((65 <=? n)%nat && (n <=? 90)%nat)
  || ((97 <=? n)%nat && (n <=? 122)%nat)
  || (n =? 95)%nat.

(** The pattern of the schema's [clientEmail]:
    [/^\w+([.-]?\w+)*@\w+([.-]?\w+)*(\.\w{2,3})+$/]. *)
Definition emailPattern : re :=
  let word := Class isWord in
  let words := Cat word (Star word) in
  let more := Star (Cat (Opt (OneOf ".-")) words) in
  let ending := Cat (Chr ".") (Cat word (Cat word (Opt word))) in
  Cat words (Cat more (Cat (Chr "@") (Cat words (Cat more (Cat ending (Star ending)))))).

(** [Number.prototype.toString()] on an integer. *)
Definition toString (n : Z) : string := pretty n.

(** The slot label of the availability route:
    [`${hour.toString().padStart(2, '0')}:${minute.toString().padStart(2, '0')}`]. *)
Definition slotLabel (hour minute : Z) : string :=
  Str.padStart 2 "0" (toString hour) ++ ":" ++ Str.padStart 2 "0" (toString minute).

(** The values a loop [for (let i = lo; i < hi; i += step)] runs through,
    for a positive [step]. *)
Definition forRange (lo hi step : Z) : list Z :=
  (λ k, lo + Z.of_nat k * step) <$> seq 0 (Z.to_nat ((hi - lo + step - 1) / step)).

Definition startHour : Z := 9.
Definition endHour : Z := 18.

(** The candidate slots, in the order the two nested loops produce them. *)
Definition slotGrid : list string :=
  hour ← forRange startHour endHour 1;
  minute ← forRange 0 60 30;
  [slotLabel hour minute].

(** ** The runtime *)

(** What the handlers take from validator.js and from the JavaScript
    runtime. *)
Class Runtime := {
  (** validator.js [isEmail] *)
  isEmail : string → bool;
  (** validator.js [normalizeEmail] *)
  normalizeEmail : string → string;
  (** validator.js [isISO8601] *)
  isISO8601 : string → bool;
  (** [new Date(s)]: the time value, [None] for [Invalid Date] *)
  newDate : string → option Z;
  (** the offset of local time from UTC at a time value, in milliseconds *)
  LocalTZA : Z → Z;
  (** [String.prototype.toLowerCase] *)
  toLowerCase : string → string
}.

Definition msPerDay : Z := 86400000.

(** [Date.prototype.getDay]: the week day of the local time, 0 for Sunday.
    Time value 0 fell on a Thursday. *)
Definition getDay `{H : Runtime} (t : Z) : Z :=
  ((t + LocalTZA t) `div` msPerDay + 4) `mod` 7.

(** ** Documents *)

(** An [ObjectId].  Ids that reach the handlers are well-formed; a malformed
    one makes the cast of Mongoose throw before any document is read. *)
Abbreviation ObjectId := N (only parsing).

(** The validator [required] of Mongoose on a string: it is not empty. *)
Definition required (s : string) : bool := negb (String.eqb s "").

(** The body of the service routes that write: the fields [validateService]
    checks and the two flags. *)
Module ServiceBody.
Record t : Type := mk {
  name : string;
  description : string;
  price : Q;
  duration : string;
  category : string;
  icon : string;
  popular : bool;
  available : bool
}.
End ServiceBody.

(** [src/models/Service.js], without [image], [features] and
    [requirements], which no route modelled here reads. *)
Module Service.
Record t : Type := mk {
  name : string;
  description : string;
  price : Q;
  duration : string;
  category : string;
  icon : string;
  popular : bool;
  available : bool;
  createdAt : Z;
  updatedAt : Z
}.

(** The document of a body, with its timestamps. *)
Definition ofBody (created updated : Z) (body : ServiceBody.t) : t :=
  mk (ServiceBody.name body) (ServiceBody.description body)
     (ServiceBody.price body) (ServiceBody.duration body)
     (ServiceBody.category body) (ServiceBody.icon body)
     (ServiceBody.popular body) (ServiceBody.available body)
     created updated.

(** [service.available = a] and [service.popular = p] *)
Definition set_available (a : bool) (s : t) : t :=
  mk (name s) (description s) (price s) (duration s) (category s) (icon s)
     (popular s) a (createdAt s) (updatedAt s).

Definition set_popular (p : bool) (s : t) : t :=
  mk (name s) (description s) (price s) (duration s) (category s) (icon s)
     p (available s) (createdAt s) (updatedAt s).

(** The [pre('save')] hook: [this.updatedAt = new Date()]. *)
Definition pre_save (now : Z) (s : t) : t :=
  mk (name s) (description s) (price s) (duration s) (category s) (icon s)
     (popular s) (available s) (createdAt s) now.

(** The [enum] of [category]. *)
Definition categories : list string :=
  ["Hair"; "Skincare"; "Nails"; "Brows & Lashes"; "Wellness"; "Makeup"; "Bridal"].

(** The validators of the schema, which Mongoose runs on every path of a
    document before it is saved. *)
Definition validate (s : t) : bool :=
  (required (name s) && (Str.len (name s) <=? 100))
  && (required (description s) && (Str.len (description s) <=? 500))
  && Qle_bool 0 (price s)
  && required (duration s)
  && (required (category s) && Str.includes categories (category s))
  && required (icon s).
End Service.

(** [src/models/Booking.js], without [stylist], which no route sets. *)
Module Booking.
Record t : Type := mk {
  clientName : string;
  clientEmail : string;
  clientPhone : string;
  service : ObjectId;
  serviceName : string;
  servicePrice : Q;
  serviceDuration : string;
  serviceCategory : string;
  appointmentDate : Z;
  appointmentTime : string;
  notes : string;
  status : string;
  totalAmount : Q;
  paymentStatus : string;
  createdAt : Z;
  updatedAt : Z
}.

(** [booking.status = st] *)
Definition set_status (st : string) (b : t) : t :=
  mk (clientName b) (clientEmail b) (clientPhone b) (service b)
     (serviceName b) (servicePrice b) (serviceDuration b) (serviceCategory b)
     (appointmentDate b) (appointmentTime b) (notes b) st
     (totalAmount b) (paymentStatus b) (createdAt b) (updatedAt b).

Definition set_updatedAt (now : Z) (b : t) : t :=
  mk (clientName b) (clientEmail b) (clientPhone b) (service b)
     (serviceName b) (servicePrice b) (serviceDuration b) (serviceCategory b)
     (appointmentDate b) (appointmentTime b) (notes b) (status b)
     (totalAmount b) (paymentStatus b) (createdAt b) now.

(** The [pre('save')] hook:
    [this.totalAmount = this.servicePrice; this.updatedAt = new Date()]. *)
Definition pre_save (now : Z) (b : t) : t :=
  mk (clientName b) (clientEmail b) (clientPhone b) (service b)
     (serviceName b) (servicePrice b) (serviceDuration b) (serviceCategory b)
     (appointmentDate b) (appointmentTime b) (notes b) (status b)
     (servicePrice b) (paymentStatus b) (createdAt b) now.

(** The query [status: { $in: ['pending', 'confirmed'] }]. *)
Definition active (b : t) : bool :=
  Str.includes ["pending"; "confirmed"] (status b).

(** The validators of the schema, which Mongoose runs on every path of a
    document before it is saved, whether the path was changed or not:
    [required], [maxlength], [match], [min], [enum] and the validator of
    [appointmentDate], [date > new Date()]. *)
Definition validate (clock : Z) (b : t) : bool :=
  (required (clientName b) && (Str.len (clientName b) <=? 100))
  && (required (clientEmail b) && test emailPattern (clientEmail b))
  && required (clientPhone b)
  && required (serviceName b)
  && Qle_bool 0 (servicePrice b)
  && required (serviceDuration b)
  && required (serviceCategory b)
  && (clock <? appointmentDate b)
  && required (appointmentTime b)
  && (Str.len (notes b) <=? 500)
  && Str.includes ["pending"; "confirmed"; "completed"; "cancelled"] (status b)
  && Qle_bool 0 (totalAmount b)
  && Str.includes ["pending"; "paid"; "refunded"] (paymentStatus b).
End Booking.

(** ** The server *)

(** The two collections and the lines written with [console.error] and
    [console.log]. *)
Record Server : Type := mkServer {
  bookings : gmap ObjectId Booking.t;
  services : gmap ObjectId Service.t;
  console : list string
}.

Definition with_bookings (m : gmap ObjectId Booking.t) (sv : Server) : Server :=
  mkServer m (services sv) (console sv).
Definition with_services (m : gmap ObjectId Service.t) (sv : Server) : Server :=
  mkServer (bookings sv) m (console sv).
Definition log (line : string) (sv : Server) : Server :=
  mkServer (bookings sv) (services sv) (console sv ++ [line]).

(** What one request finds outside the server: the clock, the [_id] a new
    document is given, whether the store carries out the write of the
    request, whether it answers the [populate] that follows the write, and
    whether the mail transport delivers.  The queries of the routes that
    only read and the finds that come before a write are answered. *)
Record Env : Type := mkEnv {
  now : Z;
  newId : ObjectId;
  writeOk : bool;
  populateOk : bool;
  mailOk : bool
}.

(** The failures of the handlers, with the HTTP status they are sent with. *)
Inductive Error : Type :=
| ValidationError                 (* 400, 'Validation failed' *)
| BadRequest (msg : string)       (* 400, with a message of its own *)
| NotFound (msg : string)         (* 404 *)
| Conflict                        (* 409 *)
| InvalidState (msg : string)     (* 400, from the cancel route *)
| InvalidArgument                 (* 400, 'Invalid status. Must be one of: ...' *)
| PersistenceError (msg : string) (* 500 *).

Inductive Reply (A : Type) : Type :=
| Ok (a : A)
| Fail (e : Error).
Arguments Ok {A} a.
Arguments Fail {A} e.

(** ** Queries on the bookings collection *)

(** [Booking.find(q)]: the matching documents with their ids. *)
Definition find (q : Booking.t → bool) (m : gmap ObjectId Booking.t)
  : list (ObjectId * Booking.t) :=
  List.filter (λ kv, q kv.2) (map_to_list m).

(** [Booking.findOne(q)] *)
Definition findOne (q : Booking.t → bool) (m : gmap ObjectId Booking.t)
  : option (ObjectId * Booking.t) :=
  head (find q m).

(** [Booking.findById(id)] *)
Definition findById (id : ObjectId) (m : gmap ObjectId Booking.t)
  : option Booking.t :=
  m !! id.

(** ** Creating a booking: [router.post('/')] *)

(** The request body. *)
Module Body.
Record t : Type := mk {
  clientName : string;
  clientEmail : string;
  clientPhone : string;
  service : ObjectId;
  appointmentDate : string;
  appointmentTime : string;
  notes : option string
}.
End Body.

Section Handlers.
Context `{Runtime}.

(** The [custom] rule of [appointmentDate]:
    [new Date(value) > new Date()], false on [Invalid Date]. *)
Definition inFuture (clock : Z) (value : string) : bool :=
  match newDate value with
  | Some date => clock <? date
  | None => false
  end.

(** [validateBooking] followed by [validationResult(req).isEmpty()].  The
    rule [isMongoId] of [service] holds of every [ObjectId]. *)
Definition validateBooking (clock : Z) (body : Body.t) : bool :=
  let name := Str.trim (Body.clientName body) in
  ((2 <=? Str.len name) && (Str.len name <=? 100))
  && isEmail (Body.clientEmail body)
  && (10 <=? Str.len (Str.trim (Body.clientPhone body)))
  && (isISO8601 (Body.appointmentDate body)
      && inFuture clock (Body.appointmentDate body))
  && test timePattern (Str.trim (Body.appointmentTime body))
  && match Body.notes body with
     | Some n => Str.len (Str.trim n) <=? 500
     | None => true
     end.

(** The sanitizers of [validateBooking] rewrite the body in place. *)
Definition sanitize (body : Body.t) : Body.t :=
  Body.mk (Str.trim (Body.clientName body))
          (normalizeEmail (Body.clientEmail body))
          (Str.trim (Body.clientPhone body))
          (Body.service body)
          (Body.appointmentDate body)
          (Str.trim (Body.appointmentTime body))
          (Str.trim <$> Body.notes body).

(** The conflict query: same [appointmentDate], same [appointmentTime],
    status pending or confirmed. *)
Definition conflicts (date : Z) (time : string) (b : Booking.t) : bool :=
  (Booking.appointmentDate b =? date)
  && String.eqb (Booking.appointmentTime b) time
  && Booking.active b.

(** [new Booking({...})], with the defaults and setters of the schema. *)
Definition newBooking (clock : Z) (body : Body.t) (service : Service.t)
    (date : Z) : Booking.t :=
  Booking.mk
    (Str.trim (Body.clientName body))
    (Str.trim (toLowerCase (Body.clientEmail body)))
    (Str.trim (Body.clientPhone body))
    (Body.service body)
    (Service.name service)
    (Service.price service)
    (Service.duration service)
    (Service.category service)
    date
    (Body.appointmentTime body)
    (match Body.notes body with
     | Some n => if String.eqb n "" then "No special requests" else n
     | None => "No special requests"
     end)
    "pending"
    (Service.price service)
    "pending"
    clock
    clock.

(** [doc.save()]: the document is validated, the [pre('save')] hook runs,
    then the document is inserted when it is new and replaced when it is
    not.  [None] when the validation or the write throws. *)
Definition save (env : Env) (isNew : bool) (id : ObjectId) (doc : Booking.t)
    (m : gmap ObjectId Booking.t) : option (gmap ObjectId Booking.t * Booking.t) :=
  if Booking.validate (now env) doc then
    let doc' := Booking.pre_save (now env) doc in
    if writeOk env then
      match m !! id with
      | Some _ => if isNew then None else Some (<[id := doc']> m, doc')
      | None => Some (<[id := doc']> m, doc')
      end
    else None
  else None.

(** [sendBookingConfirmation] of the mail module: it logs and throws again
    what the transport throws; [false] stands for the exception. *)
Definition sendBookingConfirmation (env : Env) (sv : Server) : Server * bool :=
  if mailOk env then (log "Booking confirmation email sent:" sv, true)
  else (log "Error sending booking confirmation email:" sv, false).

Definition createBooking (env : Env) (body : Body.t) (sv : Server)
  : Server * Reply (ObjectId * Booking.t) :=
  if negb (validateBooking (now env) body) then (sv, Fail ValidationError)
  else
    let body := sanitize body in
    match services sv !! Body.service body with
    | None => (sv, Fail (NotFound "Service not found"))
    | Some service =>
        match newDate (Body.appointmentDate body) with
        | None =>
            (log "Error creating booking:" sv,
             Fail (PersistenceError "Failed to create booking"))
        | Some date =>
            match findOne (conflicts date (Body.appointmentTime body))
                          (bookings sv) with
            | Some _ => (sv, Fail Conflict)
            | None =>
                let booking := newBooking (now env) body service date in
                match save env true (newId env) booking (bookings sv) with
                | None =>
                    (log "Error creating booking:" sv,
                     Fail (PersistenceError "Failed to create booking"))
                | Some (m, booking) =>
                    let sv := with_bookings m sv in
                    let '(sv, sent) := sendBookingConfirmation env sv in
                    let sv :=
                      if sent then sv
                      else log "Failed to send confirmation email:" sv in
                    (* [await booking.populate(...)], after the write *)
                    if populateOk env then (sv, Ok (newId env, booking))
                    else
                      (log "Error creating booking:" sv,
                       Fail (PersistenceError "Failed to create booking"))
                end
            end
        end
    end.

(** ** Changing the status: [router.patch('/:id/status')] *)

Definition validStatuses : list string :=
  ["pending"; "confirmed"; "completed"; "cancelled"].

(** [Booking.findByIdAndUpdate(id, { status }, { new: true, runValidators:
    true })]: [None] when the write throws, [Some None] for [null].  The
    schema has [timestamps]; no [save] hook runs, and the validators run on
    [status] alone, which the route has checked. *)
Definition findByIdAndUpdate (env : Env) (id : ObjectId) (st : string)
    (m : gmap ObjectId Booking.t)
  : option (gmap ObjectId Booking.t * option Booking.t) :=
  match m !! id with
  | None => Some (m, None)
  | Some doc =>
      if writeOk env then
        let doc' := Booking.set_updatedAt (now env) (Booking.set_status st doc) in
        Some (<[id := doc']> m, Some doc')
      else None
  end.

Definition updateStatus (env : Env) (id : ObjectId) (st : string) (sv : Server)
  : Server * Reply Booking.t :=
  if negb (Str.includes validStatuses st) then (sv, Fail InvalidArgument)
  else
    match findByIdAndUpdate env id st (bookings sv) with
    | None =>
        (log "Error updating booking status:" sv,
         Fail (PersistenceError "Failed to update booking status"))
    | Some (_, None) => (sv, Fail (NotFound "Booking not found"))
    | Some (m, Some booking) =>
        (* [.populate(...)], once the update is written *)
        if populateOk env then (with_bookings m sv, Ok booking)
        else
          (log "Error updating booking status:" (with_bookings m sv),
           Fail (PersistenceError "Failed to update booking status"))
    end.

(** ** Cancelling: [router.patch('/:id/cancel')] *)

Definition cancelBooking (env : Env) (id : ObjectId) (sv : Server)
  : Server * Reply Booking.t :=
  match findById id (bookings sv) with
  | None => (sv, Fail (NotFound "Booking not found"))
  | Some booking =>
      if String.eqb (Booking.status booking) "cancelled" then
        (sv, Fail (InvalidState "Booking is already cancelled"))
      else if String.eqb (Booking.status booking) "completed" then
        (sv, Fail (InvalidState "Cannot cancel completed booking"))
      else
        let booking := Booking.set_status "cancelled" booking in
        match save env false id booking (bookings sv) with
        | None =>
            (log "Error cancelling booking:" sv,
             Fail (PersistenceError "Failed to cancel booking"))
        | Some (m, booking) => (with_bookings m sv, Ok booking)
        end
  end.

(** ** Free slots of a day: [router.get('/available-slots/:date')] *)

(** The query [{ appointmentDate, status: { $in: [...] } }]. *)
Definition bookedOn (date : Z) (b : Booking.t) : bool :=
  (Booking.appointmentDate b =? date) && Booking.active b.

(** The two loops: every label that is not booked is pushed. *)
Definition freeSlots (bookedTimes : list string) : list string :=
  foldl (λ availableSlots hour,
           foldl (λ availableSlots minute,
                    let time := slotLabel hour minute in
                    if negb (Str.includes bookedTimes time)
                    then availableSlots ++ [time]
                    else availableSlots)
                 availableSlots (forRange 0 60 30))
        [] (forRange startHour endHour 1).

Definition availableSlots (date : string) (serviceId : option ObjectId)
    (sv : Server) : Server * Reply (list string) :=
  match serviceId with
  | None => (sv, Fail (BadRequest "Service ID is required"))
  | Some serviceId =>
      match services sv !! serviceId with
      | None => (sv, Fail (NotFound "Service not found"))
      | Some _ =>
          match newDate date with
          | None =>
              (* [getDay()] is [NaN]; the query throws on the date *)
              (log "Error fetching available slots:" sv,
               Fail (PersistenceError "Failed to fetch available slots"))
          | Some appointmentDate =>
              if getDay appointmentDate =? 0 then (sv, Ok [])
              else
                let bookedSlots := find (bookedOn appointmentDate) (bookings sv) in
                let bookedTimes :=
                  (λ slot, Booking.appointmentTime slot.2) <$> bookedSlots in
                (sv, Ok (freeSlots bookedTimes))
          end
      end
  end.

(** ** The service routes that change a service *)

(** The list of [validateService]'s [isIn]. *)
Definition categories : list string :=
  ["Hair"; "Skincare"; "Nails"; "Brows & Lashes"; "Wellness"; "Makeup"; "Bridal"].

(** [validateService], on a body whose [price] is a number. *)
Definition validateService (body : ServiceBody.t) : bool :=
  let name := Str.trim (ServiceBody.name body) in
  let description := Str.trim (ServiceBody.description body) in
  ((2 <=? Str.len name) && (Str.len name <=? 100))
  && ((10 <=? Str.len description) && (Str.len description <=? 500))
  && Qle_bool 0 (ServiceBody.price body)
  && (1 <=? Str.len (Str.trim (ServiceBody.duration body)))
  && Str.includes categories (ServiceBody.category body)
  && (1 <=? Str.len (Str.trim (ServiceBody.icon body))).

Definition sanitizeService (body : ServiceBody.t) : ServiceBody.t :=
  ServiceBody.mk (Str.trim (ServiceBody.name body))
                 (Str.trim (ServiceBody.description body))
                 (ServiceBody.price body)
                 (Str.trim (ServiceBody.duration body))
                 (ServiceBody.category body)
                 (Str.trim (ServiceBody.icon body))
                 (ServiceBody.popular body)
                 (ServiceBody.available body).

(** [service.save()] on a document of the collection: the document is
    validated, the [pre('save')] hook runs, then the document is written.
    [None] when the validation or the write throws. *)
Definition saveService (env : Env) (id : ObjectId) (doc : Service.t)
    (m : gmap ObjectId Service.t) : option (gmap ObjectId Service.t * Service.t) :=
  if Service.validate doc then
    let doc' := Service.pre_save (now env) doc in
    if writeOk env then Some (<[id := doc']> m, doc') else None
  else None.

(** The unique index on [name]. *)
Definition nameTaken (id : ObjectId) (name : string)
    (m : gmap ObjectId Service.t) : bool :=
  existsb (λ kv, negb (kv.1 =? id)%N && String.eqb (Service.name kv.2) name)
          (map_to_list m).

(** [router.put('/:id')]: [Service.findByIdAndUpdate(id, req.body, { new:
    true, runValidators: true })], for a body that carries every field.  The
    validators run on the fields of the body before the store is asked;
    the schema has [timestamps], so the date of update is set, and no
    [save] hook runs. *)
Definition updateService (env : Env) (id : ObjectId) (body : ServiceBody.t)
    (sv : Server) : Server * Reply Service.t :=
  if negb (validateService body) then (sv, Fail ValidationError)
  else
    let body := sanitizeService body in
    if negb (Service.validate (Service.ofBody (now env) (now env) body)) then
      (log "Error updating service:" sv,
       Fail (PersistenceError "Failed to update service"))
    else
      match services sv !! id with
      | None => (sv, Fail (NotFound "Service not found"))
      | Some old =>
          let service := Service.ofBody (Service.createdAt old) (now env) body in
          if nameTaken id (Service.name service) (services sv) then
            (log "Error updating service:" sv,
             Fail (BadRequest "Service name already exists"))
          else if writeOk env then
            (with_services (<[id := service]> (services sv)) sv, Ok service)
          else
            (log "Error updating service:" sv,
             Fail (PersistenceError "Failed to update service"))
      end.

(** [router.delete('/:id')]: [Service.findByIdAndDelete(id)]. *)
Definition deleteService (env : Env) (id : ObjectId) (sv : Server)
  : Server * Reply Service.t :=
  match services sv !! id with
  | None => (sv, Fail (NotFound "Service not found"))
  | Some service =>
      if writeOk env then
        (with_services (delete id (services sv)) sv, Ok service)
      else
        (log "Error deleting service:" sv,
         Fail (PersistenceError "Failed to delete service"))
  end.

End Handlers.

(** ** Requests and runs *)

(** The requests that write to the store. *)
Inductive Request : Type :=
| PostBooking (body : Body.t)
| PatchStatus (id : ObjectId) (status : string)
| PatchCancel (id : ObjectId)
| PutService (id : ObjectId) (body : ServiceBody.t)
| DeleteService (id : ObjectId).

(** The server after a request. *)
Definition handle `{H : Runtime} (env : Env) (req : Request) (sv : Server) : Server :=
  match req with
  | PostBooking body => (createBooking env body sv).1
  | PatchStatus id st => (updateStatus env id st sv).1
  | PatchCancel id => (cancelBooking env id sv).1
  | PutService id body => (updateService env id body sv).1
  | DeleteService id => (deleteService env id sv).1
  end.

(** The server after a sequence of requests, each with its environment. *)
Definition run `{H : Runtime} (trace : list (Env * Request)) (sv : Server) : Server :=
  foldl (λ sv step, handle step.1 step.2 sv) sv trace.

(** The bookings collection holds the totals that were snapshotted. *)
Definition totals_are_snapshots (sv : Server) : Prop :=
  ∀ id b, bookings sv !! id = Some b →
          Booking.totalAmount b = Booking.servicePrice b.

(** ** Week days and clock times, as the specification words them *)

(** The week day of the calendar date of a time value, 0 for Sunday.  A
    date-only string [YYYY-MM-DD] names a day of the calendar, and
    [new Date] reads it as the midnight of that day in UTC. *)
Definition weekday (t : Z) : Z := (t `div` msPerDay + 4) `mod` 7.

Definition twoDigits (n : Z) : string := Str.padStart 2 "0" (toString n).

(** [HH:MM] on a 24-hour clock: two digits for the hour, 00 to 23, and two
    for the minute, 00 to 59. *)
Definition spec_HHMM : list string :=
  h ← seqZ 0 24; m ← seqZ 0 60; [(twoDigits h ++ ":" ++ twoDigits m)%string].

(** An hour below ten written with one digit. *)
Definition spec_HMM : list string :=
  h ← seqZ 0 10; m ← seqZ 0 60; [(toString h ++ ":" ++ twoDigits m)%string].

(** The characters of a class, among the 256 code units. *)
Definition chars (p : ascii → bool) : list ascii :=
  List.filter p (ascii_of_nat <$> seq 0 256).

(** The characters of a one-character pattern. *)
Definition charsOf (r : re) : list ascii :=
  match r with
  | Class p => chars p
  | _ => []
  end.

(** The words of [timePattern], listed class by class. *)
Definition timeWords : list (list ascii) :=
  hh ← (a ← charsOf (OneOf "01"); b ← charsOf (Range "0" "9"); [[a; b]])
       ++ (b ← charsOf (Range "0" "9"); [[b]])
       ++ (b ← charsOf (Range "0" "3"); [["2"%char; b]]);
  c ← charsOf (Range "0" "5");
  d ← charsOf (Range "0" "9");
  [hh ++ [":"%char; c; d]].

(** ** More of the JavaScript runtime *)

Module Js.

(** [String.prototype.split(sep)] for a separator of one character. *)
Fixpoint split (sep : ascii) (s : string) : list string :=
  match s with
  | EmptyString => [EmptyString]
  | String c s' =>
      if Ascii.eqb c sep then EmptyString :: split sep s'
      else match split sep s' with
           | piece :: rest => String c piece :: rest
           | [] => [String c EmptyString]
           end
  end.

(** [Array.prototype.join(sep)] on an array of strings. *)
Definition join (sep : string) (l : list string) : string := String.concat sep l.

(** The value of a character as a digit in a radix, if it is one. *)
Definition digitValue (radix : Z) (c : ascii) : option Z :=
  let n := Z.of_nat (nat_of_ascii c) in
  let v := if (48 <=? n) && (n <=? 57) then Some (n - 48)
           else if (97 <=? n) && (n <=? 122) then Some (n - 87)
           else if (65 <=? n) && (n <=? 90) then Some (n - 55)
           else None in
  match v with
  | Some d => if d <? radix then Some d else None
  | None => None
  end.

(** The longest prefix of digits: their number and the integer they
    write. *)
Fixpoint digitsPrefix (radix : Z) (s : string) (seen : nat) (acc : Z) : nat * Z :=
  match s with
  | String c s' =>
      match digitValue radix c with
      | Some d => digitsPrefix radix s' (S seen) (acc * radix + d)
      | None => (seen, acc)
      end
  | EmptyString => (seen, acc)
  end.

(** A Number that is [NaN] or an integer. *)
Inductive number : Type :=
| NaN
| Int (z : Z).

(** [parseInt(s)] without a radix: leading white space, a sign, [0x] or
    [0X] for radix 16, then the longest prefix of digits; [NaN] without a
    digit.  The answer of JavaScript is the integer rounded to a double:
    [None] stands for an integer above 2^53, where the two differ. *)
Definition parseInt (s : string) : option number :=
  let s := Str.ltrim s in
  let '(sign, s) :=
    match s with
    | String "-" s' => (-1, s')
    | String "+" s' => (1, s')
    | _ => (1, s)
    end in
  let '(radix, s) :=
    match s with
    | String "0" (String "x" s') => (16, s')
    | String "0" (String "X" s') => (16, s')
    | _ => (10, s)
    end in
  match digitsPrefix radix s 0 0 with
  | (O, _) => Some NaN
  | (_, z) => if z <=? 2 ^ 53 then Some (Int (sign * z)) else None
  end.

End Js.

(** The virtual [formattedTime] of [src/models/Booking.js]: the hour of
    [appointmentTime] on a 12-hour clock.  [None] where [parseInt] is. *)
Definition formattedTime (time : string) : option string :=
  let parts := Js.split ":" time in
  let hours := default "" (parts !! 0%nat) in
  let minutes := default "undefined" (parts !! 1%nat) in
  match Js.parseInt hours with
  | None => None
  | Some hour =>
      let ampm :=
        match hour with
        | Js.Int h => if 12 <=? h then "PM" else "AM"
        | Js.NaN => "AM"
        end in
      let displayHour :=
        match hour with
        | Js.Int h => if Z.rem h 12 =? 0 then 12 else Z.rem h 12
        | Js.NaN => 12
        end in
      Some (toString displayHour ++ ":" ++ minutes ++ " " ++ ampm)%string
  end.

(** ** Searching with a pattern

    [String.prototype.match] with a pattern that has groups and no flag:
    the matcher of the language definition, which tries the alternatives in
    order against a continuation, started at each index from the left. *)

Module Search.

Inductive pat : Type :=
| Class (p : ascii → bool)
| Seq (r1 r2 : pat)
| Star (r : pat)
| Group (n : nat) (r : pat).

(** [r+] *)
Definition Plus (r : pat) : pat := Seq r (Star r).

(** The groups that matched, the last one first. *)
Definition captures : Type := list (nat * list ascii).

Fixpoint group (n : nat) (caps : captures) : option (list ascii) :=
  match caps with
  | (m, w) :: caps' => if (m =? n)%nat then Some w else group n caps'
  | [] => None
  end.

(** A greedy star of a matcher [m] before [k]: one more [m] when the rest
    then matches, else [k]; an iteration that takes no character is
    refused.  [fuel] is the length of the input. *)
Fixpoint star {R : Type}
    (m : list ascii → captures → (list ascii → captures → option R) → option R)
    (k : list ascii → captures → option R)
    (fuel : nat) (s : list ascii) (caps : captures) : option R :=
  match fuel with
  | O => k s caps
  | S fuel' =>
      match m s caps
              (λ s' caps',
                 if (length s' <? length s)%nat then star m k fuel' s' caps'
                 else None) with
      | Some result => Some result
      | None => k s caps
      end
  end.

(** The matcher of [r] on the input [s], with what is to match after it. *)
Fixpoint bt {R : Type} (r : pat) (s : list ascii) (caps : captures)
    (k : list ascii → captures → option R) : option R :=
  match r with
  | Class p =>
      match s with
      | c :: s' => if p c then k s' caps else None
      | [] => None
      end
  | Seq r1 r2 => bt r1 s caps (λ s' caps', bt r2 s' caps' k)
  | Star r1 => star (bt r1) k (length s) s caps
  | Group n r1 =>
      bt r1 s caps
         (λ s' caps', k s' ((n, take (length s - length s') s) :: caps'))
  end.

(** The first match from the left, if there is one: the groups. *)
Fixpoint search (r : pat) (s : list ascii) : option captures :=
  match bt r s [] (λ _ caps, Some caps) with
  | Some caps => Some caps
  | None =>
      match s with
      | _ :: s' => search r s'
      | [] => None
      end
  end.

End Search.

(** The pattern of the virtual [durationMinutes]: [/(\d+)\s*min/]. *)
Definition isDigit (c : ascii) : bool :=
  (nat_of_ascii "0" <=? nat_of_ascii c)%nat && (nat_of_ascii c <=? nat_of_ascii "9")%nat.

Definition durationPattern : Search.pat :=
  Search.Seq (Search.Group 1 (Search.Plus (Search.Class isDigit)))
    (Search.Seq (Search.Star (Search.Class Str.is_white))
       (Search.Seq (Search.Class (Ascii.eqb "m"))
          (Search.Seq (Search.Class (Ascii.eqb "i")) (Search.Class (Ascii.eqb "n"))))).

(** The virtual [durationMinutes] of [src/models/Service.js]:
    [match ? parseInt(match[1]) : 0].  [None] where [parseInt] is. *)
Definition durationMinutes (duration : string) : option Js.number :=
  match Search.search durationPattern (list_ascii_of_string duration) with
  | Some caps =>
      Js.parseInt (string_of_list_ascii (default [] (Search.group 1 caps)))
  | None => Some (Js.Int 0)
  end.

(** ** Reading a booking: [router.get('/:id')] *)

(** What [populate('service', fields)] puts in the place of the service id:
    the selected fields of the service, [None] for [null] when the service
    is gone.  [icon] is selected by some routes only. *)
Module Populated.
Record t : Type := mk {
  name : string;
  price : Q;
  duration : string;
  category : string;
  icon : option string
}.
End Populated.

Definition populate (withIcon : bool) (sv : Server) (b : Booking.t)
  : option Populated.t :=
  (λ service,
     Populated.mk (Service.name service) (Service.price service)
                  (Service.duration service) (Service.category service)
                  (if withIcon then Some (Service.icon service) else None))
  <$> services sv !! Booking.service b.

Definition getBooking (id : ObjectId) (sv : Server)
  : Server * Reply (Booking.t * option Populated.t) :=
  match findById id (bookings sv) with
  | None => (sv, Fail (NotFound "Booking not found"))
  | Some booking => (sv, Ok (booking, populate true sv booking))
  end.

(** ** The other service routes *)

(** [router.post('/')] of the services: [new Service(req.body).save()], for
    a body that carries every field.  Every duplicate key error of the store
    (code 11000) is answered as a name that exists. *)
Definition createService (env : Env) (body : ServiceBody.t) (sv : Server)
  : Server * Reply (ObjectId * Service.t) :=
  if negb (validateService body) then (sv, Fail ValidationError)
  else
    let body := sanitizeService body in
    let service := Service.ofBody (now env) (now env) body in
    if Service.validate service && writeOk env then
      match services sv !! newId env with
      | Some _ =>
          (log "Error creating service:" sv,
           Fail (BadRequest "Service name already exists"))
      | None =>
          if nameTaken (newId env) (Service.name service) (services sv) then
            (log "Error creating service:" sv,
             Fail (BadRequest "Service name already exists"))
          else
            (with_services (<[newId env := service]> (services sv)) sv,
             Ok (newId env, service))
      end
    else
      (log "Error creating service:" sv,
       Fail (PersistenceError "Failed to create service")).

(** [router.patch('/:id/toggle-availability')] *)
Definition toggleAvailability (env : Env) (id : ObjectId) (sv : Server)
  : Server * Reply Service.t :=
  match services sv !! id with
  | None => (sv, Fail (NotFound "Service not found"))
  | Some service =>
      let service :=
        Service.set_available (negb (Service.available service)) service in
      match saveService env id service (services sv) with
      | Some (m, service) => (with_services m sv, Ok service)
      | None =>
          (log "Error toggling service availability:" sv,
           Fail (PersistenceError "Failed to toggle service availability"))
      end
  end.

(** [router.patch('/:id/toggle-popularity')] *)
Definition togglePopularity (env : Env) (id : ObjectId) (sv : Server)
  : Server * Reply Service.t :=
  match services sv !! id with
  | None => (sv, Fail (NotFound "Service not found"))
  | Some service =>
      let service :=
        Service.set_popular (negb (Service.popular service)) service in
      match saveService env id service (services sv) with
      | Some (m, service) => (with_services m sv, Ok service)
      | None =>
          (log "Error toggling service popularity:" sv,
           Fail (PersistenceError "Failed to toggle service popularity"))
      end
  end.

(** ** Sorted queries *)

(** The [sort] of a query: some arrangement of the documents in the order
    asked for.  Which of two documents with equal keys comes first is up to
    the store. *)
Class Sorter := {
  sortBy : ∀ {A : Type}, (A → A → bool) → list A → list A;
  sortBy_Permutation :
    ∀ (A : Type) (leb : A → A → bool) (l : list A), sortBy leb l ≡ₚ l;
  sortBy_Sorted :
    ∀ (A : Type) (leb : A → A → bool) (l : list A),
      (∀ x y, leb x y = true ∨ leb y x = true) →
      Sorted (λ x y, leb x y = true) (sortBy leb l)
}.

(** [d.setDate(d.getDate() + n)] on the time value of [d], in local time. *)
Class Calendar := {
  addDays : Z → Z → Z
}.

(** [{ popular: -1, name: 1 }]: popular services first, then by name. *)
Definition popularThenName (s1 s2 : ObjectId * Service.t) : bool :=
  (Service.popular s1.2 && negb (Service.popular s2.2))
  || (Bool.eqb (Service.popular s1.2) (Service.popular s2.2)
      && String.leb (Service.name s1.2) (Service.name s2.2)).

(** The static [getByCategory] of [src/models/Service.js]. *)
Definition getByCategory `{Sorter} (category : string)
    (m : gmap ObjectId Service.t) : list (ObjectId * Service.t) :=
  sortBy popularThenName
    (List.filter (λ kv, String.eqb (Service.category kv.2) category
                        && Service.available kv.2)
                 (map_to_list m)).

(** [{ appointmentDate: 1, appointmentTime: 1 }] *)
Definition dateThenTime (b1 b2 : ObjectId * Booking.t) : bool :=
  (Booking.appointmentDate b1.2 <? Booking.appointmentDate b2.2)
  || ((Booking.appointmentDate b1.2 =? Booking.appointmentDate b2.2)
      && String.leb (Booking.appointmentTime b1.2) (Booking.appointmentTime b2.2)).

(** ** Listing bookings: [router.get('/')] *)

(** The query string, with [page] and [limit] positive integers when they
    are given. *)
Module ListQuery.
Record t : Type := mk {
  page : option positive;
  limit : option positive;
  status : option string;
  date : option string
}.
End ListQuery.

Module Listing.
Record t : Type := mk {
  bookings : list (ObjectId * Booking.t * option Populated.t);
  totalPages : Z;
  currentPage : positive;
  total : Z
}.
End Listing.

(** The filter the route builds: a status when one is given and not empty,
    a day from [startDate] to before [endDate] when a date is. *)
Definition listFilter (status : option string) (day : option (Z * Z))
    (b : Booking.t) : bool :=
  match status with
  | Some st => if String.eqb st "" then true else String.eqb (Booking.status b) st
  | None => true
  end
  && match day with
     | Some (startDate, endDate) =>
         (startDate <=? Booking.appointmentDate b)
         && (Booking.appointmentDate b <? endDate)
     | None => true
     end.

(** [Math.ceil(a / b)] for a positive [b]. *)
Definition ceilDiv (a b : Z) : Z := (a + b - 1) `div` b.

Definition listBookings `{Runtime} `{Calendar} `{Sorter} (q : ListQuery.t)
    (sv : Server) : Server * Reply Listing.t :=
  let page := default 1%positive (ListQuery.page q) in
  let limit := default 10%positive (ListQuery.limit q) in
  let day :=
    match ListQuery.date q with
    | Some date =>
        if String.eqb date "" then Some None
        else match newDate date with
             | Some startDate => Some (Some (startDate, addDays startDate 1))
             | None => None
             end
    | None => Some None
    end in
  match day with
  | None =>
      (log "Error fetching bookings:" sv,
       Fail (PersistenceError "Failed to fetch bookings"))
  | Some day =>
      let filter := listFilter (ListQuery.status q) day in
      let found := sortBy dateThenTime (find filter (bookings sv)) in
      let shown :=
        take (Pos.to_nat limit) (drop ((Pos.to_nat page - 1) * Pos.to_nat limit) found) in
      let total := Z.of_nat (length (find filter (bookings sv))) in
      (sv, Ok (Listing.mk ((λ kv, (kv, populate false sv kv.2)) <$> shown)
                          (ceilDiv total (Z.pos limit))
                          page
                          total))
  end.

(** ** The gate of the admin routes *)

Inductive Gate : Type :=
| Next
| Deny (code : Z) (error : string).

Section Admin.

(** [jwt.verify(token, secret)]: [None] for an error, else the [role] of
    the payload, when it has one. *)
Variable verify : string → option (option string).

(** [authenticateToken]: the payload for [req.user], or the answer. *)
Definition authenticateToken (authorization : option string)
  : Gate + option string :=
  let token :=
    match authorization with
    | Some authHeader =>
        if String.eqb authHeader "" then None
        else Js.split " " authHeader !! 1%nat
    | None => None
    end in
  match token with
  | None => inl (Deny 401 "Access token required")
  | Some token =>
      if String.eqb token "" then inl (Deny 401 "Access token required")
      else match verify token with
           | None => inl (Deny 403 "Invalid or expired token")
           | Some role => inr role
           end
  end.

(** [requireAdmin] *)
Definition requireAdmin (role : option string) : Gate :=
  match role with
  | Some role => if String.eqb role "admin" then Next
                 else Deny 403 "Admin access required"
  | None => Deny 403 "Admin access required"
  end.

(** [router.use(authenticateToken, requireAdmin)] *)
Definition adminGate (authorization : option string) : Gate :=
  match authenticateToken authorization with
  | inl answer => answer
  | inr role => requireAdmin role
  end.

End Admin.

(** ** The export of the admin routes: [router.get('/export/bookings')] *)

(** How values are written when an array is joined: an [ObjectId], a
    Number and a [Date]. *)
Class Show := {
  showId : ObjectId → string;
  showNumber : Q → string;
  showDate : Z → string
}.

Definition csvHeader : string :=
  Js.join "," ["Booking ID"; "Client Name"; "Client Email"; "Client Phone";
               "Service"; "Price"; "Date"; "Time"; "Status"; "Created At"].

(** [Object.values(row)] *)
Definition csvValues `{Show} (row : ObjectId * Booking.t) : list string :=
  [showId row.1;
   Booking.clientName row.2;
   Booking.clientEmail row.2;
   Booking.clientPhone row.2;
   Booking.serviceName row.2;
   showNumber (Booking.servicePrice row.2);
   showDate (Booking.appointmentDate row.2);
   Booking.appointmentTime row.2;
   Booking.status row.2;
   showDate (Booking.createdAt row.2)].

Definition newline : string := String (ascii_of_nat 10) EmptyString.

(** The CSV text of the bookings found; [None] when [Object.keys(csvData[0])]
    throws, which is when there is none. *)
Definition csvString `{Show} (found : list (ObjectId * Booking.t)) : option string :=
  match found with
  | [] => None
  | _ =>
      Some (Js.join newline
              (csvHeader :: ((λ row, Js.join "," (csvValues row)) <$> found)))
  end.

(** [{ createdAt: -1 }] *)
Definition newestFirst (b1 b2 : ObjectId * Booking.t) : bool :=
  Booking.createdAt b2.2 <=? Booking.createdAt b1.2.

Inductive Export : Type :=
| Csv (text : string)
| Json (bookings : list (ObjectId * Booking.t * option Populated.t))
       (exportDate : Z) (totalBookings : Z).

(** The route, for the query [format], [startDate] and [endDate]; the
    period applies when both dates are given and not empty. *)
Definition exportBookings `{Runtime} `{Sorter} `{Show} (env : Env)
    (format startDate endDate : option string) (sv : Server)
  : Server * Reply Export :=
  let failed :=
    (log "Error exporting bookings:" sv,
     Fail (PersistenceError "Failed to export bookings")) in
  let given (o : option string) : bool :=
    match o with
    | Some v => negb (String.eqb v "")
    | None => false
    end in
  let period :=
    if given startDate && given endDate then
      match newDate (default "" startDate), newDate (default "" endDate) with
      | Some lo, Some hi => Some (Some (lo, hi))
      | _, _ => None
      end
    else Some None in
  match period with
  | None => failed
  | Some period =>
      let filter (b : Booking.t) : bool :=
        match period with
        | Some (lo, hi) =>
            (lo <=? Booking.createdAt b) && (Booking.createdAt b <=? hi)
        | None => true
        end in
      let found := sortBy newestFirst (find filter (bookings sv)) in
      if match format with Some f => String.eqb f "csv" | None => false end then
        match csvString found with
        | Some text => (sv, Ok (Csv text))
        | None => failed
        end
      else
        (sv, Ok (Json ((λ kv, (kv, populate false sv kv.2)) <$> found)
                      (now env) (Z.of_nat (length found))))
  end.

(** ** The counts of the static [getStats] *)

(** A [$match] followed by [$count], read with [[0]?.count || 0]. *)
Definition countWhere (q : Booking.t → bool) (m : gmap ObjectId Booking.t) : Z :=
  Z.of_nat (length (find q m)).

(** The four counts of [getStats] in [src/models/Booking.js]: [total],
    [pending], [confirmed] and [completed].  Its fifth field,
    [todayRevenue], is a sum of doubles and is not part of this model. *)
Module Stats.
Record t : Type := mk {
  total : Z;
  pending : Z;
  confirmed : Z;
  completed : Z
}.
End Stats.

Definition hasStatus (st : string) (b : Booking.t) : bool :=
  String.eqb (Booking.status b) st.

Definition getStats (m : gmap ObjectId Booking.t) : Stats.t :=
  Stats.mk (countWhere (λ _, true) m)
           (countWhere (hasStatus "pending") m)
           (countWhere (hasStatus "confirmed") m)
           (countWhere (hasStatus "completed") m).

(** ** Invariants of the store *)

(** Every status is one of the four of the schema. *)
Definition statuses_are_valid (sv : Server) : Prop :=
  ∀ id b, bookings sv !! id = Some b → Booking.status b ∈ validStatuses.

(** No two services have the same name. *)
Definition names_are_unique (sv : Server) : Prop :=
  ∀ id1 id2 s1 s2,
    services sv !! id1 = Some s1 → services sv !! id2 = Some s2 →
    Service.name s1 = Service.name s2 → id1 = id2.

(** What the routes leave of a booking [b] in [b']: everything but its
    status and the date of its last update, and a total that is the one it
    had or the snapshotted price, to which the [pre('save')] hook sets it. *)
Definition same_appointment (b b' : Booking.t) : Prop :=
  Booking.clientName b' = Booking.clientName b
  ∧ Booking.clientEmail b' = Booking.clientEmail b
  ∧ Booking.clientPhone b' = Booking.clientPhone b
  ∧ Booking.service b' = Booking.service b
  ∧ Booking.serviceName b' = Booking.serviceName b
  ∧ Booking.servicePrice b' = Booking.servicePrice b
  ∧ Booking.serviceDuration b' = Booking.serviceDuration b
  ∧ Booking.serviceCategory b' = Booking.serviceCategory b
  ∧ Booking.appointmentDate b' = Booking.appointmentDate b
  ∧ Booking.appointmentTime b' = Booking.appointmentTime b
  ∧ Booking.notes b' = Booking.notes b
  ∧ Booking.paymentStatus b' = Booking.paymentStatus b
  ∧ Booking.createdAt b' = Booking.createdAt b
  ∧ (Booking.totalAmount b' = Booking.totalAmount b
     ∨ Booking.totalAmount b' = Booking.servicePrice b).

(** The hour of the day on a 12-hour clock, and its half of the day. *)
Definition clock12 (h m : Z) : string :=
  let hour := if h `mod` 12 =? 0 then 12 else h `mod` 12 in
  let half := if h <? 12 then "AM" else "PM" in
  (toString hour ++ ":" ++ twoDigits m ++ " " ++ half)%string.

(** The time HH:MM that the text of a 12-hour clock stands for. *)
Definition clock24 (text : string) : string :=
  match Js.split " " text with
  | [clock; half] =>
      match Js.split ":" clock with
      | [hours; minutes] =>
          match Js.parseInt hours with
          | Some (Js.Int h) =>
              let hour := h `mod` 12 + (if String.eqb half "PM" then 12 else 0) in
              (twoDigits hour ++ ":" ++ minutes)%string
          | _ => ""
          end
      | _ => ""
      end
  | _ => ""
  end.

(** The number of times a character occurs in a string. *)
Fixpoint countChar (c : ascii) (s : string) : nat :=
  match s with
  | String c' s' => (if Ascii.eqb c' c then 1 else 0) + countChar c s'
  | EmptyString => 0
  end.

(** ** A salon for the examples *)

(** Server time is UTC; the library functions are tabulated on the strings
    the examples use, with the values the libraries give there. *)
Definition utc : Runtime := {|
  isEmail := String.eqb "ana@example.com";
  normalizeEmail := id;
  isISO8601 := λ s, Str.includes ["2020-01-06"; "2030-01-06"; "2030-01-07"] s;
  newDate := λ s,
    if String.eqb s "2020-01-06" then Some 1578268800000
    else if String.eqb s "2030-01-06" then Some 1893888000000
    else if String.eqb s "2030-01-07" then Some 1893974400000
    else None;
  LocalTZA := λ _, 0;
  toLowerCase := id
|}.

(** The same tables on a server five hours behind UTC. *)
Definition fiveHoursBehind : Runtime := {|
  isEmail := isEmail (Runtime := utc);
  normalizeEmail := normalizeEmail (Runtime := utc);
  isISO8601 := isISO8601 (Runtime := utc);
  newDate := newDate (Runtime := utc);
  LocalTZA := λ _, -18000000;
  toLowerCase := toLowerCase (Runtime := utc)
|}.

Definition haircut : Service.t :=
  Service.mk "Haircut" "A classic cut and finish" 50 "45 min" "Hair" "scissors"
             true true 1700000000000 1700000000000.

(** One service, no booking. *)
Definition salon : Server := mkServer ∅ {[ 1%N := haircut ]} [].

(** A day in 2027; the store writes and answers, the mail transport
    fails. *)
Definition today (id : ObjectId) : Env := mkEnv 1800000000000 id true true false.

(** A day in March 2030, and a day on which the store does not answer the
    [populate]. *)
Definition later (id : ObjectId) : Env := mkEnv 1900000000000 id true true false.
Definition unanswered (id : ObjectId) : Env :=
  mkEnv 1800000000000 id true false false.

Definition ask (date time : string) : Body.t :=
  Body.mk "Ana Lima" "ana@example.com" "5550100200" 1%N date time None.

(** What [createBooking] stores for [ask date time]. *)
Definition asked (date : Z) (time status : string) : Booking.t :=
  Booking.mk "Ana Lima" "ana@example.com" "5550100200" 1%N
             "Haircut" 50 "45 min" "Hair" date time "No special requests"
             status 50 "pending" 1800000000000 1800000000000.

(** The time values of Sunday 6 and Monday 7 January 2030, 00:00 UTC. *)
Definition sunday : Z := 1893888000000.
Definition monday : Z := 1893974400000.

(** The salon with one booking, under [_id] 7. *)
Definition bookedAt (date : Z) (time status : string) : Server :=
  mkServer {[ 7%N := asked date time status ]} {[ 1%N := haircut ]} [].

(** A store that sorts by merging. *)
Definition mergeSortBy {A : Type} (leb : A → A → bool) (l : list A) : list A :=
  merge_sort (λ x y, leb x y = true) (H := λ x y, decide (leb x y = true)) l.

(** Days in UTC. *)
Definition utcCalendar : Calendar := {| addDays := λ t n, t + n * msPerDay |}.

(** Stand-ins for the way JavaScript writes ids, numbers and dates. *)
Definition plainShow : Show := {|
  showId := λ id, pretty id;
  showNumber := λ x, pretty (Qnum x);
  showDate := λ t, pretty t
|}.

(** The salon after Ana's request for a date and a time. *)
Definition afterAsk (date time : string) : Server :=
  (createBooking (H:=utc) (today 7%N) (ask date time) salon).1.

(** Three bookings: a cancelled one on Sunday noon, and two on Monday. *)
Definition threeBooked : Server :=
  mkServer {[ 7%N := asked monday "10:00" "pending";
              8%N := asked monday "09:00" "confirmed";
              9%N := asked sunday "12:00" "cancelled" ]}
           {[ 1%N := haircut ]} [].

(** A verification that knows two tokens. *)
Definition verifyExample (token : string) : option (option string) :=
  if String.eqb token "good" then Some (Some "admin")
  else if String.eqb token "user" then Some (Some "client")
  else None.

(** A catalogue with a service that is not available. *)
Definition catalogue : gmap ObjectId Service.t :=
  {[ 1%N := haircut;
     2%N := Service.mk "Blow dry" "Wash and blow dry" 35 "30 min" "Hair" "wind"
                       false true 1700000000000 1700000000000;
     3%N := Service.mk "Perm" "A lasting wave" 90 "120 min" "Hair" "wave"
                       true false 1700000000000 1700000000000 ]}.

(** * Properties *)

(** A decidable closed fact, by evaluation of its decision procedure. *)
Ltac by_evaluation := apply (bool_decide_unpack _); by vm_compute.

(** ** Strings *)

Lemma includes_spec l s : Str.includes l s = true ↔ s ∈ l.
Proof.
  unfold Str.includes. rewrite existsb_exists. split.
  - intros (x & Hin & Heq). apply String.eqb_eq in Heq. subst x.
    by apply list_elem_of_In.
  - intros Hin. exists s. split; [by apply list_elem_of_In | apply String.eqb_refl].
Qed.

Lemma includes_false l s : Str.includes l s = false ↔ s ∉ l.
Proof.
  rewrite <- includes_spec. destruct (Str.includes l s); split; intros H; congruence.
Qed.

(** ** The matcher decides membership *)

Lemma lang_cat_inv r1 r2 s :
  lang (Cat r1 r2) s ↔ ∃ s1 s2, s = s1 ++ s2 ∧ lang r1 s1 ∧ lang r2 s2.
Proof.
  split.
  - inversion 1; subst; eauto.
  - intros (s1 & s2 & -> & H1 & H2). by constructor.
Qed.

Lemma lang_alt_inv r1 r2 s : lang (Alt r1 r2) s ↔ lang r1 s ∨ lang r2 s.
Proof.
  split.
  - inversion 1; subst; auto.
  - intros [H|H]; [by apply lang_alt_l | by apply lang_alt_r].
Qed.

Lemma lang_class_inv p s : lang (Class p) s ↔ ∃ c, s = [c] ∧ p c = true.
Proof.
  split.
  - inversion 1; subst; eauto.
  - intros (c & -> & Hp). by constructor.
Qed.

Lemma lang_eps_inv s : lang Eps s ↔ s = [].
Proof.
  split.
  - by inversion 1.
  - intros ->. constructor.
Qed.

Lemma lang_void_inv s : ¬ lang Void s.
Proof. inversion 1. Qed.

Lemma nullable_lang r : nullable r = true ↔ lang r [].
Proof.
  induction r as [| |p|r1 IH1 r2 IH2|r1 IH1 r2 IH2|r IH]; simpl.
  - split; [done | intros H; by apply lang_void_inv in H].
  - by rewrite lang_eps_inv.
  - rewrite lang_class_inv. split; [done | by intros (c & ? & _)].
  - rewrite andb_true_iff, IH1, IH2, lang_cat_inv. split.
    + intros [H1 H2]. by exists [], [].
    + intros (s1 & s2 & Heq & H1 & H2). symmetry in Heq.
      apply app_eq_nil in Heq as [-> ->]. done.
  - by rewrite orb_true_iff, IH1, IH2, lang_alt_inv.
  - split; [constructor | done].
Qed.

Lemma lang_star_cons r c s :
  lang (Star r) (c :: s) →
  ∃ s1 s2, s = s1 ++ s2 ∧ lang r (c :: s1) ∧ lang (Star r) s2.
Proof.
  intros H. remember (Star r) as r' eqn:Hr. remember (c :: s) as w eqn:Hw.
  revert c s Hw. induction H as [| | | | | |r0 s1 s2 H1 _ H2 IH2];
    intros c0 s0 Hw; try discriminate.
  injection Hr as ->. destruct s1 as [|c1 s1]; simpl in Hw.
  - by apply IH2.
  - injection Hw as ? ?. subst. by exists s1, s2.
Qed.

(** A word of [r1 r2] that starts with [c] either takes [c] from [r1], or
    [r1] is nullable and the word is one of [r2]. *)
Lemma lang_cat_cons r1 r2 c s :
  lang (Cat r1 r2) (c :: s) ↔
    (∃ s1 s2, s = s1 ++ s2 ∧ lang r1 (c :: s1) ∧ lang r2 s2)
    ∨ (lang r1 [] ∧ lang r2 (c :: s)).
Proof.
  rewrite lang_cat_inv. split.
  - intros (s1 & s2 & Heq & H1 & H2). destruct s1 as [|c1 s1]; simpl in Heq.
    + subst s2. by right.
    + injection Heq as -> ->. left. by exists s1, s2.
  - intros [(s1 & s2 & -> & H1 & H2)|[H1 H2]].
    + by exists (c :: s1), s2.
    + by exists [], (c :: s).
Qed.

Lemma deriv_lang c r s : lang (deriv c r) s ↔ lang r (c :: s).
Proof.
  revert s. induction r as [| |p|r1 IH1 r2 IH2|r1 IH1 r2 IH2|r IH];
    intros s; simpl.
  - split; intros H; by apply lang_void_inv in H.
  - rewrite lang_eps_inv. split; intros H; [by apply lang_void_inv in H | done].
  - rewrite lang_class_inv. destruct (p c) eqn:Hp.
    + rewrite lang_eps_inv. split.
      * intros ->. by exists c.
      * by intros (c' & [= -> ->] & _).
    + split; [intros H; by apply lang_void_inv in H |].
      intros (c' & [= -> ->] & Hp'). congruence.
  - assert (Hcat : lang (Cat (deriv c r1) r2) s ↔
                   ∃ s1 s2, s = s1 ++ s2 ∧ lang r1 (c :: s1) ∧ lang r2 s2).
    { rewrite lang_cat_inv. by setoid_rewrite IH1. }
    rewrite lang_cat_cons. destruct (nullable r1) eqn:Hn.
    + apply nullable_lang in Hn.
      rewrite lang_alt_inv, Hcat, IH2. tauto.
    + rewrite Hcat. split; [by left|]. intros [H|[H _]]; [done|].
      apply nullable_lang in H. congruence.
  - by rewrite !lang_alt_inv, IH1, IH2.
  - rewrite lang_cat_inv. setoid_rewrite IH. split.
    + intros (s1 & s2 & -> & H1 & H2).
      change (c :: s1 ++ s2) with ((c :: s1) ++ s2). by constructor.
    + apply lang_star_cons.
Qed.

(** The matcher decides membership. *)
Lemma matches_lang r s : matches r s = true ↔ lang r s.
Proof.
  revert r. induction s as [|c s IH]; intros r; simpl.
  - apply nullable_lang.
  - rewrite IH. apply deriv_lang.
Qed.

(** ** Queries *)

Lemma elem_of_find q (m : gmap ObjectId Booking.t) id b :
  (id, b) ∈ find q m ↔ m !! id = Some b ∧ q b = true.
Proof.
  unfold find. rewrite list_elem_of_In, filter_In, <- list_elem_of_In.
  by rewrite elem_of_map_to_list.
Qed.

Lemma findOne_None q (m : gmap ObjectId Booking.t) :
  findOne q m = None ↔ ∀ id b, m !! id = Some b → q b = false.
Proof.
  unfold findOne. rewrite head_None. split.
  - intros Hnil id b Hb. destruct (q b) eqn:Hq; [|done].
    assert (Hin : (id, b) ∈ find q m) by by apply elem_of_find.
    rewrite Hnil in Hin. by apply not_elem_of_nil in Hin.
  - intros Hall. destruct (find q m) as [|[id b] l] eqn:Hf; [done|].
    assert (Hin : (id, b) ∈ find q m) by (rewrite Hf; left).
    apply elem_of_find in Hin as [Hb Hq]. rewrite (Hall _ _ Hb) in Hq. done.
Qed.

Lemma findOne_is_Some q (m : gmap ObjectId Booking.t) id b :
  m !! id = Some b → q b = true → is_Some (findOne q m).
Proof.
  intros Hb Hq. destruct (findOne q m) eqn:Hf; [by eexists|].
  rewrite findOne_None in Hf. rewrite (Hf _ _ Hb) in Hq. done.
Qed.

(** The times that the availability route collects. *)
Lemma elem_of_bookedTimes date (m : gmap ObjectId Booking.t) time :
  time ∈ (λ slot : ObjectId * Booking.t, Booking.appointmentTime slot.2)
           <$> find (bookedOn date) m
  ↔ ∃ id b, m !! id = Some b ∧ bookedOn date b = true
            ∧ Booking.appointmentTime b = time.
Proof.
  rewrite list_elem_of_fmap. split.
  - intros ([id b] & -> & Hin). apply elem_of_find in Hin as [Hb Hq].
    by exists id, b.
  - intros (id & b & Hb & Hq & <-). exists (id, b). split; [done|].
    by apply elem_of_find.
Qed.

(** ** The slot grid *)

Lemma slotGrid_eq :
  slotGrid = ["09:00"; "09:30"; "10:00"; "10:30"; "11:00"; "11:30";
              "12:00"; "12:30"; "13:00"; "13:30"; "14:00"; "14:30";
              "15:00"; "15:30"; "16:00"; "16:30"; "17:00"; "17:30"].
Proof. reflexivity. Qed.

(** A loop that pushes the images that pass a test is a filter. *)
Lemma foldl_push {A B} (f : A → B) (p : B → bool) (l : list A) (acc : list B) :
  foldl (λ acc x, if p (f x) then acc ++ [f x] else acc) acc l
  = acc ++ List.filter p (f <$> l).
Proof.
  revert acc. induction l as [|x l IH]; intros acc; simpl.
  - by rewrite app_nil_r.
  - rewrite IH. destruct (p (f x)); [by rewrite <- app_assoc | done].
Qed.

Lemma foldl_push_nested {A B C} (f : A → B → C) (p : C → bool)
    (xs : list A) (ys : list B) (acc : list C) :
  foldl (λ acc x,
           foldl (λ acc y, if p (f x y) then acc ++ [f x y] else acc)
                 acc ys) acc xs
  = acc ++ List.filter p (x ← xs; y ← ys; [f x y]).
Proof.
  revert acc. induction xs as [|x xs IH]; intros acc; simpl.
  - by rewrite app_nil_r.
  - assert (Hys : f x <$> ys = ys ≫= λ y, [f x y]).
    { clear. induction ys as [|y ys IHy]; csimpl; [done | by f_equal]. }
    by rewrite IH, (foldl_push (f x) p ys acc), Hys, List.filter_app, <- app_assoc.
Qed.

(** The route returns the grid without the booked times, in grid order. *)
Lemma freeSlots_filter bookedTimes :
  freeSlots bookedTimes
  = List.filter (λ time, negb (Str.includes bookedTimes time)) slotGrid.
Proof.
  unfold freeSlots, slotGrid.
  apply (foldl_push_nested slotLabel (λ time, negb (Str.includes bookedTimes time))).
Qed.

Lemma elem_of_freeSlots bookedTimes time :
  time ∈ freeSlots bookedTimes ↔ time ∈ slotGrid ∧ time ∉ bookedTimes.
Proof.
  rewrite freeSlots_filter, list_elem_of_In, filter_In, <- list_elem_of_In.
  by rewrite negb_true_iff, includes_false.
Qed.

Lemma freeSlots_ext bt1 bt2 :
  (∀ time, time ∈ slotGrid → time ∈ bt1 ↔ time ∈ bt2) →
  freeSlots bt1 = freeSlots bt2.
Proof.
  intros Hext. rewrite !freeSlots_filter. apply filter_ext_in.
  intros time Hin. apply list_elem_of_In in Hin. f_equal.
  apply eq_true_iff_eq. rewrite !includes_spec. by apply Hext.
Qed.

Lemma freeSlots_none bookedTimes :
  (∀ time, time ∈ slotGrid → time ∉ bookedTimes) →
  freeSlots bookedTimes = slotGrid.
Proof.
  intros Hno. rewrite freeSlots_filter. apply forallb_filter_id, forallb_forall.
  intros time Hin. apply list_elem_of_In in Hin.
  by apply negb_true_iff, includes_false, Hno.
Qed.

(** ** The availability route *)

Section Availability.
Context `{Runtime}.

(** The reply of the route once the service is found, for a date that its
    test for Sunday lets through and for one that it does not. *)
Lemma availableSlots_open sv date d serviceId :
  is_Some (services sv !! serviceId) →
  newDate date = Some d →
  getDay d ≠ 0 →
  availableSlots date (Some serviceId) sv
  = (sv, Ok (freeSlots ((λ slot : ObjectId * Booking.t, Booking.appointmentTime slot.2)
                          <$> find (bookedOn d) (bookings sv)))).
Proof.
  intros [service Hs] Hd Hday. unfold availableSlots. rewrite Hs, Hd.
  apply Z.eqb_neq in Hday. by rewrite Hday.
Qed.

Lemma availableSlots_closed sv date d serviceId :
  is_Some (services sv !! serviceId) →
  newDate date = Some d →
  getDay d = 0 →
  availableSlots date (Some serviceId) sv = (sv, Ok []).
Proof.
  intros [service Hs] Hd Hday. unfold availableSlots. rewrite Hs, Hd.
  apply Z.eqb_eq in Hday. by rewrite Hday.
Qed.

(** The week day [getDay] gives for the midnight in UTC of a day of the
    calendar is the week day of that day where local time is UTC or ahead of
    it by less than a day, and the week day before where local time is
    behind UTC. *)
Lemma getDay_weekday d :
  d `mod` msPerDay = 0 →
  (0 ≤ LocalTZA d < msPerDay → getDay d = weekday d)
  ∧ (- msPerDay ≤ LocalTZA d < 0 → getDay d = (weekday d + 6) `mod` 7).
Proof.
  intros Hd. unfold getDay, weekday, msPerDay in *.
  apply Z.div_exact in Hd; [|lia].
  remember (d `div` 86400000) as k eqn:Hk. clear Hk.
  split; intros Htz.
  - replace ((d + LocalTZA d) `div` 86400000) with k; [done|].
    apply (Z.div_unique _ _ _ (LocalTZA d)); lia.
  - replace ((d + LocalTZA d) `div` 86400000) with (k - 1).
    + rewrite Zplus_mod_idemp_l.
      replace (k + 4 + 6) with (k - 1 + 4 + 1 * 7) by lia.
      by rewrite Z_mod_plus_full.
    + apply (Z.div_unique _ _ _ (LocalTZA d + 86400000)); lia.
Qed.

(** On a server whose local time is UTC or ahead of it by less than a day,
    the route answers a Sunday of the calendar with the empty list of slots,
    whatever the bookings collection holds. *)
Lemma sunday_has_no_slots sv date d serviceId :
  is_Some (services sv !! serviceId) →
  newDate date = Some d →
  d `mod` msPerDay = 0 →
  0 ≤ LocalTZA d < msPerDay →
  weekday d = 0 →
  availableSlots date (Some serviceId) sv = (sv, Ok []).
Proof.
  intros Hs Hd Hmid Htz Hday. apply (availableSlots_closed sv date d); [done..|].
  by rewrite (proj1 (getDay_weekday d Hmid) Htz).
Qed.

(** On a date that the route does not take for a Sunday, and on such a
    server on every day of the calendar but Sunday, with no pending or
    confirmed booking on that date, the route answers with the 18 slots
    from 09:00 to 17:30, one every 30 minutes, strictly ascending and
    without duplicates. *)
Lemma open_day_without_bookings sv date d serviceId :
  is_Some (services sv !! serviceId) →
  newDate date = Some d →
  getDay d ≠ 0
  ∨ (d `mod` msPerDay = 0 ∧ 0 ≤ LocalTZA d < msPerDay ∧ weekday d ≠ 0) →
  (∀ id b, bookings sv !! id = Some b → Booking.appointmentDate b = d →
           Booking.active b = false) →
  ∃ slots,
    availableSlots date (Some serviceId) sv = (sv, Ok slots)
    ∧ slots = ["09:00"; "09:30"; "10:00"; "10:30"; "11:00"; "11:30";
               "12:00"; "12:30"; "13:00"; "13:30"; "14:00"; "14:30";
               "15:00"; "15:30"; "16:00"; "16:30"; "17:00"; "17:30"]
    ∧ length slots = 18%nat
    ∧ (∀ k : nat, (k < 18)%nat →
         slots !! k = Some (slotLabel ((540 + 30 * Z.of_nat k) `div` 60)
                                      ((540 + 30 * Z.of_nat k) `mod` 60)))
    ∧ StronglySorted (λ s t, String.ltb s t = true) slots
    ∧ NoDup slots.
Proof.
  intros Hs Hd Hopen Hnone.
  assert (Hday : getDay d ≠ 0).
  { destruct Hopen as [Hday | (Hmid & Htz & Hday)]; [done|].
    by rewrite (proj1 (getDay_weekday d Hmid) Htz). }
  exists slotGrid. split; [|split; [|split; [|split; [|split]]]].
  - rewrite (availableSlots_open sv date d serviceId Hs Hd Hday). f_equal. f_equal.
    apply freeSlots_none. intros time _ Hin.
    apply elem_of_bookedTimes in Hin as (id & b & Hb & Hq & _).
    unfold bookedOn in Hq. apply andb_true_iff in Hq as [Hdate Hact].
    apply Z.eqb_eq in Hdate. rewrite (Hnone id b Hb Hdate) in Hact. done.
  - apply slotGrid_eq.
  - reflexivity.
  - intros k Hk. do 18 (destruct k as [|k]; [reflexivity|]). lia.
  - by_evaluation.
  - by_evaluation.
Qed.

End Availability.

(** ** The booking routes *)

Section Lifecycle.
Context `{Runtime}.

Lemma validStatuses_spec st :
  Str.includes validStatuses st = true
  ↔ st = "pending" ∨ st = "confirmed" ∨ st = "completed" ∨ st = "cancelled".
Proof.
  rewrite includes_spec. unfold validStatuses.
  rewrite !elem_of_cons, elem_of_nil. tauto.
Qed.

Lemma active_spec b :
  Booking.active b = true
  ↔ Booking.status b = "pending" ∨ Booking.status b = "confirmed".
Proof.
  unfold Booking.active. rewrite includes_spec, !elem_of_cons, elem_of_nil. tauto.
Qed.

(** What a reply with a booking says about the request that made it. *)
Lemma createBooking_Ok env body sv sv' id b :
  createBooking env body sv = (sv', Ok (id, b)) →
  ∃ service date,
    services sv !! Body.service body = Some service
    ∧ newDate (Body.appointmentDate body) = Some date
    ∧ findOne (conflicts date (Str.trim (Body.appointmentTime body))) (bookings sv)
      = None
    ∧ bookings sv !! id = None
    ∧ b = Booking.pre_save (now env)
            (newBooking (now env) (sanitize body) service date)
    ∧ bookings sv' = <[id := b]> (bookings sv)
    ∧ services sv' = services sv.
Proof.
  unfold createBooking, save, sendBookingConfirmation. intros Hc.
  destruct (validateBooking (now env) body); [|done]. simpl in Hc.
  destruct (services sv !! Body.service body) as [service|]; [|done].
  destruct (newDate (Body.appointmentDate body)) as [date|]; [|done].
  destruct (findOne _ _) eqn:Hfree; [done|].
  destruct (Booking.validate _ _); [|done].
  destruct (writeOk env); [|done].
  destruct (bookings sv !! newId env) eqn:Hid; [done|].
  exists service, date.
  destruct (mailOk env), (populateOk env); simpl in Hc; try done;
    injection Hc as <- <- <-; done.
Qed.

(** What a reply with a failure says about the store: nothing was written,
    or the booking was written and the [populate] after it was not
    answered. *)
Lemma createBooking_Fail env body sv sv' e :
  createBooking env body sv = (sv', Fail e) →
  services sv' = services sv
  ∧ (bookings sv' = bookings sv
     ∨ (populateOk env = false
        ∧ e = PersistenceError "Failed to create booking"
        ∧ bookings sv !! newId env = None
        ∧ ∃ service date,
            services sv !! Body.service body = Some service
            ∧ newDate (Body.appointmentDate body) = Some date
            ∧ bookings sv'
              = <[newId env := Booking.pre_save (now env)
                                 (newBooking (now env) (sanitize body) service date)]>
                  (bookings sv))).
Proof.
  unfold createBooking, save, sendBookingConfirmation. intros Hc.
  destruct (validateBooking (now env) body); simpl in Hc;
    [|injection Hc as <- <-; auto].
  destruct (services sv !! Body.service body) as [service|] eqn:Hs;
    [|injection Hc as <- <-; auto].
  destruct (newDate (Body.appointmentDate body)) as [date|] eqn:Hd;
    [|injection Hc as <- <-; auto].
  destruct (findOne _ _); [injection Hc as <- <-; auto|].
  destruct (Booking.validate _ _); [|injection Hc as <- <-; auto].
  destruct (writeOk env); [|injection Hc as <- <-; auto].
  destruct (bookings sv !! newId env) eqn:Hid; [injection Hc as <- <-; auto|].
  destruct (populateOk env) eqn:Hp;
    [by destruct (mailOk env)|].
  split; [by destruct (mailOk env); injection Hc as <- <-|].
  right. do 3 (split; [by destruct (mailOk env); injection Hc as <- <-|]).
  exists service, date. do 2 (split; [done|]).
  by destruct (mailOk env); injection Hc as <- <-.
Qed.

(** The document of a booking that was returned passed the validators of
    the schema. *)
Lemma createBooking_Ok_valid env body sv sv' id b service date :
  createBooking env body sv = (sv', Ok (id, b)) →
  services sv !! Body.service body = Some service →
  newDate (Body.appointmentDate body) = Some date →
  Booking.validate (now env) (newBooking (now env) (sanitize body) service date)
  = true.
Proof.
  unfold createBooking, save. intros Hc Hs Hd.
  destruct (validateBooking (now env) body); [|done]. simpl in Hc.
  rewrite Hs, Hd in Hc.
  destruct (findOne _ _); [done|].
  by destruct (Booking.validate _ _).
Qed.

(** The validators read the clock for the date of the appointment only. *)
Lemma validate_newBooking_clock clock1 clock2 body service date :
  Booking.validate clock1 (newBooking clock1 body service date) = true →
  clock2 < date →
  Booking.validate clock2 (newBooking clock2 body service date) = true.
Proof.
  unfold Booking.validate, newBooking. simpl. rewrite !andb_true_iff.
  intros Hv Hlt. apply Z.ltb_lt in Hlt. tauto.
Qed.

(** A conflict check that finds nothing, a document that passes the
    validators of the schema, a store that writes and a free [_id]: the
    booking is stored, whatever the mail does, and is returned when the
    [populate] that follows is answered. *)
Lemma createBooking_stores env body sv service date :
  validateBooking (now env) body = true →
  services sv !! Body.service body = Some service →
  newDate (Body.appointmentDate body) = Some date →
  (∀ id b, bookings sv !! id = Some b →
           Booking.appointmentDate b = date →
           Booking.appointmentTime b = Str.trim (Body.appointmentTime body) →
           Booking.active b = false) →
  Booking.validate (now env) (newBooking (now env) (sanitize body) service date)
  = true →
  writeOk env = true →
  bookings sv !! newId env = None →
  let b := Booking.pre_save (now env)
             (newBooking (now env) (sanitize body) service date) in
  ∃ sv',
    createBooking env body sv
    = (if populateOk env then (sv', Ok (newId env, b))
       else (log "Error creating booking:" sv',
             Fail (PersistenceError "Failed to create booking")))
    ∧ bookings sv' = <[newId env := b]> (bookings sv)
    ∧ services sv' = services sv
    ∧ (mailOk env = false → "Failed to send confirmation email:" ∈ console sv').
Proof.
  intros Hv Hs Hd Hfree Hvalid Hw Hid. unfold createBooking. rewrite Hv. simpl.
  rewrite Hs, Hd.
  assert (Hnone : findOne (conflicts date (Str.trim (Body.appointmentTime body)))
                          (bookings sv) = None).
  { apply findOne_None. intros id b Hb. unfold conflicts.
    destruct (Booking.appointmentDate b =? date) eqn:E1; [|done].
    destruct (String.eqb _ _) eqn:E2; [|done]. simpl.
    apply Z.eqb_eq in E1. apply String.eqb_eq in E2.
    by apply (Hfree id b Hb). }
  rewrite Hnone. unfold save. rewrite Hvalid, Hw, Hid.
  unfold sendBookingConfirmation.
  destruct (mailOk env) eqn:Hm; eexists; (split; [reflexivity|]); simpl;
    (split; [done|]); (split; [done|]); [done|].
  intros _. unfold log. simpl. rewrite !elem_of_app, !list_elem_of_singleton. auto.
Qed.

(** C1: when the store holds a pending or confirmed booking at a date and
    time, a valid request for a service that exists and for the same date
    and time is answered with Conflict, and the server is left as it was. *)
Theorem occupied_slot_conflicts env body sv id b :
  validateBooking (now env) body = true →
  is_Some (services sv !! Body.service body) →
  bookings sv !! id = Some b →
  Booking.status b = "pending" ∨ Booking.status b = "confirmed" →
  newDate (Body.appointmentDate body) = Some (Booking.appointmentDate b) →
  Booking.appointmentTime b = Str.trim (Body.appointmentTime body) →
  createBooking env body sv = (sv, Fail Conflict).
Proof.
  intros Hv [service Hs] Hb Hact Hd Ht. unfold createBooking.
  rewrite Hv. simpl. rewrite Hs, Hd.
  destruct (findOne_is_Some
              (conflicts (Booking.appointmentDate b) (Str.trim (Body.appointmentTime body)))
              (bookings sv) id b Hb) as [hit Hhit].
  - unfold conflicts. rewrite Z.eqb_refl, Ht, String.eqb_refl. simpl.
    by apply active_spec.
  - by rewrite Hhit.
Qed.

(** C9: for a valid request that passes the conflict check and whose
    booking is written (the document passes the validators of the schema
    and the store carries out the write), a mail transport that fails does
    not fail the request: the booking is stored, the failure is on the
    console, and the reply is the booking; the one reply that is not is the
    500 of a [populate] that the store does not answer afterwards. *)
Theorem mail_failure_is_absorbed env body sv service date :
  validateBooking (now env) body = true →
  services sv !! Body.service body = Some service →
  newDate (Body.appointmentDate body) = Some date →
  (∀ id b, bookings sv !! id = Some b →
           Booking.appointmentDate b = date →
           Booking.appointmentTime b = Str.trim (Body.appointmentTime body) →
           Booking.active b = false) →
  Booking.validate (now env) (newBooking (now env) (sanitize body) service date)
  = true →
  writeOk env = true →
  bookings sv !! newId env = None →
  mailOk env = false →
  ∃ sv' b,
    createBooking env body sv
    = (if populateOk env then (sv', Ok (newId env, b))
       else (log "Error creating booking:" sv',
             Fail (PersistenceError "Failed to create booking")))
    ∧ bookings sv' !! newId env = Some b
    ∧ Booking.status b = "pending"
    ∧ "Failed to send confirmation email:" ∈ console sv'.
Proof.
  intros Hv Hs Hd Hfree Hvalid Hw Hid Hm.
  destruct (createBooking_stores env body sv service date Hv Hs Hd Hfree Hvalid Hw Hid)
    as (sv' & Hc & Hb & _ & Hlog).
  eexists sv', _. split; [exact Hc|]. split; [|split; [done | by apply Hlog]].
  rewrite Hb. apply lookup_insert_eq.
Qed.

(** C7: a status outside the four values is answered with InvalidArgument;
    with a status among them, an id without booking is answered with
    NotFound; and a booking that is there is given the status, whatever its
    status was, is written and is returned; the one reply that is not the
    booking is the 500 of a [populate] that the store does not answer after
    the write. *)
Theorem updateStatus_cases env id st sv :
  (¬ (st = "pending" ∨ st = "confirmed" ∨ st = "completed" ∨ st = "cancelled") →
   updateStatus env id st sv = (sv, Fail InvalidArgument))
  ∧ (st = "pending" ∨ st = "confirmed" ∨ st = "completed" ∨ st = "cancelled" →
     (bookings sv !! id = None →
      updateStatus env id st sv = (sv, Fail (NotFound "Booking not found")))
     ∧ (∀ b, bookings sv !! id = Some b → writeOk env = true →
          let b' := Booking.set_updatedAt (now env) (Booking.set_status st b) in
          let sv' := with_bookings (<[id := b']> (bookings sv)) sv in
          updateStatus env id st sv
          = (if populateOk env then (sv', Ok b')
             else (log "Error updating booking status:" sv',
                   Fail (PersistenceError "Failed to update booking status")))
          ∧ Booking.status b' = st)).
Proof.
  unfold updateStatus, findByIdAndUpdate. split.
  - intros Hst. rewrite <- validStatuses_spec in Hst.
    by destruct (Str.includes validStatuses st).
  - intros Hst. apply validStatuses_spec in Hst. rewrite Hst. simpl. split.
    + by intros ->.
    + intros b -> ->. by destruct (populateOk env).
Qed.

(** The cases of the cancel route: NotFound for an id without booking,
    InvalidState for a booking that is cancelled and for one that is
    completed; a booking with another status is given the status cancelled, is
    written and is returned when it passes the validators of the schema and
    the store carries out the write, and a second cancel is then answered
    with InvalidState; when it does not pass them, the reply is a 500 and
    the booking stays as it was. *)
Lemma cancel_cases env id sv :
  (findById id (bookings sv) = None →
   cancelBooking env id sv = (sv, Fail (NotFound "Booking not found")))
  ∧ (∀ b, findById id (bookings sv) = Some b →
       (Booking.status b = "cancelled" →
        cancelBooking env id sv
        = (sv, Fail (InvalidState "Booking is already cancelled")))
       ∧ (Booking.status b = "completed" →
          cancelBooking env id sv
          = (sv, Fail (InvalidState "Cannot cancel completed booking")))
       ∧ (Booking.status b ≠ "cancelled" → Booking.status b ≠ "completed" →
          Booking.validate (now env) (Booking.set_status "cancelled" b) = true →
          writeOk env = true →
          let b' := Booking.pre_save (now env) (Booking.set_status "cancelled" b) in
          let sv' := with_bookings (<[id := b']> (bookings sv)) sv in
          cancelBooking env id sv = (sv', Ok b')
          ∧ Booking.status b' = "cancelled"
          ∧ findById id (bookings sv') = Some b'
          ∧ (∀ env', cancelBooking env' id sv'
                     = (sv', Fail (InvalidState "Booking is already cancelled"))))
       ∧ (Booking.status b ≠ "cancelled" → Booking.status b ≠ "completed" →
          Booking.validate (now env) (Booking.set_status "cancelled" b) = false →
          cancelBooking env id sv
          = (log "Error cancelling booking:" sv,
             Fail (PersistenceError "Failed to cancel booking")))).
Proof.
  unfold cancelBooking. split.
  - by intros ->.
  - intros b Hb. rewrite Hb. split; [|split; [|split]].
    + by intros ->.
    + by intros ->.
    + intros Hc Hd Hv Hw. apply String.eqb_neq in Hc, Hd. rewrite Hc, Hd.
      unfold save, findById in *. rewrite Hv, Hw, Hb. simpl.
      rewrite lookup_insert_eq. done.
    + intros Hc Hd Hv. apply String.eqb_neq in Hc, Hd. rewrite Hc, Hd.
      unfold save. by rewrite Hv.
Qed.

End Lifecycle.

(** ** Bookings and free slots *)

Section Occupancy.
Context `{Runtime}.

(** What the cancel route stores when it answers with the booking. *)
Lemma cancelBooking_Ok env id sv sv' b' :
  cancelBooking env id sv = (sv', Ok b') →
  ∃ b, bookings sv !! id = Some b
       ∧ b' = Booking.pre_save (now env) (Booking.set_status "cancelled" b)
       ∧ sv' = with_bookings (<[id := b']> (bookings sv)) sv.
Proof.
  unfold cancelBooking, findById, save. intros Hc.
  destruct (bookings sv !! id) as [b|] eqn:Hb; [|done].
  destruct (String.eqb (Booking.status b) "cancelled"); [done|].
  destruct (String.eqb (Booking.status b) "completed"); [done|].
  destruct (Booking.validate _ _); [|done].
  destruct (writeOk env); [|done]. simpl in Hc.
  injection Hc as <- <-. by exists b.
Qed.

(** A booking that was just created is stored as pending at the date and
    the trimmed time of the request, and no other pending or confirmed
    booking has that date and time. *)
Lemma createBooking_occupies env body sv sv' id b :
  createBooking env body sv = (sv', Ok (id, b)) →
  bookings sv' !! id = Some b
  ∧ Booking.status b = "pending"
  ∧ newDate (Body.appointmentDate body) = Some (Booking.appointmentDate b)
  ∧ Booking.appointmentTime b = Str.trim (Body.appointmentTime body)
  ∧ (∀ id' c, id' ≠ id → bookings sv' !! id' = Some c →
              conflicts (Booking.appointmentDate b) (Booking.appointmentTime b) c
              = false).
Proof.
  intros Hc.
  apply createBooking_Ok in Hc as (service & date & _ & Hd & Hfree & _ & -> & -> & _).
  split; [apply lookup_insert_eq|]. do 3 (split; [done|]).
  intros id' c Hne Hc. rewrite lookup_insert_ne in Hc by done.
  rewrite findOne_None in Hfree. by apply (Hfree id' c).
Qed.

(** C10: a slot of the grid is left out exactly when a booked time is the
    same string; the pattern of the time rule lets "9:00" and "10:17"
    through, neither of which is a string of the grid; and a booking whose
    time is not a string of the grid changes no reply of the route, whatever
    its status and date. *)
Theorem off_grid_booking_blocks_nothing :
  (∀ bookedTimes time,
     time ∈ freeSlots bookedTimes ↔ time ∈ slotGrid ∧ time ∉ bookedTimes)
  ∧ (test timePattern "9:00" = true ∧ "9:00" ∉ slotGrid)
  ∧ (test timePattern "10:17" = true ∧ "10:17" ∉ slotGrid)
  ∧ (∀ sv id b date serviceId,
       Booking.appointmentTime b ∉ slotGrid →
       (availableSlots date serviceId
          (with_bookings (<[id := b]> (bookings sv)) sv)).2
       = (availableSlots date serviceId
            (with_bookings (delete id (bookings sv)) sv)).2).
Proof.
  split; [exact elem_of_freeSlots|].
  split; [split; [reflexivity | by_evaluation]|].
  split; [split; [reflexivity | by_evaluation]|].
  intros sv id b date serviceId Hoff. unfold availableSlots. simpl.
  destruct serviceId as [serviceId|]; [|done].
  destruct (services sv !! serviceId); [|done].
  destruct (newDate date) as [d|]; [|done].
  destruct (getDay d =? 0); [done|]. simpl. apply (f_equal Ok).
  apply freeSlots_ext. intros time Hgrid. rewrite !elem_of_bookedTimes.
  split; intros (id' & b' & Hb' & Hq & Ht); exists id', b'.
  - destruct (decide (id = id')) as [<-|Hne].
    + rewrite lookup_insert_eq in Hb'. injection Hb' as <-. congruence.
    + rewrite lookup_insert_ne in Hb' by done. by rewrite lookup_delete_ne.
  - destruct (decide (id = id')) as [<-|Hne].
    + by rewrite lookup_delete_eq in Hb'.
    + rewrite lookup_delete_ne in Hb' by done. by rewrite lookup_insert_ne.
Qed.

(** C2, amended: a pending or confirmed booking at a date and a time keeps
    the time out of the slots of the date; once it is cancelled the time is
    among the slots of the date when the route does not close the date, the
    time is a string of the grid and no other pending or confirmed booking
    has the same date and time.  The route does not close the date when
    [getDay], in the local time of the server, is not 0 for it; on a server
    whose local time is UTC or ahead of it by less than a day, that is every
    day of the calendar but Sunday. *)
Theorem booked_then_cancelled sv id b date serviceId :
  bookings sv !! id = Some b →
  Booking.status b = "pending" ∨ Booking.status b = "confirmed" →
  newDate date = Some (Booking.appointmentDate b) →
  is_Some (services sv !! serviceId) →
  (∃ slots,
     availableSlots date (Some serviceId) sv = (sv, Ok slots)
     ∧ Booking.appointmentTime b ∉ slots)
  ∧ (∀ env sv' b',
       cancelBooking env id sv = (sv', Ok b') →
       getDay (Booking.appointmentDate b) ≠ 0
       ∨ (Booking.appointmentDate b `mod` msPerDay = 0
          ∧ 0 ≤ LocalTZA (Booking.appointmentDate b) < msPerDay
          ∧ weekday (Booking.appointmentDate b) ≠ 0) →
       Booking.appointmentTime b ∈ slotGrid →
       (∀ id' c, id' ≠ id → bookings sv !! id' = Some c →
                 conflicts (Booking.appointmentDate b) (Booking.appointmentTime b) c
                 = false) →
       ∃ slots,
         availableSlots date (Some serviceId) sv' = (sv', Ok slots)
         ∧ Booking.appointmentTime b ∈ slots).
Proof.
  intros Hb Hact Hd Hs. apply active_spec in Hact. split.
  - destruct (decide (getDay (Booking.appointmentDate b) = 0)) as [Hday|Hday].
    + exists []. split;
        [by apply (availableSlots_closed sv date (Booking.appointmentDate b) serviceId) |].
      apply not_elem_of_nil.
    + eexists. split; [by apply availableSlots_open|].
      rewrite elem_of_freeSlots. intros [_ Hfree]. apply Hfree.
      apply elem_of_bookedTimes. exists id, b. split; [done|]. split; [|done].
      unfold bookedOn. by rewrite Z.eqb_refl, Hact.
  - intros env sv' b' Hc Hopen Hgrid Hothers.
    assert (Hday : getDay (Booking.appointmentDate b) ≠ 0).
    { destruct Hopen as [Hday | (Hmid & Htz & Hday)]; [done|].
      by rewrite (proj1 (getDay_weekday _ Hmid) Htz). }
    apply cancelBooking_Ok in Hc as (b0 & Hb0 & -> & ->).
    rewrite Hb in Hb0. injection Hb0 as <-.
    eexists. split; [by apply availableSlots_open|].
    rewrite elem_of_freeSlots. split; [done|].
    rewrite elem_of_bookedTimes. simpl. intros (id' & c & Hc & Hq & Ht).
    unfold bookedOn in Hq. apply andb_true_iff in Hq as [Hdate Hactive].
    destruct (decide (id' = id)) as [->|Hne].
    + rewrite lookup_insert_eq in Hc. injection Hc as <-. done.
    + rewrite lookup_insert_ne in Hc by done.
      specialize (Hothers id' c Hne Hc). unfold conflicts in Hothers.
      rewrite Hdate, Ht, String.eqb_refl, Hactive in Hothers. done.
Qed.

End Occupancy.

(** ** The price snapshot *)

Section Snapshot.
Context `{Runtime}.

(** A request leaves every booking of the store in the store, with the
    snapshot it had; a booking of the store afterwards was there before,
    up to its status, its date of update and a total set to the snapshot,
    or is the booking the request created. *)
Lemma handle_keeps env req sv id b :
  bookings sv !! id = Some b →
  ∃ b', bookings (handle env req sv) !! id = Some b'
        ∧ Booking.servicePrice b' = Booking.servicePrice b
        ∧ (Booking.totalAmount b' = Booking.totalAmount b
           ∨ Booking.totalAmount b' = Booking.servicePrice b).
Proof.
  intros Hb. destruct req as [body|id' st|id'|id' body|id']; simpl.
  - destruct (createBooking env body sv) as [sv' [[id' b']|e]] eqn:Hc; simpl.
    + apply createBooking_Ok in Hc as (service & date & _ & _ & _ & Hid & _ & -> & _).
      exists b. rewrite lookup_insert_ne by congruence. auto.
    + exists b. split; [|auto].
      apply createBooking_Fail in Hc as (_ & [-> | (_ & _ & Hid & service & date & _ & _ & ->)]);
        [done|].
      rewrite lookup_insert_ne by congruence. done.
  - unfold updateStatus, findByIdAndUpdate.
    destruct (decide (id' = id)) as [->|Hne].
    + rewrite Hb. repeat case_match; simplify_eq; simpl;
        rewrite ?lookup_insert_eq; eauto.
    + repeat case_match; simplify_eq; simpl;
        rewrite ?lookup_insert_ne by done; eauto.
  - unfold cancelBooking, findById, save.
    destruct (decide (id' = id)) as [->|Hne].
    + rewrite Hb. repeat case_match; simplify_eq; simpl;
        rewrite ?lookup_insert_eq; eauto.
    + repeat case_match; simplify_eq; simpl;
        rewrite ?lookup_insert_ne by done; eauto.
  - unfold updateService. repeat case_match; simpl; eauto.
  - unfold deleteService. repeat case_match; simpl; eauto.
Qed.

Lemma handle_invariant env req sv :
  totals_are_snapshots sv → totals_are_snapshots (handle env req sv).
Proof.
  intros Hinv id b'. destruct req as [body|id' st|id'|id' body|id']; simpl.
  - destruct (createBooking env body sv) as [sv' [[id' b0]|e]] eqn:Hc; simpl.
    + apply createBooking_Ok in Hc as (service & date & _ & _ & _ & Hid & -> & -> & _).
      destruct (decide (id' = id)) as [->|Hne].
      * rewrite lookup_insert_eq. by intros [= <-].
      * rewrite lookup_insert_ne by done. apply Hinv.
    + apply createBooking_Fail in Hc as (_ & [-> | (_ & _ & Hid & service & date & _ & _ & ->)]);
        [apply Hinv|].
      destruct (decide (newId env = id)) as [<-|Hne].
      * rewrite lookup_insert_eq. by intros [= <-].
      * rewrite lookup_insert_ne by done. apply Hinv.
  - unfold updateStatus, findByIdAndUpdate.
    repeat case_match; simplify_eq; simpl; try apply Hinv;
      (destruct (decide (id' = id)) as [->|Hne];
       [ rewrite lookup_insert_eq; intros [= <-]; simpl; by eapply Hinv
       | rewrite lookup_insert_ne by done; apply Hinv ]).
  - unfold cancelBooking, findById, save.
    repeat case_match; simplify_eq; simpl; try apply Hinv.
    destruct (decide (id' = id)) as [->|Hne].
    + rewrite lookup_insert_eq. by intros [= <-].
    + rewrite lookup_insert_ne by done. apply Hinv.
  - unfold updateService. repeat case_match; simpl; apply Hinv.
  - unfold deleteService. repeat case_match; simpl; apply Hinv.
Qed.

Lemma run_invariant trace sv :
  totals_are_snapshots sv → totals_are_snapshots (run trace sv).
Proof.
  revert sv. induction trace as [|[env req] trace IH]; intros sv Hinv; [done|].
  apply IH. by apply handle_invariant.
Qed.

(** C5: from a store whose totals are the snapshots (the empty one, for
    instance), after every sequence of requests every booking has a total
    equal to its snapshotted price; a further request, a change of the
    price of the service included, leaves both as they are; and a new
    booking takes both from the price of the service at that moment. *)
Theorem totalAmount_is_the_snapshot trace sv0 :
  totals_are_snapshots sv0 →
  let sv := run trace sv0 in
  (∀ id b, bookings sv !! id = Some b →
           Booking.totalAmount b = Booking.servicePrice b)
  ∧ (∀ env req id b, bookings sv !! id = Some b →
       ∃ b', bookings (handle env req sv) !! id = Some b'
             ∧ Booking.servicePrice b' = Booking.servicePrice b
             ∧ Booking.totalAmount b' = Booking.totalAmount b)
  ∧ (∀ env body sv' id b,
       createBooking env body sv = (sv', Ok (id, b)) →
       ∃ service,
         services sv !! Body.service body = Some service
         ∧ Booking.servicePrice b = Service.price service
         ∧ Booking.totalAmount b = Service.price service).
Proof.
  intros Hinv sv. assert (Hsv : totals_are_snapshots sv) by by apply run_invariant.
  split; [exact Hsv | split].
  - intros env req id b Hb.
    destruct (handle_keeps env req sv id b Hb) as (b' & Hb' & Hp & Ht).
    exists b'. split; [done|]. split; [done|].
    destruct Ht as [Ht|Ht]; [done|]. by rewrite Ht, (Hsv id b Hb).
  - intros env body sv' id b Hc.
    apply createBooking_Ok in Hc as (service & date & Hs & _ & _ & _ & -> & _).
    by exists service.
Qed.

End Snapshot.

(** ** The time rule *)

Lemma elem_of_chars p c : p c = true → c ∈ chars p.
Proof.
  intros Hp. unfold chars. apply list_elem_of_In, filter_In. split; [|done].
  apply list_elem_of_In, list_elem_of_fmap. exists (nat_of_ascii c).
  split; [by rewrite ascii_nat_embedding|].
  apply elem_of_seq. pose proof (nat_ascii_bounded c). lia.
Qed.

Lemma timePattern_words w : lang timePattern w → w ∈ timeWords.
Proof.
  unfold timePattern, Opt, OneOf, Range, Chr. intros Hw.
  apply lang_cat_inv in Hw as (hh & w2 & -> & Hhh & Hw2).
  apply lang_cat_inv in Hw2 as (w3 & w4 & -> & Hcolon & Hmm).
  apply lang_class_inv in Hcolon as (c0 & -> & Hc0).
  apply Ascii.eqb_eq in Hc0 as <-.
  apply lang_cat_inv in Hmm as (w5 & w6 & -> & Hc & Hd).
  apply lang_class_inv in Hc as (c & -> & Hc).
  apply lang_class_inv in Hd as (d & -> & Hd).
  unfold timeWords, charsOf, OneOf, Range. apply list_elem_of_bind. exists hh. split.
  - apply list_elem_of_bind. exists c. split; [|by apply elem_of_chars].
    apply list_elem_of_bind. exists d. split; [|by apply elem_of_chars].
    simpl. apply list_elem_of_singleton. done.
  - rewrite !elem_of_app. apply lang_alt_inv in Hhh as [Hhh|Hhh].
    + apply lang_cat_inv in Hhh as (w1 & w2 & -> & Ha & Hb).
      apply lang_class_inv in Hb as (b & -> & Hb).
      apply lang_alt_inv in Ha as [Ha|Ha].
      * apply lang_class_inv in Ha as (a & -> & Ha). left.
        apply list_elem_of_bind. exists a. split; [|by apply elem_of_chars].
        apply list_elem_of_bind. exists b. split; [|by apply elem_of_chars].
        by apply list_elem_of_singleton.
      * apply lang_eps_inv in Ha as ->. right. left.
        apply list_elem_of_bind. exists b. split; [|by apply elem_of_chars].
        by apply list_elem_of_singleton.
    + apply lang_cat_inv in Hhh as (w1 & w2 & -> & Ha & Hb).
      apply lang_class_inv in Ha as (a & -> & Ha).
      apply Ascii.eqb_eq in Ha as <-.
      apply lang_class_inv in Hb as (b & -> & Hb). right. right.
      apply list_elem_of_bind. exists b. split; [|by apply elem_of_chars].
      by apply list_elem_of_singleton.
Qed.

(** The time rule, in the words of the specification: the pattern lets
    through the times [HH:MM] of a 24-hour clock and the same times with an
    hour below ten written with one digit, and nothing else. *)
Lemma timePattern_spec s :
  test timePattern s = true ↔ s ∈ spec_HHMM ++ spec_HMM.
Proof.
  split.
  - unfold test. rewrite matches_lang. intros Hw%timePattern_words.
    assert (Hall : forallb (λ w, bool_decide (string_of_list_ascii w
                                               ∈ spec_HHMM ++ spec_HMM))
                           timeWords = true) by (vm_compute; reflexivity).
    rewrite forallb_forall in Hall. apply list_elem_of_In, Hall in Hw.
    apply bool_decide_eq_true in Hw. by rewrite string_of_list_ascii_of_string in Hw.
  - intros Hin.
    assert (Hall : forallb (test timePattern) (spec_HHMM ++ spec_HMM) = true)
      by (vm_compute; reflexivity).
    rewrite forallb_forall in Hall. by apply Hall, list_elem_of_In.
Qed.

Section TimeRule.
Context `{Runtime}.

Lemma validateBooking_date clock body :
  validateBooking clock body = true →
  ∃ d, newDate (Body.appointmentDate body) = Some d ∧ clock < d.
Proof.
  unfold validateBooking, inFuture. rewrite !andb_true_iff.
  intros [[[_ [_ Hd]] _] _].
  destruct (newDate (Body.appointmentDate body)) as [d|]; [|done].
  exists d. split; [done | by apply Z.ltb_lt].
Qed.

Lemma validateBooking_time clock body :
  validateBooking clock body = true →
  test timePattern (Str.trim (Body.appointmentTime body)) = true.
Proof. unfold validateBooking. rewrite !andb_true_iff. tauto. Qed.

(** C8, amended: a request whose date is not after the clock is answered
    with ValidationError, and so is a request whose time, once trimmed, is
    neither [HH:MM] on a 24-hour clock nor such a time with an hour below
    ten written with one digit; "25:00" and "9:60" are refused, "09:00" and
    "23:59" pass the rule. *)
Theorem create_validates_date_and_time env body sv :
  ((∃ d, newDate (Body.appointmentDate body) = Some d ∧ d ≤ now env) →
   createBooking env body sv = (sv, Fail ValidationError))
  ∧ (Str.trim (Body.appointmentTime body) ∉ spec_HHMM ++ spec_HMM →
     createBooking env body sv = (sv, Fail ValidationError))
  ∧ (Body.appointmentTime body = "25:00" ∨ Body.appointmentTime body = "9:60" →
     createBooking env body sv = (sv, Fail ValidationError))
  ∧ test timePattern (Str.trim "09:00") = true
  ∧ test timePattern (Str.trim "23:59") = true.
Proof.
  assert (Hdate : (∃ d, newDate (Body.appointmentDate body) = Some d ∧ d ≤ now env) →
                  validateBooking (now env) body = false).
  { intros (d & Hd & Hle). destruct (validateBooking (now env) body) eqn:Hv; [|done].
    apply validateBooking_date in Hv as (d' & Hd' & Hlt).
    rewrite Hd in Hd'. injection Hd' as <-. lia. }
  assert (Htime : test timePattern (Str.trim (Body.appointmentTime body)) = false →
                  validateBooking (now env) body = false).
  { intros Ht. destruct (validateBooking (now env) body) eqn:Hv; [|done].
    apply validateBooking_time in Hv. congruence. }
  unfold createBooking. split; [|split; [|split; [|split]]].
  - intros Hd. by rewrite (Hdate Hd).
  - intros Hno. rewrite Htime; [done|].
    rewrite <- timePattern_spec in Hno. by destruct (test timePattern _).
  - intros [Ht|Ht]; (rewrite Htime; [done | by rewrite Ht]).
  - reflexivity.
  - reflexivity.
Qed.

End TimeRule.

(** * The properties at work in the example salon *)

Lemma occupied_slot_conflicts_witness :
  createBooking (H:=utc) (today 8%N) (ask "2030-01-07" " 10:00 ")
                (bookedAt monday "10:00" "confirmed")
  = (bookedAt monday "10:00" "confirmed", Fail Conflict).
Proof.
  apply (occupied_slot_conflicts (H:=utc) (today 8%N) (ask "2030-01-07" " 10:00 ")
           (bookedAt monday "10:00" "confirmed") 7%N
           (asked monday "10:00" "confirmed")).
  - reflexivity.
  - by eexists.
  - reflexivity.
  - by right.
  - reflexivity.
  - reflexivity.
Defined.

Lemma sunday_has_no_slots_witness :
  weekday sunday = 0
  ∧ availableSlots (H:=utc) "2030-01-06" (Some 1%N) (bookedAt sunday "10:00" "pending")
    = (bookedAt sunday "10:00" "pending", Ok []).
Proof.
  split; [reflexivity|].
  apply (sunday_has_no_slots (H:=utc) (bookedAt sunday "10:00" "pending")
           "2030-01-06" sunday 1%N).
  - by eexists.
  - reflexivity.
  - reflexivity.
  - by vm_compute.
  - reflexivity.
Defined.

Lemma open_day_without_bookings_witness :
  weekday monday = 1
  ∧ (availableSlots (H:=utc) "2030-01-07" (Some 1%N)
       (bookedAt monday "10:00" "cancelled")).2
    = Ok slotGrid.
Proof.
  split; [reflexivity|].
  assert (Hservice : is_Some (services (bookedAt monday "10:00" "cancelled") !! 1%N))
    by by eexists.
  assert (Hday : getDay (H:=utc) monday ≠ 0
                 ∨ (monday `mod` msPerDay = 0
                    ∧ 0 ≤ LocalTZA (Runtime:=utc) monday < msPerDay
                    ∧ weekday monday ≠ 0))
    by (right; by vm_compute).
  assert (Hnone : ∀ id b,
             bookings (bookedAt monday "10:00" "cancelled") !! id = Some b →
             Booking.appointmentDate b = monday → Booking.active b = false).
  { intros id b Hb _. unfold bookedAt in Hb. simpl in Hb.
    apply lookup_singleton_Some in Hb as [_ <-]. reflexivity. }
  destruct (open_day_without_bookings (H:=utc) (bookedAt monday "10:00" "cancelled")
              "2030-01-07" monday 1%N Hservice eq_refl Hday Hnone)
    as (slots & Hreply & Hslots & _).
  rewrite Hreply, Hslots. reflexivity.
Defined.

Lemma totalAmount_is_the_snapshot_witness :
  let trace := [(today 7%N, PostBooking (ask "2030-01-07" "10:00"));
                (today 0%N,
                 PutService 1%N (ServiceBody.mk "Haircut" "A classic cut and finish" 65
                                                "45 min" "Hair" "scissors" true true));
                (today 0%N, PatchStatus 7%N "confirmed")] in
  totals_are_snapshots salon
  ∧ (Service.price <$> services (run (H:=utc) trace salon) !! 1%N) = Some (65 : Q)
  ∧ (Booking.totalAmount <$> bookings (run (H:=utc) trace salon) !! 7%N)
    = Some (50 : Q)
  ∧ ∀ id b, bookings (run (H:=utc) trace salon) !! id = Some b →
            Booking.totalAmount b = Booking.servicePrice b.
Proof.
  intros trace.
  assert (Hinit : totals_are_snapshots salon).
  { intros id b Hb. unfold salon in Hb. simpl in Hb. by rewrite lookup_empty in Hb. }
  split; [exact Hinit|]. split; [reflexivity|]. split; [reflexivity|].
  exact (proj1 (totalAmount_is_the_snapshot (H:=utc) trace salon Hinit)).
Defined.

Lemma cancel_cases_witness :
  cancelBooking (today 0%N) 9%N (bookedAt monday "10:00" "pending")
  = (bookedAt monday "10:00" "pending", Fail (NotFound "Booking not found"))
  ∧ cancelBooking (today 0%N) 7%N (bookedAt monday "10:00" "cancelled")
    = (bookedAt monday "10:00" "cancelled",
       Fail (InvalidState "Booking is already cancelled"))
  ∧ cancelBooking (today 0%N) 7%N (bookedAt monday "10:00" "completed")
    = (bookedAt monday "10:00" "completed",
       Fail (InvalidState "Cannot cancel completed booking"))
  ∧ (cancelBooking (today 0%N) 7%N (bookedAt monday "10:00" "confirmed")).2
    = Ok (asked monday "10:00" "cancelled").
Proof.
  split; [|split; [|split]].
  - by apply (proj1 (cancel_cases (today 0%N) 9%N
                       (bookedAt monday "10:00" "pending"))).
  - by apply (proj1 (proj2 (cancel_cases (today 0%N) 7%N
                              (bookedAt monday "10:00" "cancelled"))
                       (asked monday "10:00" "cancelled") eq_refl)).
  - by apply (proj1 (proj2 (proj2 (cancel_cases (today 0%N) 7%N
                                     (bookedAt monday "10:00" "completed"))
                              (asked monday "10:00" "completed") eq_refl))).
  - destruct (proj1 (proj2 (proj2 (proj2 (cancel_cases (today 0%N) 7%N
                                            (bookedAt monday "10:00" "confirmed"))
                                     (asked monday "10:00" "confirmed") eq_refl))))
      as [Hreply _]; [done | done | reflexivity | reflexivity |].
    by rewrite Hreply.
Defined.

Lemma updateStatus_cases_witness :
  updateStatus (today 0%N) 7%N "done" (bookedAt monday "10:00" "pending")
  = (bookedAt monday "10:00" "pending", Fail InvalidArgument)
  ∧ updateStatus (today 0%N) 9%N "confirmed" (bookedAt monday "10:00" "pending")
    = (bookedAt monday "10:00" "pending", Fail (NotFound "Booking not found"))
  ∧ (updateStatus (today 0%N) 7%N "pending"
       (bookedAt monday "10:00" "completed")).2
    = Ok (asked monday "10:00" "pending").
Proof.
  split; [|split].
  - apply (proj1 (updateStatus_cases (today 0%N) 7%N "done"
                    (bookedAt monday "10:00" "pending"))).
    intros [?|[?|[?|?]]]; discriminate.
  - apply (proj1 (proj2 (updateStatus_cases (today 0%N) 9%N "confirmed"
                           (bookedAt monday "10:00" "pending"))
                    (or_intror (or_introl eq_refl)))).
    reflexivity.
  - destruct (proj2 (proj2 (updateStatus_cases (today 0%N) 7%N "pending"
                              (bookedAt monday "10:00" "completed"))
                       (or_introl eq_refl))
                (asked monday "10:00" "completed") eq_refl eq_refl)
      as [Hreply _].
    by rewrite Hreply.
Defined.

Lemma mail_failure_is_absorbed_witness :
  mailOk (today 7%N) = false
  ∧ ∃ sv',
      createBooking (H:=utc) (today 7%N) (ask "2030-01-07" "10:00") salon
      = (sv', Ok (7%N, asked monday "10:00" "pending"))
      ∧ bookings sv' !! 7%N = Some (asked monday "10:00" "pending")
      ∧ "Failed to send confirmation email:" ∈ console sv'.
Proof.
  split; [reflexivity|].
  assert (Hfree : ∀ id b, bookings salon !! id = Some b →
            Booking.appointmentDate b = monday →
            Booking.appointmentTime b
            = Str.trim (Body.appointmentTime (ask "2030-01-07" "10:00")) →
            Booking.active b = false).
  { intros id b Hb. unfold salon in Hb. simpl in Hb. by rewrite lookup_empty in Hb. }
  destruct (mail_failure_is_absorbed (H:=utc) (today 7%N) (ask "2030-01-07" "10:00")
              salon haircut monday eq_refl eq_refl eq_refl Hfree
              ltac:(vm_compute; reflexivity) eq_refl eq_refl eq_refl)
    as (sv' & b & Hreply & Hstored & _ & Hlog).
  change (populateOk (today 7%N)) with true in Hreply. cbv iota in Hreply.
  exists sv'.
  assert (Hb : b = asked monday "10:00" "pending").
  { assert (Hc : (createBooking (H:=utc) (today 7%N) (ask "2030-01-07" "10:00") salon).2
                 = Ok (7%N, b)) by by rewrite Hreply.
    vm_compute in Hc. by injection Hc as <-. }
  subst b. done.
Defined.

Lemma off_grid_booking_blocks_nothing_witness :
  (createBooking (H:=utc) (today 7%N) (ask "2030-01-07" "9:00") salon).2
  = Ok (7%N, asked monday "9:00" "pending")
  ∧ (availableSlots (H:=utc) "2030-01-07" (Some 1%N) (bookedAt monday "9:00" "pending")).2
    = Ok slotGrid.
Proof.
  split; [reflexivity|].
  assert (Hoff : Booking.appointmentTime (asked monday "9:00" "pending") ∉ slotGrid)
    by by_evaluation.
  pose proof (proj2 (proj2 (proj2 (off_grid_booking_blocks_nothing (H:=utc))))
                salon 7%N (asked monday "9:00" "pending") "2030-01-07" (Some 1%N) Hoff)
    as Hsame.
  etransitivity; [exact Hsame | reflexivity].
Defined.

Lemma booked_then_cancelled_witness :
  (∃ slots,
     availableSlots (H:=utc) "2030-01-07" (Some 1%N) (bookedAt monday "10:00" "confirmed")
     = (bookedAt monday "10:00" "confirmed", Ok slots)
     ∧ "10:00" ∉ slots)
  ∧ cancelBooking (today 0%N) 7%N (bookedAt monday "10:00" "confirmed")
    = (bookedAt monday "10:00" "cancelled", Ok (asked monday "10:00" "cancelled"))
  ∧ (∃ slots,
       availableSlots (H:=utc) "2030-01-07" (Some 1%N) (bookedAt monday "10:00" "cancelled")
       = (bookedAt monday "10:00" "cancelled", Ok slots)
       ∧ "10:00" ∈ slots).
Proof.
  assert (Hservice : is_Some (services (bookedAt monday "10:00" "confirmed") !! 1%N))
    by by eexists.
  destruct (booked_then_cancelled (H:=utc) (bookedAt monday "10:00" "confirmed") 7%N
              (asked monday "10:00" "confirmed") "2030-01-07" 1%N
              eq_refl (or_intror eq_refl) eq_refl Hservice) as [Hout Hback].
  assert (Hcancel : cancelBooking (today 0%N) 7%N (bookedAt monday "10:00" "confirmed")
                    = (bookedAt monday "10:00" "cancelled",
                       Ok (asked monday "10:00" "cancelled"))) by reflexivity.
  split; [exact Hout|]. split; [exact Hcancel|].
  apply (Hback (today 0%N) _ _ Hcancel).
  - right. by vm_compute.
  - by_evaluation.
  - intros id' c Hne Hc. unfold bookedAt in Hc. simpl in Hc.
    apply lookup_singleton_Some in Hc as [<- _]. done.
Defined.

Lemma create_validates_date_and_time_witness :
  createBooking (H:=utc) (today 7%N) (ask "2020-01-06" "10:00") salon
  = (salon, Fail ValidationError)
  ∧ createBooking (H:=utc) (today 7%N) (ask "2030-01-07" "24:00") salon
    = (salon, Fail ValidationError)
  ∧ createBooking (H:=utc) (today 7%N) (ask "2030-01-07" "9:60") salon
    = (salon, Fail ValidationError).
Proof.
  split; [|split].
  - apply (proj1 (create_validates_date_and_time (H:=utc) (today 7%N)
                    (ask "2020-01-06" "10:00") salon)).
    exists 1578268800000. split; [reflexivity | by vm_compute].
  - apply (proj1 (proj2 (create_validates_date_and_time (H:=utc) (today 7%N)
                           (ask "2030-01-07" "24:00") salon))).
    by_evaluation.
  - apply (proj1 (proj2 (proj2 (create_validates_date_and_time (H:=utc) (today 7%N)
                                  (ask "2030-01-07" "9:60") salon)))).
    by right.
Defined.

(** ** Where the claims as worded fail *)

(** C4: on a server five hours behind UTC the route lists the 18 slots for
    Sunday 6 January 2030.  [new Date("2030-01-06")] is the midnight of that
    Sunday in UTC, which is Saturday evening in local time, so [getDay]
    gives 6 and the test for Sunday does not close the day. *)
Theorem sunday_is_listed_behind_utc :
  newDate (Runtime := fiveHoursBehind) "2030-01-06" = Some sunday
  ∧ weekday sunday = 0
  ∧ getDay (H := fiveHoursBehind) sunday = 6
  ∧ availableSlots (H := fiveHoursBehind) "2030-01-06" (Some 1%N) salon
    = (salon, Ok slotGrid)
  ∧ length slotGrid = 18%nat.
Proof. repeat split; reflexivity. Qed.

(** C3: on the same server the route lists no slot for Monday 7 January
    2030, a day without bookings: the midnight of that Monday in UTC is
    Sunday evening in local time, and [getDay] gives 0. *)
Theorem monday_is_closed_behind_utc :
  newDate (Runtime := fiveHoursBehind) "2030-01-07" = Some monday
  ∧ weekday monday = 1
  ∧ bookings salon = ∅
  ∧ getDay (H := fiveHoursBehind) monday = 0
  ∧ availableSlots (H := fiveHoursBehind) "2030-01-07" (Some 1%N) salon
    = (salon, Ok []).
Proof. repeat split; reflexivity. Qed.

(** C6: a pending booking whose date has passed is not cancelled.  The
    booking was created in 2027 for 7 January 2030; in March 2030 the
    cancel route sets its status and saves it, the validator of
    [appointmentDate] refuses the document, and the route answers 500 and
    leaves the booking pending, although the store carries out its writes.
    The status route, which does not save, cancels the same booking. *)
Theorem past_booking_is_not_cancelled :
  let sv := afterAsk "2030-01-07" "10:00" in
  bookings sv !! 7%N = Some (asked monday "10:00" "pending")
  ∧ monday < now (later 0%N)
  ∧ writeOk (later 0%N) = true
  ∧ cancelBooking (later 0%N) 7%N sv
    = (log "Error cancelling booking:" sv,
       Fail (PersistenceError "Failed to cancel booking"))
  ∧ bookings (cancelBooking (later 0%N) 7%N sv).1 !! 7%N
    = Some (asked monday "10:00" "pending")
  ∧ (Booking.status <$> bookings (updateStatus (later 0%N) 7%N "cancelled" sv).1 !! 7%N)
    = Some "cancelled".
Proof. repeat split; reflexivity. Qed.

(** C8 as worded: "9:00" is not [HH:MM], and the request is not refused. *)
Lemma single_digit_hour_is_accepted :
  ("9:00" ∉ spec_HHMM)
  ∧ validateBooking (H:=utc) (now (today 7%N)) (ask "2030-01-07" "9:00") = true
  ∧ (createBooking (H:=utc) (today 7%N) (ask "2030-01-07" "9:00") salon).2
    = Ok (7%N, asked monday "9:00" "pending").
Proof.
  split; [by_evaluation|].
  split; reflexivity.
Qed.

(** C2 as worded: three bookings that are created, then cancelled, and
    whose time is not among the slots of their date afterwards: one at a
    time that is no string of the grid, one on a Sunday, and one whose slot
    another booking holds, put back to confirmed by the status route. *)
Lemma cancelled_time_does_not_come_back :
  (let sv1 := (createBooking (H:=utc) (today 7%N) (ask "2030-01-07" "10:17") salon).1 in
   let sv2 := (cancelBooking (today 0%N) 7%N sv1).1 in
   (createBooking (H:=utc) (today 7%N) (ask "2030-01-07" "10:17") salon).2
   = Ok (7%N, asked monday "10:17" "pending")
   ∧ (cancelBooking (today 0%N) 7%N sv1).2 = Ok (asked monday "10:17" "cancelled")
   ∧ (availableSlots (H:=utc) "2030-01-07" (Some 1%N) sv2).2 = Ok slotGrid
   ∧ "10:17" ∉ slotGrid)
  ∧ (let sv1 := (createBooking (H:=utc) (today 7%N) (ask "2030-01-06" "10:00") salon).1 in
     let sv2 := (cancelBooking (today 0%N) 7%N sv1).1 in
     (createBooking (H:=utc) (today 7%N) (ask "2030-01-06" "10:00") salon).2
     = Ok (7%N, asked sunday "10:00" "pending")
     ∧ (cancelBooking (today 0%N) 7%N sv1).2 = Ok (asked sunday "10:00" "cancelled")
     ∧ (availableSlots (H:=utc) "2030-01-06" (Some 1%N) sv2).2 = Ok [])
  ∧ (let sv1 := run (H:=utc)
                  [(today 7%N, PostBooking (ask "2030-01-07" "10:00"));
                   (today 0%N, PatchCancel 7%N);
                   (today 8%N, PostBooking (ask "2030-01-07" "10:00"));
                   (today 0%N, PatchStatus 7%N "confirmed")] salon in
     let sv2 := (cancelBooking (today 0%N) 8%N sv1).1 in
     bookings sv1 !! 8%N = Some (asked monday "10:00" "pending")
     ∧ (cancelBooking (today 0%N) 8%N sv1).2 = Ok (asked monday "10:00" "cancelled")
     ∧ ∃ slots, (availableSlots (H:=utc) "2030-01-07" (Some 1%N) sv2).2 = Ok slots
                ∧ "10:00" ∉ slots).
Proof.
  split; [|split].
  - repeat split; try reflexivity. by_evaluation.
  - repeat split; reflexivity.
  - split; [reflexivity|]. split; [reflexivity|].
    eexists. split; [reflexivity|]. by_evaluation.
Qed.

(** * Further properties of the routes *)

(** ** What a request does to the bookings *)

Section Requests.
Context `{Runtime}.

(** A booking of the store after a request is a booking that was there, as
    it was, with a status of the schema set by the status route, or
    cancelled by the cancel route; or it is the pending booking the request
    created under an id that was free. *)
Lemma handle_booking_cases env req sv id b' :
  bookings (handle env req sv) !! id = Some b' →
  bookings sv !! id = Some b'
  ∨ (∃ b st, bookings sv !! id = Some b ∧ st ∈ validStatuses
             ∧ b' = Booking.set_updatedAt (now env) (Booking.set_status st b))
  ∨ (∃ b, bookings sv !! id = Some b
          ∧ b' = Booking.pre_save (now env) (Booking.set_status "cancelled" b))
  ∨ (bookings sv !! id = None ∧ Booking.status b' = "pending").
Proof.
  destruct req as [body|id' st|id'|id' body|id']; simpl.
  - destruct (createBooking env body sv) as [sv' [[id' b0]|e]] eqn:Hc; simpl.
    + apply createBooking_Ok in Hc as (service & date & _ & _ & _ & Hid & -> & -> & _).
      destruct (decide (id' = id)) as [->|Hne].
      * rewrite lookup_insert_eq. intros [= <-]. by right; right; right.
      * rewrite lookup_insert_ne by done. by left.
    + apply createBooking_Fail in Hc
        as (_ & [-> | (_ & _ & Hid & service & date & _ & _ & ->)]); [by left|].
      destruct (decide (newId env = id)) as [<-|Hne].
      * rewrite lookup_insert_eq. intros [= <-]. by right; right; right.
      * rewrite lookup_insert_ne by done. by left.
  - unfold updateStatus, findByIdAndUpdate.
    destruct (Str.includes validStatuses st) eqn:Hst; simpl; [|by left].
    apply includes_spec in Hst.
    repeat case_match; simplify_eq; simpl; try (by left);
      (destruct (decide (id' = id)) as [->|Hne];
       [ rewrite lookup_insert_eq; intros [= <-]; right; left; eauto
       | rewrite lookup_insert_ne by done; by left ]).
  - unfold cancelBooking, findById, save.
    repeat case_match; simplify_eq; simpl; try by left.
    destruct (decide (id' = id)) as [->|Hne].
    + rewrite lookup_insert_eq. intros [= <-]. right; right; left. eauto.
    + rewrite lookup_insert_ne by done. by left.
  - unfold updateService. repeat case_match; simpl; by left.
  - unfold deleteService. repeat case_match; simpl; by left.
Qed.

(** A request keeps every booking of the store, with the same appointment. *)
Lemma handle_same_appointment env req sv id b :
  bookings sv !! id = Some b →
  ∃ b', bookings (handle env req sv) !! id = Some b' ∧ same_appointment b b'.
Proof.
  intros Hb.
  destruct (handle_keeps env req sv id b Hb) as (b' & Hb' & _).
  exists b'. split; [done|].
  destruct (handle_booking_cases env req sv id b' Hb')
    as [Hsame|[(b0 & st & Hb0 & _ & ->)|[(b0 & Hb0 & ->)|[Hnone _]]]].
  - rewrite Hb in Hsame. injection Hsame as <-. repeat split; auto.
  - rewrite Hb in Hb0. injection Hb0 as <-. repeat split; simpl; auto.
  - rewrite Hb in Hb0. injection Hb0 as <-. repeat split; simpl; auto.
  - congruence.
Qed.

(** X1: a request that is answered with a failure leaves the services as
    they were, and the bookings too, but for one case: when the store does
    not answer the [populate] that follows the write of the create route or
    of the status route of the bookings, the reply is the 500 and the write
    is in the store, a new pending booking under an id that was free or the
    booking with its new status. *)
Theorem failed_requests_write_nothing env sv sv' e :
  (∀ body, createBooking env body sv = (sv', Fail e) →
           services sv' = services sv
           ∧ (bookings sv' = bookings sv
              ∨ (populateOk env = false
                 ∧ e = PersistenceError "Failed to create booking"
                 ∧ bookings sv !! newId env = None
                 ∧ ∃ b, Booking.status b = "pending"
                        ∧ bookings sv' = <[newId env := b]> (bookings sv))))
  ∧ (∀ id st, updateStatus env id st sv = (sv', Fail e) →
              services sv' = services sv
              ∧ (bookings sv' = bookings sv
                 ∨ (populateOk env = false
                    ∧ e = PersistenceError "Failed to update booking status"
                    ∧ ∃ b, bookings sv !! id = Some b
                           ∧ bookings sv'
                             = <[id := Booking.set_updatedAt (now env)
                                         (Booking.set_status st b)]> (bookings sv))))
  ∧ (∀ id, cancelBooking env id sv = (sv', Fail e) →
           bookings sv' = bookings sv ∧ services sv' = services sv)
  ∧ (∀ body, createService env body sv = (sv', Fail e) →
             bookings sv' = bookings sv ∧ services sv' = services sv)
  ∧ (∀ id body, updateService env id body sv = (sv', Fail e) →
                bookings sv' = bookings sv ∧ services sv' = services sv)
  ∧ (∀ id, deleteService env id sv = (sv', Fail e) →
           bookings sv' = bookings sv ∧ services sv' = services sv)
  ∧ (∀ id, toggleAvailability env id sv = (sv', Fail e) →
           bookings sv' = bookings sv ∧ services sv' = services sv)
  ∧ (∀ id, togglePopularity env id sv = (sv', Fail e) →
           bookings sv' = bookings sv ∧ services sv' = services sv).
Proof.
  split; [|split].
  - intros body Hc.
    apply createBooking_Fail in Hc
      as (Hs & [Hb | (Hp & He & Hid & service & date & _ & _ & Hb)]);
      (split; [done|]); [by left|].
    right. do 3 (split; [done|]). eexists. split; [|exact Hb]. done.
  - intros id st. unfold updateStatus, findByIdAndUpdate.
    repeat case_match; intros; simplify_eq; simpl; (split; [done|]);
      try (by left).
    right. do 2 (split; [done|]). by eexists.
  - repeat split;
      match goal with Hreply : _ = (sv', Fail e) |- _ => revert Hreply end;
      unfold cancelBooking, createService,
        updateService, deleteService, toggleAvailability, togglePopularity,
        saveService, findById, save;
      repeat case_match; intros; simplify_eq; done.
Qed.

(** X2: from a store whose statuses are among pending, confirmed, completed
    and cancelled, every sequence of requests leads to such a store. *)
Theorem statuses_stay_valid trace sv0 :
  statuses_are_valid sv0 → statuses_are_valid (run trace sv0).
Proof.
  revert sv0. induction trace as [|[env req] trace IH]; intros sv0 Hinv; [done|].
  apply IH. intros id b' Hb'.
  destruct (handle_booking_cases env req sv0 id b' Hb')
    as [Hsame|[(b0 & st & Hb0 & Hst & ->)|[(b0 & Hb0 & ->)|[_ Hst]]]].
  - by apply (Hinv id).
  - done.
  - simpl. unfold validStatuses. set_solver.
  - rewrite Hst. unfold validStatuses. set_solver.
Qed.

(** X3: no sequence of requests removes a booking or changes its client,
    its service snapshot, its date, its time, its notes, its payment status
    or its date of creation; its total stays what it was or becomes the
    snapshotted price, to which the cancel route sets it; what is left, the
    status and the date of the last update, is what the routes change. *)
Theorem appointments_are_kept trace sv0 id b :
  bookings sv0 !! id = Some b →
  ∃ b', bookings (run trace sv0) !! id = Some b' ∧ same_appointment b b'.
Proof.
  revert sv0 b. induction trace as [|[env req] trace IH]; intros sv0 b Hb.
  - exists b. split; [done | repeat split; auto].
  - destruct (handle_same_appointment env req sv0 id b Hb) as (b1 & Hb1 & Hsame1).
    destruct (IH _ _ Hb1) as (b' & Hb' & Hsame). exists b'. split; [done|].
    unfold same_appointment in *. intuition congruence.
Qed.

End Requests.

(** ** Free slots and the conflict check *)

Section Slots.
Context `{Runtime}.

Lemma filter_sublist {A} (p : A → bool) (l : list A) : List.filter p l `sublist_of` l.
Proof.
  induction l as [|x l IH]; simpl; [constructor|].
  destruct (p x); by constructor.
Qed.

Lemma filter_filter {A} (p q : A → bool) (l : list A) :
  List.filter p (List.filter q l) = List.filter (λ x, q x && p x) l.
Proof.
  induction l as [|x l IH]; simpl; [done|].
  destruct (q x); simpl; [destruct (p x)|]; by rewrite IH.
Qed.

Lemma StronglySorted_sublist {A} (R : relation A) (l1 l2 : list A) :
  l1 `sublist_of` l2 → StronglySorted R l2 → StronglySorted R l1.
Proof.
  induction 1 as [|x l1 l2 Hsub IH|x l1 l2 Hsub IH]; intros Hs; [done| |].
  - apply StronglySorted_inv in Hs as [Hs Hall]. constructor; [by apply IH|].
    rewrite Forall_forall in *. intros y Hy. apply Hall.
    by apply (elem_of_sublist l1 l2).
  - apply StronglySorted_inv in Hs as [Hs _]. by apply IH.
Qed.

(** The reply of the route, whatever the day. *)
Lemma availableSlots_Ok date serviceId sv sv' slots :
  availableSlots date serviceId sv = (sv', Ok slots) →
  sv' = sv
  ∧ ∃ d, newDate date = Some d
         ∧ slots = if getDay d =? 0 then []
                   else freeSlots ((λ slot : ObjectId * Booking.t,
                                      Booking.appointmentTime slot.2)
                                   <$> find (bookedOn d) (bookings sv)).
Proof.
  unfold availableSlots. intros Hr.
  destruct serviceId as [serviceId|]; [|done].
  destruct (services sv !! serviceId); [|done].
  destruct (newDate date) as [d|]; [|done].
  destruct (getDay d =? 0) eqn:Hday; injection Hr as <- <-;
    (split; [done|]); exists d; by rewrite Hday.
Qed.

(** X4: whatever the store holds, a reply of the availability route leaves
    the server as it was and lists slots of the grid in the order of the
    grid: at most 18, strictly ascending, without duplicates. *)
Theorem slots_are_a_part_of_the_grid date serviceId sv sv' slots :
  availableSlots date serviceId sv = (sv', Ok slots) →
  sv' = sv
  ∧ slots `sublist_of` slotGrid
  ∧ (length slots ≤ 18)%nat
  ∧ StronglySorted (λ s t, String.ltb s t = true) slots
  ∧ NoDup slots.
Proof.
  intros Hr. apply availableSlots_Ok in Hr as (-> & d & _ & ->).
  assert (Hsub : (if getDay d =? 0 then []
                  else freeSlots ((λ slot : ObjectId * Booking.t,
                                     Booking.appointmentTime slot.2)
                                  <$> find (bookedOn d) (bookings sv)))
                 `sublist_of` slotGrid).
  { destruct (getDay d =? 0); [apply sublist_nil_l|].
    rewrite freeSlots_filter. apply filter_sublist. }
  split; [done|]. split; [done|]. split; [|split].
  - apply sublist_length in Hsub. by rewrite slotGrid_eq in Hsub.
  - apply (StronglySorted_sublist _ _ _ Hsub). by_evaluation.
  - eapply sublist_NoDup; [|exact Hsub]. by_evaluation.
Qed.

(** X5: the reply of the availability route depends on the service only
    through its existence: with the same bookings, any two services that
    exist, in whatever state, give the same reply. *)
Theorem slots_ignore_the_service date service1 service2 sv1 sv2 :
  bookings sv1 = bookings sv2 →
  is_Some (services sv1 !! service1) →
  is_Some (services sv2 !! service2) →
  (availableSlots date (Some service1) sv1).2
  = (availableSlots date (Some service2) sv2).2.
Proof.
  intros Hb [s1 Hs1] [s2 Hs2]. unfold availableSlots. rewrite Hs1, Hs2, Hb.
  destruct (newDate date) as [d|]; [|done]. by destruct (getDay d =? 0).
Qed.

(** The booked times of a date after a booking is added under a free id. *)
Lemma bookedTimes_insert d (m : gmap ObjectId Booking.t) id b time :
  m !! id = None →
  time ∈ (λ slot : ObjectId * Booking.t, Booking.appointmentTime slot.2)
           <$> find (bookedOn d) (<[id := b]> m)
  ↔ (bookedOn d b = true ∧ Booking.appointmentTime b = time)
    ∨ time ∈ (λ slot : ObjectId * Booking.t, Booking.appointmentTime slot.2)
               <$> find (bookedOn d) m.
Proof.
  intros Hid. rewrite !elem_of_bookedTimes. split.
  - intros (id' & c & Hc & Hq & Ht). destruct (decide (id' = id)) as [->|Hne].
    + rewrite lookup_insert_eq in Hc. injection Hc as <-. by left.
    + rewrite lookup_insert_ne in Hc by done. right. by exists id', c.
  - intros [[Hq Ht]|(id' & c & Hc & Hq & Ht)].
    + exists id, b. by rewrite lookup_insert_eq.
    + exists id', c. split; [|done]. rewrite lookup_insert_ne; [done|congruence].
Qed.

(** X6: for every date, whether the route closes it or not, a booking that
    is created takes its own time, and no other, out of the slots the route
    lists for its date, and changes the slots of no other date; when its
    time is a string of the grid and the route does not take its date for a
    Sunday ([getDay], in the local time of the server, is not 0), that slot
    was listed before. *)
Theorem create_takes_one_slot env body sv sv' id b date d serviceId :
  createBooking env body sv = (sv', Ok (id, b)) →
  newDate date = Some d →
  is_Some (services sv !! serviceId) →
  ∃ before after,
    availableSlots date (Some serviceId) sv = (sv, Ok before)
    ∧ availableSlots date (Some serviceId) sv' = (sv', Ok after)
    ∧ after = List.filter
                (λ time, negb ((Booking.appointmentDate b =? d)
                               && String.eqb time (Booking.appointmentTime b)))
                before
    ∧ (getDay d ≠ 0 →
       Booking.appointmentDate b = d → Booking.appointmentTime b ∈ slotGrid →
       Booking.appointmentTime b ∈ before).
Proof.
  intros Hc Hd Hs.
  pose proof (createBooking_occupies env body sv sv' id b Hc)
    as (_ & Hpending & _ & _ & Hfree).
  apply createBooking_Ok in Hc as (service & date' & _ & _ & _ & Hid & Hb & Hbs & Hss).
  destruct (decide (getDay d = 0)) as [Hday|Hday].
  { exists [], []. split; [by apply (availableSlots_closed sv date d)|].
    split; [apply (availableSlots_closed sv' date d); [by rewrite Hss | done | done]|].
    split; done. }
  eexists _, _. split; [by apply availableSlots_open|].
  split; [apply availableSlots_open; [by rewrite Hss | done | done]|].
  rewrite Hbs. split.
  - rewrite !freeSlots_filter, filter_filter. apply filter_ext. intros time.
    apply eq_true_iff_eq.
    rewrite andb_true_iff, !negb_true_iff, !includes_false, andb_false_iff.
    rewrite (bookedTimes_insert d (bookings sv) id b time Hid).
    unfold bookedOn. rewrite andb_true_iff, Z.eqb_eq, Z.eqb_neq, String.eqb_neq.
    assert (Hact : Booking.active b = true) by (by apply active_spec; left).
    rewrite Hact. destruct (decide (Booking.appointmentDate b = d));
      destruct (decide (time = Booking.appointmentTime b)); intuition congruence.
  - intros _ Hdate Hgrid. rewrite elem_of_freeSlots. split; [done|].
    rewrite elem_of_bookedTimes. intros (id' & c & Hc & Hq & Ht).
    assert (Hne : id' ≠ id) by congruence.
    assert (Hc' : bookings sv' !! id' = Some c)
      by (rewrite Hbs; by rewrite lookup_insert_ne).
    specialize (Hfree id' c Hne Hc'). unfold conflicts in Hfree.
    unfold bookedOn in Hq. apply andb_true_iff in Hq as [Hq1 Hq2].
    rewrite Hdate, Hq1, Ht, String.eqb_refl, Hq2 in Hfree. done.
Qed.

End Slots.

(** ** Requests in a row *)

Section InARow.
Context `{Runtime}.

(** A pending or confirmed booking at the date and the trimmed time of a
    valid request for a service that exists: the reply is Conflict. *)
Lemma createBooking_conflict env body sv id b :
  validateBooking (now env) body = true →
  is_Some (services sv !! Body.service body) →
  bookings sv !! id = Some b →
  Booking.active b = true →
  newDate (Body.appointmentDate body) = Some (Booking.appointmentDate b) →
  Booking.appointmentTime b = Str.trim (Body.appointmentTime body) →
  createBooking env body sv = (sv, Fail Conflict).
Proof.
  intros Hv [service Hs] Hb Hact Hd Ht. unfold createBooking.
  rewrite Hv. simpl. rewrite Hs, Hd.
  destruct (findOne_is_Some
              (conflicts (Booking.appointmentDate b) (Str.trim (Body.appointmentTime body)))
              (bookings sv) id b Hb) as [hit Hhit].
  - unfold conflicts. by rewrite Z.eqb_refl, Ht, String.eqb_refl, Hact.
  - by rewrite Hhit.
Qed.

(** X7: the same request sent again after it was answered with a booking,
    while its date is still ahead, is answered with Conflict and writes
    nothing. *)
Theorem second_submission_conflicts env env' body sv sv' id b :
  createBooking env body sv = (sv', Ok (id, b)) →
  validateBooking (now env') body = true →
  createBooking env' body sv' = (sv', Fail Conflict).
Proof.
  intros Hc Hv.
  pose proof (createBooking_occupies env body sv sv' id b Hc)
    as (Hb & Hpending & Hd & Ht & _).
  apply createBooking_Ok in Hc as (service & date & Hs & _ & _ & _ & _ & _ & Hss).
  apply (createBooking_conflict env' body sv' id b); try done.
  - rewrite Hss. by eexists.
  - apply active_spec. by left.
Qed.

(** X8: once the booking of a request is cancelled, the same request, while
    its date is still ahead, is answered with a new booking when the store
    carries out the write under a free id and answers the [populate]; the
    document passes the validators of the schema as the first one did. *)
Theorem cancelled_slot_can_be_booked_again env1 env2 env3 body sv sv1 sv2 id b b2 :
  createBooking env1 body sv = (sv1, Ok (id, b)) →
  cancelBooking env2 id sv1 = (sv2, Ok b2) →
  validateBooking (now env3) body = true →
  writeOk env3 = true →
  populateOk env3 = true →
  bookings sv2 !! newId env3 = None →
  ∃ sv3 b3,
    createBooking env3 body sv2 = (sv3, Ok (newId env3, b3))
    ∧ bookings sv3 !! newId env3 = Some b3
    ∧ Booking.status b3 = "pending"
    ∧ (Booking.status <$> bookings sv3 !! id) = Some "cancelled".
Proof.
  intros Hc Hcancel Hv Hw Hp Hid.
  pose proof (createBooking_occupies env1 body sv sv1 id b Hc)
    as (Hb & _ & Hd & Ht & Hfree).
  pose proof (createBooking_Ok env1 body sv sv1 id b Hc)
    as (service & date & Hs & Hdate & _ & _ & _ & _ & Hss).
  pose proof (createBooking_Ok_valid env1 body sv sv1 id b service date Hc Hs Hdate)
    as Hvalid.
  assert (Hlt : now env3 < date).
  { unfold validateBooking, inFuture in Hv. rewrite !andb_true_iff, Hdate in Hv.
    apply Z.ltb_lt. tauto. }
  apply (validate_newBooking_clock _ (now env3)) in Hvalid; [|done].
  apply cancelBooking_Ok in Hcancel as (b0 & Hb0 & -> & ->).
  rewrite Hb in Hb0. injection Hb0 as <-. simpl in Hid.
  destruct (createBooking_stores env3 body
              (with_bookings
                 (<[id := Booking.pre_save (now env2) (Booking.set_status "cancelled" b)]>
                    (bookings sv1)) sv1) service date)
    as (sv3 & Hreply & Hbs & _ & _); try done.
  - simpl. by rewrite Hss.
  - simpl. intros id' c Hc' Hcdate Htime.
    destruct (decide (id' = id)) as [->|Hne].
    + rewrite lookup_insert_eq in Hc'. by injection Hc' as <-.
    + rewrite lookup_insert_ne in Hc' by done.
      specialize (Hfree id' c Hne Hc'). unfold conflicts in Hfree.
      rewrite Hdate in Hd. injection Hd as Hd.
      rewrite Hcdate, Hd, Z.eqb_refl, Htime, <- Ht, String.eqb_refl in Hfree. done.
  - rewrite Hp in Hreply.
    eexists sv3, _. split; [exact Hreply|]. rewrite Hbs. simpl.
    split; [apply lookup_insert_eq|]. split; [done|].
    destruct (decide (newId env3 = id)) as [Heq|Hne].
    + rewrite Heq in Hid. by rewrite lookup_insert_eq in Hid.
    + rewrite lookup_insert_ne by done. by rewrite lookup_insert_eq.
Qed.

(** X9: a slot that the availability route lists can be booked: a valid
    request for the date and a listed time passes the conflict check, and
    is answered with the booking when the write goes through under a free
    id (the document passes the validators of the schema and the store
    carries out the write) and the [populate] is answered. *)
Theorem listed_slot_can_be_booked env body serviceId sv slots service date :
  availableSlots (Body.appointmentDate body) (Some serviceId) sv = (sv, Ok slots) →
  Str.trim (Body.appointmentTime body) ∈ slots →
  validateBooking (now env) body = true →
  services sv !! Body.service body = Some service →
  newDate (Body.appointmentDate body) = Some date →
  Booking.validate (now env) (newBooking (now env) (sanitize body) service date)
  = true →
  writeOk env = true →
  populateOk env = true →
  bookings sv !! newId env = None →
  ∃ sv' b,
    createBooking env body sv = (sv', Ok (newId env, b))
    ∧ bookings sv' !! newId env = Some b
    ∧ Booking.appointmentTime b = Str.trim (Body.appointmentTime body).
Proof.
  intros Hslots Hin Hv Hs Hdate Hvalid Hw Hp Hid.
  apply availableSlots_Ok in Hslots as (_ & d & Hd & ->).
  rewrite Hdate in Hd. injection Hd as <-.
  destruct (getDay date =? 0); [by apply elem_of_nil in Hin|].
  apply elem_of_freeSlots in Hin as [_ Hfree].
  destruct (createBooking_stores env body sv service date)
    as (sv' & Hreply & Hbs & _ & _); try done.
  - intros id b Hb Hbdate Htime. destruct (Booking.active b) eqn:Hact; [|done].
    destruct Hfree. apply elem_of_bookedTimes. exists id, b.
    split; [done|]. split; [|done]. unfold bookedOn.
    by rewrite Hbdate, Z.eqb_refl, Hact.
  - rewrite Hp in Hreply.
    eexists sv', _. split; [exact Hreply|]. rewrite Hbs.
    split; [apply lookup_insert_eq | done].
Qed.

(** X10: on a date that the route does not take for a Sunday ([getDay], in
    the local time of the server, is not 0), a valid request for a time of
    the grid that the availability route does not list is answered with
    Conflict. *)
Theorem unlisted_slot_conflicts env body serviceId sv slots d :
  availableSlots (Body.appointmentDate body) (Some serviceId) sv = (sv, Ok slots) →
  newDate (Body.appointmentDate body) = Some d →
  getDay d ≠ 0 →
  Str.trim (Body.appointmentTime body) ∈ slotGrid →
  Str.trim (Body.appointmentTime body) ∉ slots →
  validateBooking (now env) body = true →
  is_Some (services sv !! Body.service body) →
  createBooking env body sv = (sv, Fail Conflict).
Proof.
  intros Hslots Hd Hday Hgrid Hout Hv Hs.
  apply availableSlots_Ok in Hslots as (_ & d' & Hd' & ->).
  rewrite Hd in Hd'. injection Hd' as <-.
  apply Z.eqb_neq in Hday. rewrite Hday in Hout.
  rewrite elem_of_freeSlots in Hout.
  destruct (decide (Str.trim (Body.appointmentTime body)
                    ∈ (λ slot : ObjectId * Booking.t, Booking.appointmentTime slot.2)
                        <$> find (bookedOn d) (bookings sv))) as [Hin|Hnin];
    [|by destruct Hout].
  apply elem_of_bookedTimes in Hin as (id & b & Hb & Hq & Ht).
  unfold bookedOn in Hq. apply andb_true_iff in Hq as [Hdate Hact].
  apply Z.eqb_eq in Hdate.
  apply (createBooking_conflict env body sv id b); try done. by rewrite Hdate.
Qed.

End InARow.

(** ** The time on a 12-hour clock *)

Lemma formattedTime_clock h m :
  0 ≤ h < 24 → 0 ≤ m < 60 →
  formattedTime (twoDigits h ++ ":" ++ twoDigits m) = Some (clock12 h m)
  ∧ (h < 10 → formattedTime (toString h ++ ":" ++ twoDigits m) = Some (clock12 h m)).
Proof.
  intros Hh Hm.
  assert (Hall : forallb (λ h, forallb (λ m,
             bool_decide (formattedTime (twoDigits h ++ ":" ++ twoDigits m)
                          = Some (clock12 h m))
             && ((10 <=? h)
                 || bool_decide (formattedTime (toString h ++ ":" ++ twoDigits m)
                                 = Some (clock12 h m))))
           (seqZ 0 60)) (seqZ 0 24) = true) by (vm_compute; reflexivity).
  rewrite forallb_forall in Hall.
  assert (Hin : In h (seqZ 0 24)) by (apply list_elem_of_In, elem_of_seqZ; lia).
  specialize (Hall h Hin). rewrite forallb_forall in Hall.
  assert (Hin' : In m (seqZ 0 60)) by (apply list_elem_of_In, elem_of_seqZ; lia).
  specialize (Hall m Hin'). apply andb_true_iff in Hall as [H1 H2].
  apply bool_decide_eq_true in H1. split; [done|]. intros Hlt.
  apply orb_true_iff in H2 as [H2|H2]; [apply Z.leb_le in H2; lia|].
  by apply bool_decide_eq_true in H2.
Qed.

(** X11: for every hour from 0 to 23 and minute from 0 to 59, the virtual
    [formattedTime] of a booking at HH:MM is the time on a 12-hour clock:
    the hour from 1 to 12 without leading zero, the two digits of the minute,
    and AM before noon, PM from noon on; an hour below ten written with one
    digit gives the same. *)
Theorem formattedTime_is_the_12_hour_clock h m :
  0 ≤ h < 24 → 0 ≤ m < 60 →
  formattedTime (twoDigits h ++ ":" ++ twoDigits m) = Some (clock12 h m)
  ∧ (h < 10 → formattedTime (toString h ++ ":" ++ twoDigits m) = Some (clock12 h m)).
Proof. apply formattedTime_clock. Qed.

(** X12: two different times HH:MM of the 24-hour clock never have the same
    [formattedTime]. *)
Theorem formattedTime_tells_times_apart t1 t2 :
  t1 ∈ spec_HHMM → t2 ∈ spec_HHMM →
  formattedTime t1 = formattedTime t2 → t1 = t2.
Proof.
  assert (Hall : forallb (λ t, bool_decide (clock24 (default "" (formattedTime t)) = t))
                   spec_HHMM = true) by (vm_compute; reflexivity).
  rewrite forallb_forall in Hall.
  intros H1%list_elem_of_In%Hall%bool_decide_eq_true
         H2%list_elem_of_In%Hall%bool_decide_eq_true Heq.
  by rewrite <- H1, <- H2, Heq.
Qed.

Section Alias.
Context `{Runtime}.

(** X13: an hour below ten written with one digit is not the time of the
    booking that holds the same slot written with two: the request passes the
    conflict check, and, when its document passes the validators of the
    schema, the store carries out the write and answers the [populate], the
    store then holds two pending or confirmed bookings on the same date
    whose [formattedTime] is the same. *)
Theorem one_digit_hour_books_a_taken_slot env body sv service id0 b0 h m :
  0 ≤ h < 10 → 0 ≤ m < 60 →
  Str.trim (Body.appointmentTime body) = (toString h ++ ":" ++ twoDigits m)%string →
  bookings sv !! id0 = Some b0 →
  Booking.active b0 = true →
  Booking.appointmentTime b0 = (twoDigits h ++ ":" ++ twoDigits m)%string →
  newDate (Body.appointmentDate body) = Some (Booking.appointmentDate b0) →
  validateBooking (now env) body = true →
  services sv !! Body.service body = Some service →
  (∀ id c, bookings sv !! id = Some c →
           Booking.appointmentDate c = Booking.appointmentDate b0 →
           Booking.appointmentTime c = Str.trim (Body.appointmentTime body) →
           Booking.active c = false) →
  Booking.validate (now env)
    (newBooking (now env) (sanitize body) service (Booking.appointmentDate b0))
  = true →
  writeOk env = true →
  populateOk env = true →
  bookings sv !! newId env = None →
  ∃ sv' b,
    createBooking env body sv = (sv', Ok (newId env, b))
    ∧ bookings sv' !! id0 = Some b0
    ∧ bookings sv' !! newId env = Some b
    ∧ Booking.active b = true
    ∧ Booking.appointmentDate b = Booking.appointmentDate b0
    ∧ Booking.appointmentTime b ≠ Booking.appointmentTime b0
    ∧ formattedTime (Booking.appointmentTime b)
      = formattedTime (Booking.appointmentTime b0).
Proof.
  intros Hh Hm Ht Hb0 Hact0 Ht0 Hd Hv Hs Hfree Hvalid Hw Hp Hid.
  destruct (createBooking_stores env body sv service (Booking.appointmentDate b0))
    as (sv' & Hreply & Hbs & _ & _); try done.
  rewrite Hp in Hreply.
  eexists sv', _. split; [exact Hreply|]. rewrite Hbs. simpl.
  split; [rewrite lookup_insert_ne; [done | congruence]|].
  split; [apply lookup_insert_eq|]. split; [done|]. split; [done|].
  rewrite Ht, Ht0.
  destruct (formattedTime_clock h m) as [Hlong Hshort]; [lia | lia |].
  split; [|by rewrite Hlong, Hshort by lia].
  intros Heq. apply (f_equal String.length) in Heq.
  assert (Hlen : forallb (λ h, forallb (λ m,
             negb (String.length (toString h ++ ":" ++ twoDigits m)
                   =? String.length (twoDigits h ++ ":" ++ twoDigits m))%nat)
           (seqZ 0 60)) (seqZ 0 10) = true) by (vm_compute; reflexivity).
  rewrite forallb_forall in Hlen.
  assert (Hin : In h (seqZ 0 10)) by (apply list_elem_of_In, elem_of_seqZ; lia).
  specialize (Hlen h Hin). rewrite forallb_forall in Hlen.
  assert (Hin' : In m (seqZ 0 60)) by (apply list_elem_of_In, elem_of_seqZ; lia).
  specialize (Hlen m Hin'). apply negb_true_iff, Nat.eqb_neq in Hlen. done.
Qed.

End Alias.

(** ** The counts of the dashboard *)

Lemma List_filter_Permutation {A} (p : A → bool) (l1 l2 : list A) :
  l1 ≡ₚ l2 → List.filter p l1 ≡ₚ List.filter p l2.
Proof.
  induction 1 as [|x l1 l2 _ IH|x y l|l1 l2 l3 _ IH1 _ IH2]; simpl.
  - done.
  - destruct (p x); [by constructor | done].
  - destruct (p x), (p y); try done. constructor.
  - by etransitivity.
Qed.

(** The count of a query after a document is added under a free id. *)
Lemma countWhere_insert_new q (m : gmap ObjectId Booking.t) id b :
  m !! id = None →
  countWhere q (<[id := b]> m) = countWhere q m + (if q b then 1 else 0).
Proof.
  intros Hid. unfold countWhere, find.
  rewrite (Permutation_length
             (List_filter_Permutation (λ kv : ObjectId * Booking.t, q kv.2) _ _
                (map_to_list_insert m id b Hid))).
  simpl. destruct (q b); simpl; lia.
Qed.

(** The count of a query after the document of an id is replaced. *)
Lemma countWhere_insert_old q (m : gmap ObjectId Booking.t) id b b' :
  m !! id = Some b →
  countWhere q (<[id := b']> m)
  = countWhere q m - (if q b then 1 else 0) + (if q b' then 1 else 0).
Proof.
  intros Hb. rewrite <- (insert_delete_eq m id b').
  rewrite countWhere_insert_new by apply lookup_delete_eq.
  assert (Hm : countWhere q m = countWhere q (delete id m) + (if q b then 1 else 0)).
  { rewrite <- (insert_id m id b Hb) at 1. rewrite <- insert_delete_eq.
    apply countWhere_insert_new, lookup_delete_eq. }
  lia.
Qed.

Lemma length_by_status (l : list (ObjectId * Booking.t)) :
  (∀ kv, kv ∈ l → Booking.status kv.2 ∈ validStatuses) →
  length l
  = (length (List.filter (λ kv, hasStatus "pending" kv.2) l)
     + length (List.filter (λ kv, hasStatus "confirmed" kv.2) l)
     + length (List.filter (λ kv, hasStatus "completed" kv.2) l)
     + length (List.filter (λ kv, hasStatus "cancelled" kv.2) l))%nat.
Proof.
  induction l as [|kv l IH]; intros Hall; [done|]. simpl.
  rewrite IH by (intros kv' Hin; apply Hall; by right).
  assert (Hst : Booking.status kv.2 ∈ validStatuses) by (apply Hall; by left).
  unfold validStatuses in Hst. rewrite !elem_of_cons, elem_of_nil in Hst.
  unfold hasStatus.
  destruct Hst as [->|[->|[->|[->|[]]]]]; simpl; lia.
Qed.

(** X14: in a store whose statuses are those of the schema, the total of
    [getStats] is the sum of its counts of pending, confirmed and completed
    bookings and of the number of cancelled ones, which it does not give. *)
Theorem getStats_total_by_status sv :
  statuses_are_valid sv →
  Stats.total (getStats (bookings sv))
  = Stats.pending (getStats (bookings sv))
    + Stats.confirmed (getStats (bookings sv))
    + Stats.completed (getStats (bookings sv))
    + countWhere (hasStatus "cancelled") (bookings sv)
  ∧ Stats.total (getStats (bookings sv)) = Z.of_nat (size (bookings sv)).
Proof.
  intros Hinv. unfold getStats, countWhere, find. simpl. split.
  - assert (Hall : List.filter (λ _ : ObjectId * Booking.t, true)
                               (map_to_list (bookings sv))
                   = map_to_list (bookings sv))
      by (apply forallb_filter_id, forallb_forall; done).
    rewrite Hall. rewrite (length_by_status (map_to_list (bookings sv))).
    + lia.
    + intros [id b] Hin. apply elem_of_map_to_list in Hin. by apply (Hinv id).
  - f_equal. rewrite forallb_filter_id by (apply forallb_forall; done).
    apply length_map_to_list.
Qed.

Section Dashboard.
Context `{Runtime}.

(** X15: a booking that is created adds one to the total and to the pending
    count of [getStats] and leaves the other counts; a booking that is
    cancelled leaves the total and the completed count, and takes one from
    the count of the status it had. *)
Theorem getStats_after_create_and_cancel env sv sv' :
  (∀ body id b,
     createBooking env body sv = (sv', Ok (id, b)) →
     getStats (bookings sv')
     = Stats.mk (Stats.total (getStats (bookings sv)) + 1)
                (Stats.pending (getStats (bookings sv)) + 1)
                (Stats.confirmed (getStats (bookings sv)))
                (Stats.completed (getStats (bookings sv))))
  ∧ (∀ id b b',
       bookings sv !! id = Some b →
       cancelBooking env id sv = (sv', Ok b') →
       getStats (bookings sv')
       = Stats.mk (Stats.total (getStats (bookings sv)))
                  (Stats.pending (getStats (bookings sv))
                   - (if hasStatus "pending" b then 1 else 0))
                  (Stats.confirmed (getStats (bookings sv))
                   - (if hasStatus "confirmed" b then 1 else 0))
                  (Stats.completed (getStats (bookings sv)))).
Proof.
  split.
  - intros body id b Hc.
    apply createBooking_Ok in Hc as (service & date & _ & _ & _ & Hid & -> & -> & _).
    unfold getStats. simpl. rewrite !countWhere_insert_new by done. simpl.
    f_equal; lia.
  - intros id b b' Hb Hc. unfold cancelBooking, findById, save in Hc.
    rewrite Hb in Hc.
    destruct (String.eqb (Booking.status b) "cancelled") eqn:E1; [done|].
    destruct (String.eqb (Booking.status b) "completed") eqn:E2; [done|].
    destruct (Booking.validate _ _); [|done].
    destruct (writeOk env); [|done]. simpl in Hc. injection Hc as <- <-.
    unfold getStats. simpl.
    rewrite !(countWhere_insert_old _ (bookings sv) id b _ Hb).
    unfold hasStatus. simpl. rewrite E2. f_equal; lia.
Qed.

End Dashboard.

(** ** The services *)

Lemma nameTaken_false id name (m : gmap ObjectId Service.t) :
  nameTaken id name m = false
  ↔ ∀ id' s, m !! id' = Some s → id' ≠ id → Service.name s ≠ name.
Proof.
  unfold nameTaken. split.
  - intros Hno id' s Hs Hne Hname.
    assert (Hex : existsb (λ kv : ObjectId * Service.t,
                             negb (kv.1 =? id)%N && String.eqb (Service.name kv.2) name)
                          (map_to_list m) = true).
    { apply existsb_exists. exists (id', s). split.
      - by apply list_elem_of_In, elem_of_map_to_list.
      - simpl. apply N.eqb_neq in Hne. rewrite Hne, Hname, String.eqb_refl. done. }
    congruence.
  - intros Hall. apply not_true_is_false. intros Hex.
    apply existsb_exists in Hex as ([id' s] & Hin & Hq). simpl in Hq.
    apply list_elem_of_In, elem_of_map_to_list in Hin.
    apply andb_true_iff in Hq as [Hne Hname].
    apply negb_true_iff, N.eqb_neq in Hne. apply String.eqb_eq in Hname.
    by apply (Hall id' s).
Qed.

(** A service is written under an id with a name no other service has. *)
Lemma names_are_unique_insert sv id s :
  names_are_unique sv →
  (∀ id' s', services sv !! id' = Some s' → id' ≠ id →
             Service.name s' ≠ Service.name s) →
  names_are_unique (with_services (<[id := s]> (services sv)) sv).
Proof.
  intros Hinv Hfree id1 id2 s1 s2. simpl.
  destruct (decide (id1 = id)) as [->|Hne1]; destruct (decide (id2 = id)) as [->|Hne2];
    rewrite ?lookup_insert_eq, ?lookup_insert_ne by done; try done.
  - intros [= <-] Hs2 Hname. destruct (Hfree id2 s2 Hs2 Hne2). done.
  - intros Hs1 [= <-] Hname. destruct (Hfree id1 s1 Hs1 Hne1). done.
  - apply Hinv.
Qed.

(** What a toggle stores when it answers with the service. *)
Lemma toggleAvailability_Ok env id sv sv' s' :
  toggleAvailability env id sv = (sv', Ok s') →
  ∃ s, services sv !! id = Some s
       ∧ s' = Service.pre_save (now env)
                (Service.set_available (negb (Service.available s)) s)
       ∧ sv' = with_services (<[id := s']> (services sv)) sv.
Proof.
  unfold toggleAvailability, saveService. intros Ht.
  destruct (services sv !! id) as [s|]; [|done].
  destruct (Service.validate _); [|done].
  destruct (writeOk env); [|done]. injection Ht as <- <-. by exists s.
Qed.

Lemma togglePopularity_Ok env id sv sv' s' :
  togglePopularity env id sv = (sv', Ok s') →
  ∃ s, services sv !! id = Some s
       ∧ s' = Service.pre_save (now env)
                (Service.set_popular (negb (Service.popular s)) s)
       ∧ sv' = with_services (<[id := s']> (services sv)) sv.
Proof.
  unfold togglePopularity, saveService. intros Ht.
  destruct (services sv !! id) as [s|]; [|done].
  destruct (Service.validate _); [|done].
  destruct (writeOk env); [|done]. injection Ht as <- <-. by exists s.
Qed.

(** X16: the routes that create, update, delete and toggle a service keep
    the names of the services distinct. *)
Theorem service_names_stay_unique env sv :
  names_are_unique sv →
  (∀ body, names_are_unique (createService env body sv).1)
  ∧ (∀ id body, names_are_unique (updateService env id body sv).1)
  ∧ (∀ id, names_are_unique (deleteService env id sv).1)
  ∧ (∀ id, names_are_unique (toggleAvailability env id sv).1)
  ∧ (∀ id, names_are_unique (togglePopularity env id sv).1).
Proof.
  intros Hinv. repeat split.
  - intros body. unfold createService.
    destruct (validateService body); [|done]. simpl.
    destruct (Service.validate _ && writeOk env); [|done].
    destruct (services sv !! newId env) eqn:Hid; [done|].
    destruct (nameTaken _ _ _) eqn:Htaken; [done|]. simpl.
    apply names_are_unique_insert; [done|].
    by apply nameTaken_false.
  - intros id body. unfold updateService.
    destruct (validateService body); [|done]. simpl.
    destruct (Service.validate _); [|done]. simpl.
    destruct (services sv !! id) eqn:Hid; [|done].
    destruct (nameTaken _ _ _) eqn:Htaken; [done|].
    destruct (writeOk env); [|done]. simpl.
    apply names_are_unique_insert; [done|].
    by apply nameTaken_false.
  - intros id. unfold deleteService.
    destruct (services sv !! id) eqn:Hid; [|done].
    destruct (writeOk env); [|done]. simpl.
    intros id1 id2 s1 s2. simpl. rewrite !lookup_delete_Some.
    intros [_ Hs1] [_ Hs2]. by apply Hinv.
  - intros id. unfold toggleAvailability, saveService.
    destruct (services sv !! id) as [s|] eqn:Hid; [|done].
    destruct (Service.validate _); [|done].
    destruct (writeOk env); [|done]. simpl.
    apply names_are_unique_insert; [done|]. simpl.
    intros id' s' Hs' Hne Hname. destruct Hne. by apply (Hinv id' id s' s).
  - intros id. unfold togglePopularity, saveService.
    destruct (services sv !! id) as [s|] eqn:Hid; [|done].
    destruct (Service.validate _); [|done].
    destruct (writeOk env); [|done]. simpl.
    apply names_are_unique_insert; [done|]. simpl.
    intros id' s' Hs' Hne Hname. destruct Hne. by apply (Hinv id' id s' s).
Qed.

(** X17: toggling the availability of a service twice, or its popularity
    twice, gives back the service with every field as it was but the date of
    its last update, which is the clock of the second toggle; no other
    service and no booking is touched. *)
Theorem toggles_undo_each_other env env' id sv sv1 sv2 s1 s2 :
  (toggleAvailability env id sv = (sv1, Ok s1) →
   toggleAvailability env' id sv1 = (sv2, Ok s2) →
   ∃ s, services sv !! id = Some s
        ∧ s2 = Service.pre_save (now env') s
        ∧ services sv2 = <[id := s2]> (services sv)
        ∧ bookings sv2 = bookings sv
        ∧ Service.available s1 = negb (Service.available s))
  ∧ (togglePopularity env id sv = (sv1, Ok s1) →
     togglePopularity env' id sv1 = (sv2, Ok s2) →
     ∃ s, services sv !! id = Some s
          ∧ s2 = Service.pre_save (now env') s
          ∧ services sv2 = <[id := s2]> (services sv)
          ∧ bookings sv2 = bookings sv
          ∧ Service.popular s1 = negb (Service.popular s)).
Proof.
  split; intros H1 H2.
  - apply toggleAvailability_Ok in H1 as (s & Hs & -> & ->).
    apply toggleAvailability_Ok in H2 as (s' & Hs' & -> & ->).
    simpl in Hs'. rewrite lookup_insert_eq in Hs'. injection Hs' as <-.
    exists s. simpl. rewrite insert_insert_eq.
    destruct s as [? ? ? ? ? ? ? a ? ?]. unfold Service.pre_save. simpl.
    rewrite negb_involutive. done.
  - apply togglePopularity_Ok in H1 as (s & Hs & -> & ->).
    apply togglePopularity_Ok in H2 as (s' & Hs' & -> & ->).
    simpl in Hs'. rewrite lookup_insert_eq in Hs'. injection Hs' as <-.
    exists s. simpl. rewrite insert_insert_eq.
    destruct s as [? ? ? ? ? ? p ? ? ?]. unfold Service.pre_save. simpl.
    rewrite negb_involutive. done.
Qed.

Section Flags.
Context `{Runtime}.

(** The reply to a request depends on the server through the bookings and
    through the name, the price, the duration and the category of the
    service asked for. *)
Lemma createBooking_reply_ext env body sv1 sv2 :
  bookings sv1 = bookings sv2 →
  ((λ s, (Service.name s, Service.price s, Service.duration s, Service.category s))
     <$> services sv1 !! Body.service body)
  = ((λ s, (Service.name s, Service.price s, Service.duration s, Service.category s))
       <$> services sv2 !! Body.service body) →
  (createBooking env body sv1).2 = (createBooking env body sv2).2.
Proof.
  intros Hb Hs. unfold createBooking.
  destruct (validateBooking (now env) body); [|done]. simpl. rewrite Hb.
  destruct (services sv1 !! Body.service body) as [s1|];
    destruct (services sv2 !! Body.service body) as [s2|]; simpl in Hs; try done.
  injection Hs as Hname Hprice Hduration Hcategory.
  destruct (newDate (Body.appointmentDate body)) as [date|]; [|done].
  destruct (findOne _ _); [done|].
  assert (Hnew : newBooking (now env) (sanitize body) s1 date
                 = newBooking (now env) (sanitize body) s2 date).
  { unfold newBooking. by rewrite Hname, Hprice, Hduration, Hcategory. }
  rewrite Hnew. unfold save, sendBookingConfirmation.
  repeat case_match; simplify_eq; done.
Qed.

(** X18: the route that creates a booking looks at neither flag of the
    service: after a toggle of availability or popularity its reply to a
    request is what it was before, so a service that is not available is
    booked like any other. *)
Theorem create_ignores_the_flags env0 id sv env body :
  (createBooking env body (toggleAvailability env0 id sv).1).2
  = (createBooking env body sv).2
  ∧ (createBooking env body (togglePopularity env0 id sv).1).2
    = (createBooking env body sv).2.
Proof.
  split; apply createBooking_reply_ext;
    unfold toggleAvailability, togglePopularity, saveService;
    destruct (services sv !! id) as [s|] eqn:Hs; try done;
    destruct (Service.validate _); simpl; try done;
    destruct (writeOk env0); simpl; try done;
    (destruct (decide (id = Body.service body)) as [->|Hne];
     [by rewrite lookup_insert_eq, Hs | by rewrite lookup_insert_ne]).
Qed.

(** X19: a booking that was just created is read back by its id as it was
    returned, with the service fields that were snapshotted. *)
Theorem created_booking_is_read_back env body sv sv' id b :
  createBooking env body sv = (sv', Ok (id, b)) →
  ∃ service,
    getBooking id sv' = (sv', Ok (b, Some service))
    ∧ Populated.name service = Booking.serviceName b
    ∧ Populated.price service = Booking.servicePrice b
    ∧ Populated.duration service = Booking.serviceDuration b
    ∧ Populated.category service = Booking.serviceCategory b.
Proof.
  intros Hc.
  apply createBooking_Ok in Hc as (service & date & Hs & _ & _ & _ & -> & Hbs & Hss).
  unfold getBooking, findById, populate. rewrite Hbs, lookup_insert_eq, Hss.
  simpl. rewrite Hs. simpl. eexists. split; [done|]. done.
Qed.

End Flags.

(** X20: once its service is deleted, a booking is still read by its id,
    unchanged, with [null] in the place of the service. *)
Theorem booking_outlives_its_service env serviceId sv sv' service id b :
  deleteService env serviceId sv = (sv', Ok service) →
  bookings sv !! id = Some b →
  Booking.service b = serviceId →
  getBooking id sv' = (sv', Ok (b, None)).
Proof.
  unfold deleteService, getBooking, findById, populate. intros Hd Hb Hs.
  destruct (services sv !! serviceId); [|done].
  destruct (writeOk env); [|done]. injection Hd as <- <-. simpl.
  by rewrite Hb, Hs, lookup_delete_eq.
Qed.

(** ** The list of bookings *)

Lemma Sorted_drop {A} (R : relation A) (n : nat) (l : list A) :
  Sorted R l → Sorted R (drop n l).
Proof.
  revert l. induction n as [|n IH]; intros l Hs; [done|].
  destruct l as [|x l]; [done|]. simpl. apply IH. by apply Sorted_inv in Hs as [? _].
Qed.

Lemma Sorted_take {A} (R : relation A) (n : nat) (l : list A) :
  Sorted R l → Sorted R (take n l).
Proof.
  revert n. induction l as [|x l IH]; intros n Hs; [by destruct n|].
  destruct n as [|n]; [constructor|]. simpl.
  apply Sorted_inv in Hs as [Hs Hhd]. constructor; [by apply IH|].
  destruct l as [|y l]; [destruct n; constructor|].
  destruct n as [|n]; [constructor|]. simpl. constructor.
  by apply HdRel_inv in Hhd.
Qed.

Lemma dateThenTime_total (x y : ObjectId * Booking.t) :
  dateThenTime x y = true ∨ dateThenTime y x = true.
Proof.
  unfold dateThenTime.
  destruct (Z.lt_trichotomy (Booking.appointmentDate x.2) (Booking.appointmentDate y.2))
    as [Hlt|[Heq|Hgt]].
  - left. apply Z.ltb_lt in Hlt. by rewrite Hlt.
  - rewrite Heq, Z.eqb_refl, Z.ltb_irrefl. simpl.
    apply String.leb_total.
  - right. apply Z.ltb_lt in Hgt. by rewrite Hgt.
Qed.

Lemma ceilDiv_bounds (total limit : Z) :
  0 < limit →
  (ceilDiv total limit - 1) * limit < total ≤ ceilDiv total limit * limit.
Proof.
  intros Hl. unfold ceilDiv.
  pose proof (Z.div_mod (total + limit - 1) limit ltac:(lia)) as Hdm.
  pose proof (Z.mod_pos_bound (total + limit - 1) limit Hl) as Hmod.
  nia.
Qed.

Section Lists.
Context `{Runtime} `{Calendar} `{Sorter}.

(** What a reply of the list route is made of. *)
Lemma listBookings_Ok q sv sv' page :
  listBookings q sv = (sv', Ok page) →
  ∃ day,
    sv' = sv
    ∧ match ListQuery.date q with
      | Some date =>
          if String.eqb date "" then day = None
          else ∃ startDate, newDate date = Some startDate
                            ∧ day = Some (startDate, addDays startDate 1)
      | None => day = None
      end
    ∧ page
      = Listing.mk
          ((λ kv, (kv, populate false sv kv.2))
             <$> take (Pos.to_nat (default 10%positive (ListQuery.limit q)))
                   (drop ((Pos.to_nat (default 1%positive (ListQuery.page q)) - 1)
                          * Pos.to_nat (default 10%positive (ListQuery.limit q)))
                         (sortBy dateThenTime
                            (find (listFilter (ListQuery.status q) day) (bookings sv)))))
          (ceilDiv (Z.of_nat (length (find (listFilter (ListQuery.status q) day)
                                           (bookings sv))))
                   (Z.pos (default 10%positive (ListQuery.limit q))))
          (default 1%positive (ListQuery.page q))
          (Z.of_nat (length (find (listFilter (ListQuery.status q) day) (bookings sv)))).
Proof.
  unfold listBookings. intros Hr.
  destruct (ListQuery.date q) as [date|].
  - destruct (String.eqb date "").
    + injection Hr as <- <-. by exists None.
    + destruct (newDate date) as [startDate|]; [|done].
      injection Hr as <- <-. eexists. split; [done|]. split; [|done]. eauto.
  - injection Hr as <- <-. by exists None.
Qed.

(** X21: a reply of the list route leaves the server as it was; its page
    has at most [limit] entries (10 without one); every entry is a booking of
    the store with the fields of its service, has the status asked for when
    one is, and a date from the start of the day asked for to before the
    start of the next when one is; and the entries are in the order of date,
    then time. *)
Theorem listed_bookings_match_the_query q sv sv' page :
  listBookings q sv = (sv', Ok page) →
  sv' = sv
  ∧ (length (Listing.bookings page)
     ≤ Pos.to_nat (default 10%positive (ListQuery.limit q)))%nat
  ∧ (∀ id b service,
       (id, b, service) ∈ Listing.bookings page →
       bookings sv !! id = Some b
       ∧ service = populate false sv b
       ∧ (∀ st, ListQuery.status q = Some st → st ≠ "" → Booking.status b = st)
       ∧ (∀ date startDate,
            ListQuery.date q = Some date → date ≠ "" →
            newDate date = Some startDate →
            startDate ≤ Booking.appointmentDate b < addDays startDate 1))
  ∧ Sorted (λ x y, dateThenTime x.1 y.1 = true) (Listing.bookings page).
Proof.
  intros Hr. apply listBookings_Ok in Hr as (day & -> & Hday & ->). simpl.
  split; [done|]. split; [|split].
  - rewrite length_fmap, length_take. lia.
  - intros id b service Hin.
    apply list_elem_of_fmap in Hin as ([id' b'] & [= -> -> ->] & Hin).
    pose proof (elem_of_sublist _ _ _ Hin (sublist_take _ _)) as Hin1.
    pose proof (elem_of_sublist _ _ _ Hin1 (sublist_drop _ _)) as Hin2.
    rewrite (sortBy_Permutation _ dateThenTime) in Hin2.
    apply elem_of_find in Hin2 as [Hb Hq]. split; [done|]. split; [done|].
    unfold listFilter in Hq. apply andb_true_iff in Hq as [Hst Hrange]. split.
    + intros st Hq Hne. rewrite Hq in Hst. apply String.eqb_neq in Hne.
      rewrite Hne in Hst. by apply String.eqb_eq in Hst.
    + intros date startDate Hq Hne Hd. rewrite Hq in Hday.
      apply String.eqb_neq in Hne. rewrite Hne in Hday.
      destruct Hday as (start' & Hd' & ->). rewrite Hd in Hd'. injection Hd' as <-.
      apply andb_true_iff in Hrange as [Hlo Hhi].
      apply Z.leb_le in Hlo. apply Z.ltb_lt in Hhi. done.
  - apply Sorted_fmap with (R1 := λ x y, dateThenTime x y = true); [done|].
    apply Sorted_take, Sorted_drop, sortBy_Sorted, dateThenTime_total.
Qed.

(** X22: the total of a reply of the list route is the number of bookings
    that match the query, whatever the page; the bookings fill
    [totalPages] pages and no fewer; the page holds what is left after the
    pages before it, up to [limit], and nothing beyond the last page. *)
Theorem pages_cover_the_matches q sv sv' page :
  listBookings q sv = (sv', Ok page) →
  let limit := Z.pos (default 10%positive (ListQuery.limit q)) in
  let number := Z.pos (default 1%positive (ListQuery.page q)) in
  0 ≤ Listing.total page
  ∧ (Listing.totalPages page - 1) * limit < Listing.total page
    ≤ Listing.totalPages page * limit
  ∧ Z.of_nat (length (Listing.bookings page))
    = Z.min limit (Z.max 0 (Listing.total page - (number - 1) * limit))
  ∧ (Listing.totalPages page < number → Listing.bookings page = []).
Proof.
  intros Hr limit number. apply listBookings_Ok in Hr as (day & -> & Hday & ->).
  simpl. fold limit.
  pose proof (ceilDiv_bounds
                (Z.of_nat (length (find (listFilter (ListQuery.status q) day)
                                        (bookings sv)))) limit ltac:(done)) as Hb.
  assert (Hlen : Z.of_nat
                   (length
                      ((λ kv : ObjectId * Booking.t, (kv, populate false sv kv.2))
                         <$> take (Pos.to_nat (default 10%positive (ListQuery.limit q)))
                               (drop ((Pos.to_nat (default 1%positive (ListQuery.page q)) - 1)
                                      * Pos.to_nat (default 10%positive (ListQuery.limit q)))
                                     (sortBy dateThenTime
                                        (find (listFilter (ListQuery.status q) day)
                                              (bookings sv))))))
                 = Z.min limit
                     (Z.max 0
                        (Z.of_nat (length (find (listFilter (ListQuery.status q) day)
                                                (bookings sv)))
                         - (number - 1) * limit))).
  { rewrite length_fmap, length_take, length_drop.
    rewrite (Permutation_length (sortBy_Permutation _ dateThenTime _)).
    unfold limit, number. nia. }
  split; [lia|]. split; [done|]. split; [done|].
  intros Hlast. apply nil_length_inv. nia.
Qed.

(** X23: the availability route and the conflict check compare the date of
    a booking with the date asked for as instants: a booking at another
    instant, of the same day or not, takes no slot from the date and lets
    every request for the date through as if it were not there. *)
Theorem other_instants_take_no_slot sv id b d :
  Booking.appointmentDate b ≠ d →
  (∀ date serviceId,
     newDate date = Some d →
     (availableSlots date serviceId (with_bookings (<[id := b]> (bookings sv)) sv)).2
     = (availableSlots date serviceId (with_bookings (delete id (bookings sv)) sv)).2)
  ∧ (∀ env body,
       newDate (Body.appointmentDate body) = Some d →
       newId env ≠ id →
       (createBooking env body (with_bookings (<[id := b]> (bookings sv)) sv)).2
       = (createBooking env body (with_bookings (delete id (bookings sv)) sv)).2).
Proof.
  intros Hother. split.
  - intros date serviceId Hd. unfold availableSlots. simpl.
    destruct serviceId as [serviceId|]; [|done].
    destruct (services sv !! serviceId); [|done]. rewrite Hd.
    destruct (getDay d =? 0); [done|]. simpl. apply (f_equal Ok).
    apply freeSlots_ext. intros time _. rewrite !elem_of_bookedTimes.
    split; intros (id' & c & Hc & Hq & Ht); exists id', c.
    + destruct (decide (id = id')) as [<-|Hne].
      * rewrite lookup_insert_eq in Hc. injection Hc as <-.
        unfold bookedOn in Hq. apply andb_true_iff in Hq as [Hq _].
        by apply Z.eqb_eq in Hq.
      * rewrite lookup_insert_ne in Hc by done. by rewrite lookup_delete_ne.
    + destruct (decide (id = id')) as [<-|Hne].
      * by rewrite lookup_delete_eq in Hc.
      * rewrite lookup_delete_ne in Hc by done. by rewrite lookup_insert_ne.
  - intros env body Hd Hid. unfold createBooking.
    destruct (validateBooking (now env) body); [|done]. simpl.
    destruct (services sv !! Body.service body); [|done]. rewrite Hd.
    assert (Hsame : ∀ q : Booking.t → bool,
              q b = false →
              findOne q (<[id := b]> (bookings sv)) = None
              ↔ findOne q (delete id (bookings sv)) = None).
    { intros q Hq. rewrite !findOne_None. split; intros Hall id' c Hc.
      - apply lookup_delete_Some in Hc as [Hne Hc].
        apply (Hall id'). by rewrite lookup_insert_ne.
      - destruct (decide (id = id')) as [<-|Hne].
        + rewrite lookup_insert_eq in Hc. by injection Hc as <-.
        + rewrite lookup_insert_ne in Hc by done.
          apply (Hall id'). by rewrite lookup_delete_ne. }
    assert (Hq : conflicts d (Str.trim (Body.appointmentTime body)) b = false).
    { unfold conflicts. apply Z.eqb_neq in Hother. by rewrite Hother. }
    specialize (Hsame _ Hq).
    destruct (findOne _ (<[id := b]> (bookings sv))) eqn:E1;
      destruct (findOne _ (delete id (bookings sv))) eqn:E2; try done.
    + destruct Hsame as [_ Hsame]. by specialize (Hsame eq_refl).
    + destruct Hsame as [Hsame _]. by specialize (Hsame eq_refl).
    + unfold save, sendBookingConfirmation.
      rewrite lookup_insert_ne, lookup_delete_ne by done.
      repeat case_match; simplify_eq; done.
Qed.

End Lists.

(** ** The gate of the admin routes *)

Lemma split_no_separator sep s :
  countChar sep s = 0%nat → Js.split sep s = [s].
Proof.
  induction s as [|c s IH]; simpl; [done|].
  destruct (Ascii.eqb c sep); [done|]. intros Hc. by rewrite IH.
Qed.

Lemma split_first sep s rest :
  countChar sep s = 0%nat →
  Js.split sep (s ++ String sep rest) = s :: Js.split sep rest.
Proof.
  induction s as [|c s IH]; simpl.
  - by rewrite Ascii.eqb_refl.
  - destruct (Ascii.eqb c sep); [done|]. intros Hc. by rewrite IH.
Qed.

(** X24: the admin routes run exactly for a request whose [Authorization]
    header has, after its first space, a part that is not empty and that
    [jwt.verify] accepts with the role admin; every other request is
    answered with 401 or 403.  The word before the space is not looked at:
    with any word that has no space the answer is the same. *)
Theorem admin_gate_lets_admins_through verify authorization :
  (adminGate verify authorization = Next
   ↔ ∃ header token,
       authorization = Some header
       ∧ Js.split " " header !! 1%nat = Some token
       ∧ token ≠ ""
       ∧ verify token = Some (Some "admin"))
  ∧ (∀ code error, adminGate verify authorization = Deny code error →
                   code = 401 ∨ code = 403)
  ∧ (∀ word1 word2 rest,
       countChar " " word1 = 0%nat → countChar " " word2 = 0%nat →
       adminGate verify (Some (word1 ++ String " " rest)%string)
       = adminGate verify (Some (word2 ++ String " " rest)%string)).
Proof.
  split; [|split].
  - unfold adminGate, authenticateToken, requireAdmin. split.
    + destruct authorization as [header|]; [|done].
      destruct (String.eqb header "") eqn:He; [done|].
      destruct (Js.split " " header !! 1%nat) as [token|] eqn:Ht; [|done].
      destruct (String.eqb token "") eqn:Hn; [done|].
      destruct (verify token) as [[role|]|] eqn:Hv; try done.
      destruct (String.eqb role "admin") eqn:Hr; [|done].
      intros _. exists header, token. apply String.eqb_neq in Hn.
      apply String.eqb_eq in Hr. by subst role.
    + intros (header & token & -> & Ht & Hn & Hv).
      destruct (String.eqb header "") eqn:He.
      * apply String.eqb_eq in He. by subst header.
      * rewrite Ht. apply String.eqb_neq in Hn. by rewrite Hn, Hv.
  - unfold adminGate, authenticateToken, requireAdmin. intros code error.
    repeat case_match; intros; simplify_eq; auto.
  - intros word1 word2 rest H1 H2.
    unfold adminGate, authenticateToken.
    rewrite !split_first by done. simpl.
    assert (Hne : ∀ w, String.eqb (w ++ String " " rest)%string "" = false).
    { intros w. apply String.eqb_neq. by destruct w. }
    by rewrite !Hne.
Qed.

(** ** The export *)

Lemma countChar_append c s1 s2 :
  countChar c (s1 ++ s2) = (countChar c s1 + countChar c s2)%nat.
Proof. induction s1 as [|c' s1 IH]; simpl; [done | rewrite IH; lia]. Qed.

Lemma split_length sep s : length (Js.split sep s) = S (countChar sep s).
Proof.
  induction s as [|c s IH]; simpl; [done|].
  destruct (Ascii.eqb c sep); simpl; [by rewrite IH|].
  destruct (Js.split sep s); simpl in *; lia.
Qed.

Lemma countChar_join sep (l : list string) :
  countChar sep (Js.join (String sep EmptyString) l)
  = (pred (length l) + sum_list (countChar sep <$> l))%nat.
Proof.
  unfold Js.join. induction l as [|s l IH]; [done|].
  destruct l as [|s' l]; [simpl; lia|].
  change (String.concat (String sep "") (s :: s' :: l))
    with (s ++ String sep "" ++ String.concat (String sep "") (s' :: l))%string.
  rewrite !countChar_append, IH. simpl. rewrite Ascii.eqb_refl. lia.
Qed.

Section Exporting.
Context `{Runtime} `{Sorter} `{Show}.

(** X25: the lines of the CSV export are not quoted: a line has ten fields,
    as the header has, when no value has a comma, and one more for every
    comma in a value. *)
Theorem csv_lines_are_not_quoted (row : ObjectId * Booking.t) :
  length (Js.split "," (Js.join "," (csvValues row)))
  = (10 + sum_list (countChar "," <$> csvValues row))%nat
  ∧ length (Js.split "," csvHeader) = 10%nat.
Proof.
  split; [|reflexivity].
  rewrite split_length.
  change (Js.join "," (csvValues row))
    with (Js.join (String "," EmptyString) (csvValues row)).
  rewrite countChar_join. simpl. lia.
Qed.

(** X26: the CSV export without a period fails, with status 500, exactly
    when the store has no booking; with a booking it answers with a text. *)
Theorem csv_export_of_nothing_fails env sv :
  ((exportBookings env (Some "csv") None None sv).2
   = Fail (PersistenceError "Failed to export bookings")
   ↔ bookings sv = ∅)
  ∧ (bookings sv ≠ ∅ →
     ∃ text, exportBookings env (Some "csv") None None sv = (sv, Ok (Csv text))).
Proof.
  unfold exportBookings. simpl.
  assert (Hfound : sortBy newestFirst (find (λ _, true) (bookings sv)) = []
                   ↔ bookings sv = ∅).
  { split.
    - intros Hnil. apply map_to_list_empty_iff.
      pose proof (sortBy_Permutation _ newestFirst (find (λ _, true) (bookings sv)))
        as Hperm.
      rewrite Hnil in Hperm. apply Permutation_nil_l in Hperm.
      unfold find in Hperm.
      by rewrite forallb_filter_id in Hperm by (apply forallb_forall; done).
    - intros ->. apply Permutation_nil_r.
      etransitivity; [apply sortBy_Permutation|].
      unfold find. by rewrite map_to_list_empty. }
  destruct (sortBy newestFirst (find (λ _, true) (bookings sv))) as [|row found] eqn:E.
  - simpl. split; [by rewrite <- Hfound|]. intros Hne. destruct Hne. by apply Hfound.
  - simpl. split; [|eauto]. split; [done|]. intros Hempty.
    apply Hfound in Hempty. done.
Qed.

End Exporting.

(** ** The services of a category *)

Lemma popularThenName_total (x y : ObjectId * Service.t) :
  popularThenName x y = true ∨ popularThenName y x = true.
Proof.
  unfold popularThenName.
  destruct (Service.popular x.2), (Service.popular y.2); simpl; auto;
    apply String.leb_total.
Qed.

Section Categories.
Context `{Sorter}.

(** X27: the static [getByCategory] gives each available service of the
    category once and nothing else, the popular ones first, by name within
    the popular ones and within the others. *)
Theorem getByCategory_lists_what_is_available category (m : gmap ObjectId Service.t) :
  (∀ id s, (id, s) ∈ getByCategory category m
           ↔ m !! id = Some s ∧ Service.category s = category
             ∧ Service.available s = true)
  ∧ NoDup (getByCategory category m)
  ∧ Sorted (λ x y, popularThenName x y = true) (getByCategory category m).
Proof.
  unfold getByCategory. split; [|split].
  - intros id s. rewrite (sortBy_Permutation _ popularThenName).
    rewrite list_elem_of_In, filter_In, <- list_elem_of_In, elem_of_map_to_list.
    simpl. rewrite andb_true_iff, String.eqb_eq. tauto.
  - rewrite (sortBy_Permutation _ popularThenName).
    eapply sublist_NoDup; [apply NoDup_map_to_list | apply filter_sublist].
  - apply sortBy_Sorted, popularThenName_total.
Qed.

End Categories.

(** * The further properties at work in the example salon *)

(** The store that sorts by merging is a sorter. *)
Lemma mergeSortBy_Permutation (A : Type) (leb : A → A → bool) (l : list A) :
  mergeSortBy leb l ≡ₚ l.
Proof. apply merge_sort_Permutation. Qed.

Lemma mergeSortBy_Sorted (A : Type) (leb : A → A → bool) (l : list A) :
  (∀ x y, leb x y = true ∨ leb y x = true) →
  Sorted (λ x y, leb x y = true) (mergeSortBy leb l).
Proof. intros Htotal. by apply Sorted_merge_sort. Qed.

Definition mergeSorter : Sorter := {|
  sortBy := @mergeSortBy;
  sortBy_Permutation := mergeSortBy_Permutation;
  sortBy_Sorted := mergeSortBy_Sorted
|}.

Lemma failed_requests_write_nothing_witness :
  bookings (createBooking (H:=utc) (today 8%N) (ask "2030-01-07" "10:00")
              (bookedAt monday "10:00" "pending")).1
  = bookings (bookedAt monday "10:00" "pending")
  ∧ services (cancelBooking (today 0%N) 9%N (bookedAt monday "10:00" "pending")).1
    = services (bookedAt monday "10:00" "pending")
  ∧ (createBooking (H:=utc) (unanswered 7%N) (ask "2030-01-07" "10:00") salon).2
    = Fail (PersistenceError "Failed to create booking")
  ∧ ∃ b, Booking.status b = "pending"
         ∧ bookings (createBooking (H:=utc) (unanswered 7%N)
                       (ask "2030-01-07" "10:00") salon).1
           = <[7%N := b]> (bookings salon).
Proof.
  split; [|split; [|split; [reflexivity|]]].
  - destruct (proj1 (failed_requests_write_nothing (H:=utc) (today 8%N)
                       (bookedAt monday "10:00" "pending")
                       (bookedAt monday "10:00" "pending") Conflict)
                (ask "2030-01-07" "10:00") eq_refl)
      as [_ [Hb | (Hp & _)]]; [exact Hb | discriminate Hp].
  - exact (proj2 (proj1 (proj2 (proj2 (failed_requests_write_nothing (H:=utc) (today 0%N)
                           (bookedAt monday "10:00" "pending")
                           (bookedAt monday "10:00" "pending")
                           (NotFound "Booking not found"))))
                    9%N eq_refl)).
  - destruct (proj1 (failed_requests_write_nothing (H:=utc) (unanswered 7%N) salon
                       (createBooking (H:=utc) (unanswered 7%N)
                          (ask "2030-01-07" "10:00") salon).1
                       (PersistenceError "Failed to create booking"))
                (ask "2030-01-07" "10:00") eq_refl)
      as [_ [Hb | (_ & _ & _ & b & Hst & Hb)]].
    + apply (f_equal (λ m, m !! 7%N)) in Hb. vm_compute in Hb. discriminate Hb.
    + by exists b.
Defined.

Lemma statuses_stay_valid_witness :
  statuses_are_valid
    (run (H:=utc)
       [(today 7%N, PostBooking (ask "2030-01-07" "10:00"));
        (today 0%N, PatchStatus 7%N "confirmed");
        (today 0%N, PatchStatus 7%N "archived")] salon).
Proof.
  apply (statuses_stay_valid (H:=utc)). intros id b Hb.
  unfold salon in Hb. simpl in Hb. by rewrite lookup_empty in Hb.
Defined.

Lemma appointments_are_kept_witness :
  ∃ b', bookings (run (H:=utc) [(today 0%N, PatchStatus 7%N "confirmed");
                                (today 0%N, PatchCancel 7%N);
                                (today 0%N, DeleteService 1%N)]
                    (bookedAt monday "10:00" "pending")) !! 7%N = Some b'
        ∧ same_appointment (asked monday "10:00" "pending") b'.
Proof.
  apply (appointments_are_kept (H:=utc)). reflexivity.
Defined.

Lemma slots_are_a_part_of_the_grid_witness :
  ∃ slots,
    availableSlots (H:=utc) "2030-01-07" (Some 1%N) (bookedAt monday "10:00" "pending")
    = (bookedAt monday "10:00" "pending", Ok slots)
    ∧ slots `sublist_of` slotGrid ∧ length slots = 17%nat ∧ NoDup slots.
Proof.
  eexists. split; [reflexivity|].
  destruct (slots_are_a_part_of_the_grid (H:=utc) "2030-01-07" (Some 1%N)
              (bookedAt monday "10:00" "pending") _ _ eq_refl)
    as (_ & Hsub & _ & _ & Hnd).
  split; [exact Hsub|]. split; [reflexivity | exact Hnd].
Defined.

Lemma slots_ignore_the_service_witness :
  (Service.available <$> services (toggleAvailability (today 0%N) 1%N salon).1 !! 1%N)
  = Some false
  ∧ (availableSlots (H:=utc) "2030-01-07" (Some 1%N) salon).2
    = (availableSlots (H:=utc) "2030-01-07" (Some 1%N)
         (toggleAvailability (today 0%N) 1%N salon).1).2.
Proof.
  split; [reflexivity|].
  apply (slots_ignore_the_service (H:=utc)); [reflexivity | by eexists | by eexists].
Defined.

Lemma create_takes_one_slot_witness :
  ∃ before after,
    availableSlots (H:=utc) "2030-01-07" (Some 1%N) salon = (salon, Ok before)
    ∧ availableSlots (H:=utc) "2030-01-07" (Some 1%N) (afterAsk "2030-01-07" "10:00")
      = (afterAsk "2030-01-07" "10:00", Ok after)
    ∧ length before = 18%nat ∧ length after = 17%nat ∧ "10:00" ∉ after.
Proof.
  destruct (create_takes_one_slot (H:=utc) (today 7%N) (ask "2030-01-07" "10:00")
              salon (afterAsk "2030-01-07" "10:00") 7%N
              (asked monday "10:00" "pending") "2030-01-07" monday 1%N)
    as (before & after & Hbefore & Hafter & Heq & _).
  - reflexivity.
  - reflexivity.
  - by eexists.
  - exists before, after. split; [exact Hbefore|]. split; [exact Hafter|].
    assert (Hb : before = slotGrid).
    { assert (Hc : (availableSlots (H:=utc) "2030-01-07" (Some 1%N) salon).2 = Ok before)
        by by rewrite Hbefore.
      vm_compute in Hc. injection Hc as <-. reflexivity. }
    subst before after. split; [reflexivity|]. split; [reflexivity|]. by_evaluation.
Defined.

Lemma second_submission_conflicts_witness :
  createBooking (H:=utc) (today 8%N) (ask "2030-01-07" "10:00")
                (afterAsk "2030-01-07" "10:00")
  = (afterAsk "2030-01-07" "10:00", Fail Conflict).
Proof.
  apply (second_submission_conflicts (H:=utc) (today 7%N) (today 8%N)
           (ask "2030-01-07" "10:00") salon (afterAsk "2030-01-07" "10:00") 7%N
           (asked monday "10:00" "pending")); reflexivity.
Defined.

Lemma cancelled_slot_can_be_booked_again_witness :
  ∃ sv3 b3,
    createBooking (H:=utc) (today 8%N) (ask "2030-01-07" "10:00")
                  (cancelBooking (today 0%N) 7%N (afterAsk "2030-01-07" "10:00")).1
    = (sv3, Ok (8%N, b3))
    ∧ bookings sv3 !! 8%N = Some b3
    ∧ Booking.status b3 = "pending"
    ∧ (Booking.status <$> bookings sv3 !! 7%N) = Some "cancelled".
Proof.
  apply (cancelled_slot_can_be_booked_again (H:=utc) (today 7%N) (today 0%N) (today 8%N)
           (ask "2030-01-07" "10:00") salon (afterAsk "2030-01-07" "10:00")
           (cancelBooking (today 0%N) 7%N (afterAsk "2030-01-07" "10:00")).1
           7%N (asked monday "10:00" "pending") (asked monday "10:00" "cancelled"));
    reflexivity.
Defined.

Lemma listed_slot_can_be_booked_witness :
  ∃ sv' b,
    createBooking (H:=utc) (today 7%N) (ask "2030-01-07" "17:30") salon
    = (sv', Ok (7%N, b))
    ∧ bookings sv' !! 7%N = Some b
    ∧ Booking.appointmentTime b = "17:30".
Proof.
  apply (listed_slot_can_be_booked (H:=utc) (today 7%N) (ask "2030-01-07" "17:30")
           1%N salon slotGrid haircut monday); try reflexivity.
  by_evaluation.
Defined.

Lemma unlisted_slot_conflicts_witness :
  createBooking (H:=utc) (today 8%N) (ask "2030-01-07" "10:00")
                (bookedAt monday "10:00" "confirmed")
  = (bookedAt monday "10:00" "confirmed", Fail Conflict).
Proof.
  apply (unlisted_slot_conflicts (H:=utc) (today 8%N) (ask "2030-01-07" "10:00") 1%N
           (bookedAt monday "10:00" "confirmed")
           (List.filter (λ t, negb (String.eqb t "10:00")) slotGrid) monday).
  - reflexivity.
  - reflexivity.
  - by vm_compute.
  - by_evaluation.
  - by_evaluation.
  - reflexivity.
  - by eexists.
Defined.

Lemma formattedTime_is_the_12_hour_clock_witness :
  formattedTime "13:05" = Some "1:05 PM"
  ∧ formattedTime "00:30" = Some "12:30 AM"
  ∧ formattedTime "9:00" = Some "9:00 AM".
Proof.
  split; [|split].
  - exact (proj1 (formattedTime_is_the_12_hour_clock 13 5 ltac:(lia) ltac:(lia))).
  - exact (proj1 (formattedTime_is_the_12_hour_clock 0 30 ltac:(lia) ltac:(lia))).
  - exact (proj2 (formattedTime_is_the_12_hour_clock 9 0 ltac:(lia) ltac:(lia))
             ltac:(lia)).
Defined.

Lemma formattedTime_tells_times_apart_witness :
  formattedTime "09:00" ≠ formattedTime "21:00".
Proof.
  intros Heq.
  assert (Hsame : "09:00" = "21:00").
  { apply (formattedTime_tells_times_apart "09:00" "21:00"); [| |exact Heq];
      by_evaluation. }
  discriminate Hsame.
Defined.

Lemma one_digit_hour_books_a_taken_slot_witness :
  ∃ sv' b,
    createBooking (H:=utc) (today 8%N) (ask "2030-01-07" "9:00")
                  (bookedAt monday "09:00" "confirmed")
    = (sv', Ok (8%N, b))
    ∧ bookings sv' !! 7%N = Some (asked monday "09:00" "confirmed")
    ∧ bookings sv' !! 8%N = Some b
    ∧ Booking.active b = true
    ∧ Booking.appointmentDate b = monday
    ∧ Booking.appointmentTime b ≠ "09:00"
    ∧ formattedTime (Booking.appointmentTime b) = formattedTime "09:00".
Proof.
  apply (one_digit_hour_books_a_taken_slot (H:=utc) (today 8%N) (ask "2030-01-07" "9:00")
           (bookedAt monday "09:00" "confirmed") haircut 7%N
           (asked monday "09:00" "confirmed") 9 0); try reflexivity; try lia.
  intros id c Hc _ Ht. unfold bookedAt in Hc. simpl in Hc.
  apply lookup_singleton_Some in Hc as [_ <-]. discriminate Ht.
Defined.

Lemma getStats_total_by_status_witness :
  getStats (bookings (bookedAt monday "10:00" "cancelled")) = Stats.mk 1 0 0 0
  ∧ Stats.total (getStats (bookings (bookedAt monday "10:00" "cancelled")))
    = Stats.pending (getStats (bookings (bookedAt monday "10:00" "cancelled")))
      + Stats.confirmed (getStats (bookings (bookedAt monday "10:00" "cancelled")))
      + Stats.completed (getStats (bookings (bookedAt monday "10:00" "cancelled")))
      + countWhere (hasStatus "cancelled") (bookings (bookedAt monday "10:00" "cancelled")).
Proof.
  split; [reflexivity|].
  apply (getStats_total_by_status (bookedAt monday "10:00" "cancelled")).
  intros id b Hb. unfold bookedAt in Hb. simpl in Hb.
  apply lookup_singleton_Some in Hb as [_ <-]. by_evaluation.
Defined.

Lemma getStats_after_create_and_cancel_witness :
  getStats (bookings (afterAsk "2030-01-07" "10:00")) = Stats.mk 1 1 0 0
  ∧ getStats (bookings (cancelBooking (today 0%N) 7%N
                          (bookedAt monday "10:00" "confirmed")).1)
    = Stats.mk 1 0 0 0.
Proof.
  split.
  - exact (proj1 (getStats_after_create_and_cancel (H:=utc) (today 7%N) salon
                    (afterAsk "2030-01-07" "10:00"))
             (ask "2030-01-07" "10:00") 7%N (asked monday "10:00" "pending") eq_refl).
  - exact (proj2 (getStats_after_create_and_cancel (H:=utc) (today 0%N)
                    (bookedAt monday "10:00" "confirmed")
                    (cancelBooking (today 0%N) 7%N (bookedAt monday "10:00" "confirmed")).1)
             7%N (asked monday "10:00" "confirmed") (asked monday "10:00" "cancelled")
             eq_refl eq_refl).
Defined.

Lemma service_names_stay_unique_witness :
  (createService (today 2%N)
     (ServiceBody.mk "Haircut" "A classic cut and finish" 50 "45 min" "Hair"
                     "scissors" true true) salon).2
  = Fail (BadRequest "Service name already exists")
  ∧ names_are_unique
      (createService (today 2%N)
         (ServiceBody.mk "Manicure" "Shaping and polish" 30 "30 min" "Nails" "hand"
                         false true) salon).1.
Proof.
  split; [reflexivity|].
  assert (Hsalon : names_are_unique salon).
  { intros id1 id2 s1 s2 H1 H2 _. unfold salon in H1, H2. simpl in H1, H2.
    apply lookup_singleton_Some in H1 as [<- _].
    by apply lookup_singleton_Some in H2 as [<- _]. }
  apply (proj1 (service_names_stay_unique (today 2%N) salon Hsalon)).
Defined.

Lemma toggles_undo_each_other_witness :
  services (toggleAvailability (later 0%N) 1%N
              (toggleAvailability (today 0%N) 1%N salon).1).1
  = <[1%N := Service.pre_save (now (later 0%N)) haircut]> (services salon)
  ∧ Service.pre_save (now (later 0%N)) haircut ≠ haircut.
Proof.
  destruct (proj1 (toggles_undo_each_other (today 0%N) (later 0%N) 1%N salon
                     (toggleAvailability (today 0%N) 1%N salon).1
                     (toggleAvailability (later 0%N) 1%N
                        (toggleAvailability (today 0%N) 1%N salon).1).1
                     (Service.pre_save (now (today 0%N))
                        (Service.set_available false haircut))
                     (Service.pre_save (now (later 0%N)) haircut))
              eq_refl eq_refl)
    as (s & Hs & _ & Hsv & _).
  split; [exact Hsv | discriminate].
Defined.

Lemma created_booking_is_read_back_witness :
  ∃ service,
    getBooking 7%N (afterAsk "2030-01-07" "10:00")
    = (afterAsk "2030-01-07" "10:00", Ok (asked monday "10:00" "pending", Some service))
    ∧ Populated.price service = (50 : Q).
Proof.
  destruct (created_booking_is_read_back (H:=utc) (today 7%N) (ask "2030-01-07" "10:00")
              salon (afterAsk "2030-01-07" "10:00") 7%N
              (asked monday "10:00" "pending") eq_refl)
    as (service & Hget & _ & Hprice & _).
  exists service. split; [exact Hget | exact Hprice].
Defined.

Lemma booking_outlives_its_service_witness :
  getBooking 7%N (deleteService (today 0%N) 1%N (bookedAt monday "10:00" "pending")).1
  = ((deleteService (today 0%N) 1%N (bookedAt monday "10:00" "pending")).1,
     Ok (asked monday "10:00" "pending", None)).
Proof.
  apply (booking_outlives_its_service (today 0%N) 1%N
           (bookedAt monday "10:00" "pending") _ haircut 7%N
           (asked monday "10:00" "pending")); reflexivity.
Defined.

Lemma listed_bookings_match_the_query_witness :
  ∃ page,
    listBookings (H:=utc) (H0:=utcCalendar) (H1:=mergeSorter)
      (ListQuery.mk None (Some 2%positive) None (Some "2030-01-07")) threeBooked
    = (threeBooked, Ok page)
    ∧ ((λ entry, entry.1.1) <$> Listing.bookings page) = [8%N; 7%N]
    ∧ Sorted (λ x y, dateThenTime x.1 y.1 = true) (Listing.bookings page).
Proof.
  destruct (listBookings (H:=utc) (H0:=utcCalendar) (H1:=mergeSorter)
              (ListQuery.mk None (Some 2%positive) None (Some "2030-01-07")) threeBooked)
    as [sv' [page|e]] eqn:Hr.
  - destruct (listed_bookings_match_the_query (H:=utc) (H0:=utcCalendar) (H1:=mergeSorter)
                _ _ _ _ Hr) as (-> & _ & _ & Hsorted).
    exists page. split; [reflexivity|]. split; [|exact Hsorted].
    vm_compute in Hr. injection Hr as <-. reflexivity.
  - vm_compute in Hr. discriminate Hr.
Defined.

Lemma pages_cover_the_matches_witness :
  ∃ page,
    listBookings (H:=utc) (H0:=utcCalendar) (H1:=mergeSorter)
      (ListQuery.mk (Some 2%positive) (Some 2%positive) None None) threeBooked
    = (threeBooked, Ok page)
    ∧ Listing.total page = 3 ∧ Listing.totalPages page = 2
    ∧ Z.of_nat (length (Listing.bookings page)) = Z.min 2 (Z.max 0 (3 - (2 - 1) * 2)).
Proof.
  destruct (listBookings (H:=utc) (H0:=utcCalendar) (H1:=mergeSorter)
              (ListQuery.mk (Some 2%positive) (Some 2%positive) None None) threeBooked)
    as [sv' [page|e]] eqn:Hr.
  - destruct (pages_cover_the_matches (H:=utc) (H0:=utcCalendar) (H1:=mergeSorter)
                _ _ _ _ Hr) as (_ & _ & Hlen & _).
    assert (Hpage : sv' = threeBooked ∧ Listing.total page = 3
                    ∧ Listing.totalPages page = 2).
    { vm_compute in Hr. injection Hr as <- <-. by repeat split. }
    destruct Hpage as (-> & Htotal & Hpages).
    exists page. split; [reflexivity|]. split; [exact Htotal|]. split; [exact Hpages|].
    rewrite Hlen, Htotal. reflexivity.
  - vm_compute in Hr. discriminate Hr.
Defined.

Lemma other_instants_take_no_slot_witness :
  (availableSlots (H:=utc) "2030-01-07" (Some 1%N)
     (mkServer {[ 7%N := asked (monday + 36000000) "10:00" "pending" ]}
               {[ 1%N := haircut ]} [])).2
  = Ok slotGrid.
Proof.
  etransitivity;
    [exact (proj1 (other_instants_take_no_slot (H:=utc) salon 7%N
                     (asked (monday + 36000000) "10:00" "pending") monday
                     ltac:(by vm_compute))
              "2030-01-07" (Some 1%N) eq_refl)
    | reflexivity].
Defined.

Lemma admin_gate_lets_admins_through_witness :
  adminGate verifyExample (Some "Bearer good") = Next
  ∧ adminGate verifyExample (Some "Basic good") = adminGate verifyExample (Some "Bearer good")
  ∧ adminGate verifyExample (Some "Bearer user") = Deny 403 "Admin access required"
  ∧ adminGate verifyExample (Some "good") = Deny 401 "Access token required".
Proof.
  split; [|split; [|split; reflexivity]].
  - apply (proj1 (admin_gate_lets_admins_through verifyExample (Some "Bearer good"))).
    exists "Bearer good", "good". by repeat split.
  - exact (proj2 (proj2 (admin_gate_lets_admins_through verifyExample None))
             "Basic" "Bearer" "good" eq_refl eq_refl).
Defined.

Lemma csv_export_of_nothing_fails_witness :
  (exportBookings (H:=utc) (H0:=mergeSorter) (H1:=plainShow) (today 0%N)
     (Some "csv") None None salon).2
  = Fail (PersistenceError "Failed to export bookings")
  ∧ ∃ text,
      exportBookings (H:=utc) (H0:=mergeSorter) (H1:=plainShow) (today 0%N)
        (Some "csv") None None (bookedAt monday "10:00" "pending")
      = (bookedAt monday "10:00" "pending", Ok (Csv text)).
Proof.
  split.
  - by apply (proj1 (csv_export_of_nothing_fails (H:=utc) (H0:=mergeSorter)
                       (H1:=plainShow) (today 0%N) salon)).
  - apply (proj2 (csv_export_of_nothing_fails (H:=utc) (H0:=mergeSorter)
                    (H1:=plainShow) (today 0%N) (bookedAt monday "10:00" "pending"))).
    intros Hempty. apply (f_equal (λ m, m !! 7%N)) in Hempty. discriminate Hempty.
Defined.

Lemma getByCategory_lists_what_is_available_witness :
  (1%N, haircut) ∈ getByCategory (H:=mergeSorter) "Hair" catalogue
  ∧ (fst <$> getByCategory (H:=mergeSorter) "Hair" catalogue) = [1%N; 2%N].
Proof.
  split; [|reflexivity].
  apply (proj1 (getByCategory_lists_what_is_available (H:=mergeSorter) "Hair" catalogue)).
  by repeat split.
Defined.

(** * The duration of a service in minutes *)

Lemma list_ascii_of_string_append s1 s2 :
  list_ascii_of_string (s1 ++ s2) = list_ascii_of_string s1 ++ list_ascii_of_string s2.
Proof. induction s1 as [|c s1 IH]; simpl; [done | by rewrite IH]. Qed.

(** A star of a class takes a run of its characters whole when the rest
    then matches. *)
Lemma star_class_run {R} p (k : list ascii → Search.captures → option R)
    run rest caps fuel result :
  Forall (λ c, p c = true) run →
  match rest with c :: _ => p c = false | [] => True end →
  (length run ≤ fuel)%nat →
  k rest caps = Some result →
  Search.star (Search.bt (Search.Class p)) k fuel (run ++ rest) caps = Some result.
Proof.
  intros Hrun Hrest. revert fuel. induction Hrun as [|c run Hc _ IH]; intros fuel Hf Hk.
  - simpl. destruct fuel as [|fuel]; simpl; [done|].
    destruct rest as [|c rest]; simpl; [done|]. by rewrite Hrest.
  - destruct fuel as [|fuel]; simpl in Hf; [lia|]. simpl. rewrite Hc.
    assert (Hlt : (length (run ++ rest) <? S (length (run ++ rest)))%nat = true)
      by (apply Nat.ltb_lt; lia).
    rewrite Hlt. rewrite IH; [done | lia | done].
Qed.

(** A matcher fails when what is to match after it fails on every rest of
    the input. *)
Lemma star_fails {R}
    (m : list ascii → Search.captures
         → (list ascii → Search.captures → option R) → option R)
    (k : list ascii → Search.captures → option R) fuel s caps :
  (∀ s1 caps1 k1,
     s1 `suffix_of` s →
     (∀ s2 caps2, s2 `suffix_of` s1 → k1 s2 caps2 = None) →
     m s1 caps1 k1 = None) →
  (∀ s' caps', s' `suffix_of` s → k s' caps' = None) →
  Search.star m k fuel s caps = None.
Proof.
  intros Hm Hk. assert (Hs : s `suffix_of` s) by done. revert Hs.
  generalize s at 1 3 as s0. revert caps.
  induction fuel as [|fuel IH]; intros caps s0 Hs; simpl; [by apply Hk|].
  rewrite Hm; [by apply Hk | done |].
  intros s2 caps2 Hs2. destruct (length s2 <? length s0)%nat; [|done].
  apply IH. by etransitivity.
Qed.

Lemma bt_fails {R} r s caps (k : list ascii → Search.captures → option R) :
  (∀ s' caps', s' `suffix_of` s → k s' caps' = None) →
  Search.bt r s caps k = None.
Proof.
  revert s caps k. induction r as [p|r1 IH1 r2 IH2|r IH|n r IH]; intros s caps k Hk; simpl.
  - destruct s as [|c s]; [done|]. destruct (p c); [|done].
    apply Hk. by apply suffix_cons_r.
  - apply IH1. intros s' caps' Hs'. apply IH2. intros s2 caps2 Hs2.
    apply Hk. by etransitivity.
  - apply star_fails; [|done]. intros s1 caps1 k1 _ Hk1. by apply IH.
  - apply IH. intros s' caps' Hs'. by apply Hk.
Qed.

Lemma white_is_no_digit c : Str.is_white c = true → isDigit c = false.
Proof.
  destruct c as [[] [] [] [] [] [] [] []]; vm_compute; congruence.
Qed.

(** The search skips a character that is no digit. *)
Lemma search_skips pre rest :
  Forall (λ c, isDigit c = false) pre →
  Search.search durationPattern (pre ++ rest) = Search.search durationPattern rest.
Proof.
  induction 1 as [|c pre Hc _ IH]; [done|]. simpl. by rewrite Hc.
Qed.

(** The equations of the matcher. *)
Lemma bt_Seq {R} r1 r2 s caps (k : list ascii → Search.captures → option R) :
  Search.bt (Search.Seq r1 r2) s caps k
  = Search.bt r1 s caps (λ s' caps', Search.bt r2 s' caps' k).
Proof. done. Qed.

Lemma bt_Group {R} n r s caps (k : list ascii → Search.captures → option R) :
  Search.bt (Search.Group n r) s caps k
  = Search.bt r s caps
      (λ s' caps', k s' ((n, take (length s - length s') s) :: caps')).
Proof. done. Qed.

Lemma bt_Star {R} r s caps (k : list ascii → Search.captures → option R) :
  Search.bt (Search.Star r) s caps k
  = Search.star (Search.bt r) k (length s) s caps.
Proof. done. Qed.

Lemma bt_Class {R} p c s caps (k : list ascii → Search.captures → option R) :
  p c = true → Search.bt (Search.Class p) (c :: s) caps k = k s caps.
Proof. intros Hp. simpl. by rewrite Hp. Qed.

Lemma bt_Class_false {R} p c s caps (k : list ascii → Search.captures → option R) :
  p c = false → Search.bt (Search.Class p) (c :: s) caps k = None.
Proof. intros Hp. simpl. by rewrite Hp. Qed.

(** The match at a run of digits that white space and [min] follow. *)
Lemma search_finds d ds ws post :
  isDigit d = true →
  Forall (λ c, isDigit c = true) ds →
  Forall (λ c, Str.is_white c = true) ws →
  Search.search durationPattern
    (d :: ds ++ ws ++ "m"%char :: "i"%char :: "n"%char :: post)
  = Some [(1%nat, d :: ds)].
Proof.
  intros Hd Hds Hws.
  assert (Hm : Search.bt durationPattern
                 (d :: ds ++ ws ++ "m"%char :: "i"%char :: "n"%char :: post) []
                 (λ _ caps, Some caps)
               = Some [(1%nat, d :: ds)]).
  { unfold durationPattern, Search.Plus.
    rewrite bt_Seq, bt_Group, bt_Seq, bt_Class, bt_Star by done.
    apply star_class_run; [done | | rewrite length_app; lia |].
    { destruct ws as [|w ws]; simpl; [done|].
      apply white_is_no_digit. by apply Forall_cons in Hws as [? _]. }
    replace (take (length (d :: ds ++ ws ++ "m"%char :: "i"%char :: "n"%char :: post)
                   - length (ws ++ "m"%char :: "i"%char :: "n"%char :: post))
                  (d :: ds ++ ws ++ "m"%char :: "i"%char :: "n"%char :: post))
      with (d :: ds).
    2: { change (d :: ds ++ ws ++ "m"%char :: "i"%char :: "n"%char :: post)
           with ((d :: ds) ++ ws ++ "m"%char :: "i"%char :: "n"%char :: post).
         rewrite length_app.
         replace (length (d :: ds)
                  + length (ws ++ "m"%char :: "i"%char :: "n"%char :: post)
                  - length (ws ++ "m"%char :: "i"%char :: "n"%char :: post))%nat
           with (length (d :: ds)) by lia.
         by rewrite take_app_length. }
    rewrite bt_Seq, bt_Star.
    apply star_class_run; [done | done | rewrite length_app; lia |].
    by rewrite bt_Seq, bt_Class, bt_Seq, bt_Class, bt_Class by done. }
  unfold Search.search. fold Search.search. by rewrite Hm.
Qed.

(** X28: when the first digits of a duration ("45 min", "about 90minutes")
    are followed, after white space or none, by [min], the virtual
    [durationMinutes] is the number those digits write: what [parseInt]
    gives for them. *)
Theorem durationMinutes_reads_the_digits pre digits ws post :
  Forall (λ c, isDigit c = false) (list_ascii_of_string pre) →
  digits ≠ "" →
  Forall (λ c, isDigit c = true) (list_ascii_of_string digits) →
  Forall (λ c, Str.is_white c = true) (list_ascii_of_string ws) →
  durationMinutes (pre ++ digits ++ ws ++ "min" ++ post) = Js.parseInt digits.
Proof.
  intros Hpre Hne Hds Hws. unfold durationMinutes.
  rewrite list_ascii_of_string_append, search_skips by done.
  destruct digits as [|d ds]; [done|]. simpl in Hds.
  apply Forall_cons in Hds as [Hd Hds].
  change (list_ascii_of_string (String d ds ++ ws ++ "min" ++ post)%string)
    with (d :: list_ascii_of_string (ds ++ ws ++ "min" ++ post)%string).
  rewrite !list_ascii_of_string_append.
  change (list_ascii_of_string "min")
    with ["m"%char; "i"%char; "n"%char].
  change (["m"%char; "i"%char; "n"%char] ++ list_ascii_of_string post)
    with ("m"%char :: "i"%char :: "n"%char :: list_ascii_of_string post).
  rewrite search_finds by done.
  change (default [] (Search.group 1 [(1%nat, d :: list_ascii_of_string ds)]))
    with (list_ascii_of_string (String d ds)).
  by rewrite string_of_list_ascii_of_string.
Qed.

(** X29: a duration without the letter m ("2 hours") has 0 minutes. *)
Theorem durationMinutes_without_min duration :
  countChar "m" duration = 0%nat →
  durationMinutes duration = Some (Js.Int 0).
Proof.
  intros Hno. unfold durationMinutes.
  assert (Hm : ∀ s, s `suffix_of` list_ascii_of_string duration →
                    Search.search durationPattern s = None).
  { assert (Hin : ∀ c, c ∈ list_ascii_of_string duration → Ascii.eqb "m" c = false).
    { revert Hno. induction duration as [|c' s IH];
        cbn [countChar list_ascii_of_string]; intros Hno c Hc.
      - by apply elem_of_nil in Hc.
      - destruct (Ascii.eqb c' "m") eqn:E; [done|].
        apply elem_of_cons in Hc as [->|Hc]; [|by apply IH].
        by rewrite Ascii.eqb_sym. }
    intros s. induction s as [|c s IH]; intros Hs.
    - simpl. done.
    - assert (Hfail : Search.bt durationPattern (c :: s) []
                        (λ _ caps, Some caps) = None).
      { unfold durationPattern. rewrite bt_Seq.
        apply bt_fails. intros s1 caps1 Hs1. rewrite bt_Seq.
        apply bt_fails. intros s2 caps2 Hs2. rewrite bt_Seq.
        destruct s2 as [|c2 s2]; [done|].
        apply bt_Class_false, Hin.
        destruct Hs as [l1 Hs]. destruct Hs1 as [l2 Hs1]. destruct Hs2 as [l3 Hs2].
        rewrite Hs, Hs1, Hs2. set_solver. }
      unfold Search.search. fold Search.search. rewrite Hfail. apply IH.
      by apply suffix_cons_l in Hs. }
  by rewrite Hm.
Qed.

Lemma durationMinutes_reads_the_digits_witness :
  durationMinutes "45 min" = Some (Js.Int 45)
  ∧ durationMinutes "about 90minutes" = Some (Js.Int 90).
Proof.
  split.
  - exact (durationMinutes_reads_the_digits "" "45" " " ""
             ltac:(by_evaluation) ltac:(done) ltac:(by_evaluation) ltac:(by_evaluation)).
  - exact (durationMinutes_reads_the_digits "about " "90" "" "utes"
             ltac:(by_evaluation) ltac:(done) ltac:(by_evaluation) ltac:(by_evaluation)).
Defined.

Lemma durationMinutes_without_min_witness :
  durationMinutes "2 hours" = Some (Js.Int 0).
Proof. exact (durationMinutes_without_min "2 hours" eq_refl). Defined.
